(** * discord-anti-spam: a shallow embedding of [src/index.ts]

    The development follows the class [AntiSpamClient]: its options and
    their defaults (the constructor), its cache, the four sanction routines
    ([banUser], [muteUser], [kickUser], [warnUser]) and the three public
    entry points ([message], [userleave], [reset]).

    Conventions of the embedding.
    - JavaScript numbers that the code uses as counts, thresholds and
      millisecond timestamps are integers of [Z]: the options and timestamps
      are taken to be integers that a double holds exactly, and so are the
      sums, differences and products the code forms of them ([safeInteger]);
      [NaN], infinities and fractions are outside the embedding.
    - Snowflakes and message contents are [string]s compared with [===].
    - [this.cache] is threaded explicitly: every routine is a function from
      the cache before the call to an [Outcome] holding the value returned,
      the cache after the call and the list of effects on the outside world
      (platform calls, messages sent, events emitted) in program order.
    - Every assignment to [this.cache] in the sanction routines happens
      before their first [await], so a call that [message] does not await
      has changed the cache by the time [message] goes on; the effects of
      that call are listed where the call is made.
    - Answers of the outside world ([Date.now()], the member fetched from
      the guild or the failure of that fetch, whether a platform promise
      resolves) are read from a [World] record.
    - A promise settles to [Some v] when it resolves to [v] and to [None]
      when it rejects.
    - In the sanction routines and in [message] a text that is sent is an
      effect that names the sanction it is about; [sendActionMessage],
      [log] and [clearSpamMessages] are embedded on their own further down,
      with what they send and delete.  Console output is not modelled.
    - The effect [Invoke] marks the place where [message] calls a sanction
      routine, with the messages it hands over. *)

From Stdlib Require Import List String Ascii ZArith Bool Lia.
From Stdlib Require Import Permutation Sorted.
Import ListNotations.

Local Open Scope Z_scope.

(** ** The platform objects the code reads *)

Definition Snowflake : Type := string.
Definition PermissionFlag : Type := N.

Record User : Type := mkUser {
  user_id : Snowflake;
  user_bot : bool;
  user_tag : string
}.

Record Role : Type := mkRole {
  role_id : Snowflake;
  role_name : string
}.

(** [guild.members.me]: whether it holds [ModerateMembers], and the position
    of its highest role. *)
Record Me : Type := mkMe {
  me_canModerate : bool;
  me_highestPosition : Z
}.

Record Guild : Type := mkGuild {
  guild_id : Snowflake;
  guild_ownerId : Snowflake;
  guild_name : string;
  guild_me : option Me
}.

Record GuildMember : Type := mkMember {
  member_user : User;
  member_guild : Guild;
  member_roles : list Role;                      (* roles.cache *)
  member_highestPosition : option Z;             (* roles.highest?.position *)
  member_hasPermission : PermissionFlag -> bool; (* permissions.has *)
  member_bannable : bool;
  member_kickable : bool
}.

Record Channel : Type := mkChannel {
  channel_id : Snowflake;
  channel_isGuildText : bool      (* type === ChannelType.GuildText *)
}.

Record Message : Type := mkMessage {
  msg_id : Snowflake;
  msg_guild : option Guild;
  msg_author : User;
  msg_clientUserId : Snowflake;   (* message.client.user.id *)
  msg_member : option GuildMember;
  msg_channel : Channel;
  msg_content : string;
  msg_createdTimestamp : Z
}.

(** What the outside world answers during one call. *)
Record World : Type := mkWorld {
  now : Z;                        (* Date.now() *)
  fetchedMember : option GuildMember;
    (* guild.members.fetch(author): [None] when the promise rejects *)
  banResolves : bool;             (* member.ban(...) *)
  timeoutResolves : bool;         (* member.timeout(...) *)
  kickResolves : bool             (* member.kick(...) *)
}.

(** ** Cache *)

Record CachedMessage : Type := mkCached {
  messageID : Snowflake;
  guildID : Snowflake;
  authorID : Snowflake;
  channelID : Snowflake;
  content : string;
  sentTimestamp : Z
}.

Record AntiSpamCache : Type := mkCache {
  messages : list CachedMessage;
  warnedUsers : list Snowflake;
  kickedUsers : list Snowflake;
  bannedUsers : list Snowflake
}.

(** ** Options *)

(** An ignore option is an array of ids or a predicate. *)
Inductive IgnoreOption (A : Type) : Type :=
| IgnoreIds (ids : list Snowflake)
| IgnoreFunction (f : A -> bool).
Arguments IgnoreIds {A} ids.
Arguments IgnoreFunction {A} f.

(** [AntiSpamClientOptions]: what the caller passes; [None] is a field left
    out.  Only the fields the modelled routines read are kept. *)
Record AntiSpamClientOptions : Type := mkClientOptions {
  opt_warnThreshold : option Z;
  opt_muteThreshold : option Z;
  opt_kickThreshold : option Z;
  opt_banThreshold : option Z;
  opt_maxInterval : option Z;
  opt_maxDuplicatesInterval : option Z;
  opt_maxDuplicatesWarn : option Z;
  opt_maxDuplicatesMute : option Z;
  opt_maxDuplicatesKick : option Z;
  opt_maxDuplicatesBan : option Z;
  opt_unMuteTime : option Z;
  opt_modLogsEnabled : option bool;
  opt_actionInEmbed : option bool;
  opt_errorMessages : option bool;
  opt_ignoredMembers : option (IgnoreOption GuildMember);
  opt_ignoredRoles : option (IgnoreOption Role);
  opt_ignoredGuilds : option (IgnoreOption Guild);
  opt_ignoredChannels : option (IgnoreOption Channel);
  opt_ignoredPermissions : option (list PermissionFlag);
  opt_ignoreBots : option bool;
  opt_warnEnabled : option bool;
  opt_kickEnabled : option bool;
  opt_muteEnabled : option bool;
  opt_banEnabled : option bool;
  opt_ipwarnEnabled : option bool;
  opt_deleteMessagesAfterBanForPastDays : option Z;
  opt_debug : option bool;
  opt_removeMessages : option bool
}.

(** [this.options] *)
Record Options : Type := mkOptions {
  warnThreshold : Z;
  muteThreshold : Z;
  kickThreshold : Z;
  banThreshold : Z;
  maxInterval : Z;
  maxDuplicatesInterval : Z;
  maxDuplicatesWarn : Z;
  maxDuplicatesMute : Z;
  maxDuplicatesKick : Z;
  maxDuplicatesBan : Z;
  unMuteTime : Z;
  modLogsEnabled : bool;
  actionInEmbed : bool;
  errorMessages : bool;
  ignoredMembers : IgnoreOption GuildMember;
  ignoredRoles : IgnoreOption Role;
  ignoredGuilds : IgnoreOption Guild;
  ignoredChannels : IgnoreOption Channel;
  ignoredPermissions : list PermissionFlag;
  ignoreBots : bool;
  warnEnabled : bool;
  ipwarnEnabled : bool;
  kickEnabled : bool;
  muteEnabled : bool;
  banEnabled : bool;
  deleteMessagesAfterBanForPastDays : Z;
  debug : bool;
  removeMessages : bool
}.

(** An integer that a double holds exactly. *)
Definition safeInteger (z : Z) : Prop := Z.abs z <= 2 ^ 53.

(** [x || d] on an optional integer: a missing field and [0] are falsy. *)
Definition numberOr (x : option Z) (d : Z) : Z :=
  match x with
  | Some v => if v =? 0 then d else v
  | None => d
  end.

(** [x || false] on an optional boolean. *)
Definition boolOrFalse (x : option bool) : bool :=
  match x with
  | Some v => v
  | None => false
  end.

(** [x ?? d] *)
Definition nullish {A : Type} (x : option A) (d : A) : A :=
  match x with
  | Some v => v
  | None => d
  end.

(** The constructor's [this.options = { ... }], for a caller who gives
    integers.  [unMuteTime] is the product of the minutes given and 60000
    in [Z], which is the double the code computes when that product is a
    [safeInteger]. *)
Definition constructorOptions (options : AntiSpamClientOptions) : Options :=
  {| warnThreshold := numberOr (opt_warnThreshold options) 3;
     muteThreshold := numberOr (opt_muteThreshold options) 4;
     kickThreshold := numberOr (opt_kickThreshold options) 5;
     banThreshold := numberOr (opt_banThreshold options) 7;
     maxInterval := numberOr (opt_maxInterval options) 2000;
     maxDuplicatesInterval := numberOr (opt_maxDuplicatesInterval options) 2000;
     maxDuplicatesWarn := numberOr (opt_maxDuplicatesWarn options) 7;
     maxDuplicatesMute := numberOr (opt_maxDuplicatesMute options) 9;
     maxDuplicatesKick := numberOr (opt_maxDuplicatesKick options) 10;
     maxDuplicatesBan := numberOr (opt_maxDuplicatesBan options) 11;
     unMuteTime :=
       numberOr (Some (nullish (opt_unMuteTime options) 5 * 60000)) 300000;
     modLogsEnabled := boolOrFalse (opt_modLogsEnabled options);
     actionInEmbed := boolOrFalse (opt_actionInEmbed options);
     errorMessages := nullish (opt_errorMessages options) true;
     ignoredMembers := nullish (opt_ignoredMembers options) (IgnoreIds []);
     ignoredRoles := nullish (opt_ignoredRoles options) (IgnoreIds []);
     ignoredGuilds := nullish (opt_ignoredGuilds options) (IgnoreIds []);
     ignoredChannels := nullish (opt_ignoredChannels options) (IgnoreIds []);
     ignoredPermissions := nullish (opt_ignoredPermissions options) [];
     ignoreBots := nullish (opt_ignoreBots options) true;
     warnEnabled := nullish (opt_warnEnabled options) true;
     ipwarnEnabled := nullish (opt_ipwarnEnabled options) false;
     kickEnabled := nullish (opt_kickEnabled options) true;
     muteEnabled := nullish (opt_muteEnabled options) true;
     banEnabled := nullish (opt_banEnabled options) true;
     deleteMessagesAfterBanForPastDays :=
       numberOr (opt_deleteMessagesAfterBanForPastDays options) 1;
     debug := boolOrFalse (opt_debug options);
     removeMessages := nullish (opt_removeMessages options) true |}.

(** The constructor's [this.cache = { ... }], which is also what [reset]
    assigns. *)
Definition emptyCache : AntiSpamCache :=
  {| messages := []; warnedUsers := []; kickedUsers := []; bannedUsers := [] |}.

(** ** Effects and outcomes *)

Inductive Sanction : Type := Ban | Mute | Kick | Warn.

Definition Sanction_eqb (a b : Sanction) : bool :=
  match a, b with
  | Ban, Ban | Mute, Mute | Kick, Kick | Warn, Warn => true
  | _, _ => false
  end.

Inductive Effect : Type :=
| Invoke (s : Sanction) (spamMessages : list CachedMessage)
    (* [message] calls [this.banUser], [this.muteUser], ... *)
| ClearSpamMessages (spamMessages : list CachedMessage)
| DeleteMessage (id : Snowflake)          (* message.delete() *)
| SendIpNotice (c : Channel)              (* "Don't post IP's in chat!" *)
| SendErrorMessage (s : Sanction)         (* options.<s>ErrorMessage *)
| PlatformBan (deleteMessageSeconds : Z)  (* member.ban(...) *)
| PlatformTimeout (duration : Z)          (* member.timeout(...) *)
| PlatformKick                            (* member.kick(...) *)
| SendActionMessage (s : Sanction)
| ModLog (s : Sanction)                   (* this.log(...) with logs enabled *)
| Emit (s : Sanction) (member : GuildMember) (c : Channel) (m : Message).
    (* banAdd, muteAdd, kickAdd, warnAdd *)

Record Outcome (A : Type) : Type := mkOutcome {
  value : A;
  cacheAfter : AntiSpamCache;
  effects : list Effect
}.
Arguments mkOutcome {A} value cacheAfter effects.
Arguments value {A} o.
Arguments cacheAfter {A} o.
Arguments effects {A} o.

(** A routine of the client: it reads and assigns [this.cache] and acts on
    the outside world. *)
Definition Async (A : Type) : Type := AntiSpamCache -> Outcome A.

Definition ret {A : Type} (a : A) : Async A :=
  fun c => mkOutcome a c [].

Definition bind {A B : Type} (t : Async A) (k : A -> Async B) : Async B :=
  fun c =>
    let r1 := t c in
    let r2 := k (value r1) (cacheAfter r1) in
    mkOutcome (value r2) (cacheAfter r2) (effects r1 ++ effects r2).

Definition getCache : Async AntiSpamCache :=
  fun c => mkOutcome c c [].

Definition setCache (c' : AntiSpamCache) : Async unit :=
  fun _ => mkOutcome tt c' [].

Definition perform (e : Effect) : Async unit :=
  fun c => mkOutcome tt c [e].

Definition when (b : bool) (t : Async unit) : Async unit :=
  if b then t else ret tt.

Declare Scope async_scope.
Delimit Scope async_scope with async.
Notation "x <- t ;; k" := (bind t (fun x => k))
  (at level 61, t at next level, right associativity) : async_scope.
Notation "t ;; k" := (bind t (fun _ => k))
  (at level 61, right associativity) : async_scope.
Local Open Scope async_scope.

(** ** Helpers of the code *)

(** [Array.prototype.includes] on snowflakes *)
Definition includes (l : list Snowflake) (x : Snowflake) : bool :=
  existsb (String.eqb x) l.

(** [array.length] as a number *)
Definition len {A : Type} (l : list A) : Z := Z.of_nat (List.length l).

(** [this.cache.messages.filter((u) => u.authorID !== id)] *)
Definition withoutAuthor (id : Snowflake) (l : list CachedMessage)
  : list CachedMessage :=
  filter (fun u => negb (authorID u =? id)%string) l.

Definition setMessages (l : list CachedMessage) : Async unit :=
  c <- getCache ;;
  setCache {| messages := l;
              warnedUsers := warnedUsers c;
              kickedUsers := kickedUsers c;
              bannedUsers := bannedUsers c |}.

Definition pushWarned (id : Snowflake) : Async unit :=
  c <- getCache ;;
  setCache {| messages := messages c;
              warnedUsers := warnedUsers c ++ [id];
              kickedUsers := kickedUsers c;
              bannedUsers := bannedUsers c |}.

Definition pushKicked (id : Snowflake) : Async unit :=
  c <- getCache ;;
  setCache {| messages := messages c;
              warnedUsers := warnedUsers c;
              kickedUsers := kickedUsers c ++ [id];
              bannedUsers := bannedUsers c |}.

Definition pushBanned (id : Snowflake) : Async unit :=
  c <- getCache ;;
  setCache {| messages := messages c;
              warnedUsers := warnedUsers c;
              kickedUsers := kickedUsers c;
              bannedUsers := bannedUsers c ++ [id] |}.

Definition pushMessage (m : CachedMessage) : Async unit :=
  c <- getCache ;;
  setCache {| messages := messages c ++ [m];
              warnedUsers := warnedUsers c;
              kickedUsers := kickedUsers c;
              bannedUsers := bannedUsers c |}.

(** ** Sanction routines

    Each returns what its promise settles to: [Some b] when it resolves to
    [b], [None] when it rejects: a platform call without [catch] failed, or
    [sendActionMessage] threw.

    [sendActionMessage] is called synchronously and, when
    [options.actionInEmbed] is set, begins by building an embed whose title
    is [this.options[`${action}Title`]] (lines 367-369 and 404-406).  For
    the four actions the routines pass this key is no field of the options,
    the title is [undefined], and [EmbedBuilder.setTitle] throws on it: the
    routine stops there, before [this.log] and [this.emit], and its promise
    rejects.  [sendActionMessage] itself is embedded further down. *)

Section Routines.

Variable options : Options.
Variable world : World.

Definition authorOf (message : Message) : Snowflake :=
  user_id (msg_author message).

Definition inGuildText (message : Message) : bool :=
  channel_isGuildText (msg_channel message).

(** The first lines of [banUser], [muteUser], [kickUser] and [warnUser]:
    [if (this.options.removeMessages && spamMessages)]; an array is truthy. *)
Definition clearIfEnabled (spamMessages : list CachedMessage) : Async unit :=
  when (removeMessages options) (perform (ClearSpamMessages spamMessages)).

Definition purgeAuthor (message : Message) : Async unit :=
  c <- getCache ;;
  setMessages (withoutAuthor (authorOf message) (messages c)).

(** The last lines of [banUser], [muteUser] and [kickUser]. *)
Definition afterSanction (s : Sanction) (message : Message)
    (member : GuildMember) : Async (option bool) :=
  if actionInEmbed options then ret None
  else
    perform (SendActionMessage s) ;;
    when (modLogsEnabled options) (perform (ModLog s)) ;;
    perform (Emit s member (msg_channel message) message) ;;
    ret (Some true).

Definition banUser (message : Message) (member : GuildMember)
    (spamMessages : list CachedMessage) : Async (option bool) :=
  clearIfEnabled spamMessages ;;
  purgeAuthor message ;;
  pushBanned (authorOf message) ;;
  if negb (member_bannable member) then
    when (errorMessages options)
      (match msg_guild message with
       | Some _ => when (inGuildText message) (perform (SendErrorMessage Ban))
       | None => ret tt
       end) ;;
    ret (Some false)
  else
    match msg_member message with
    | Some _ =>
        perform (PlatformBan
                   (60 * 60 * 24 * deleteMessagesAfterBanForPastDays options)) ;;
        when (negb (banResolves world) && errorMessages options
                && inGuildText message)
          (perform (SendErrorMessage Ban))
    | None => ret tt
    end ;;
    afterSanction Ban message member.

(** [userCanBeMuted] of [muteUser] *)
Definition memberCanBeMuted (message : Message) : bool :=
  match msg_guild message with
  | None => false
  | Some g =>
      match guild_me g with
      | None => false
      | Some me =>
          me_canModerate me
          && (match msg_member message with
              | Some mb => nullish (member_highestPosition mb) (-1)
              | None => -1
              end <? me_highestPosition me)
          && match msg_member message with
             | Some mb =>
                 negb (user_id (member_user mb) =? guild_ownerId g)%string
             | None => true
             end
      end
  end.

Definition muteUser (message : Message) (member : GuildMember)
    (spamMessages : list CachedMessage) : Async (option bool) :=
  clearIfEnabled spamMessages ;;
  purgeAuthor message ;;
  if negb (memberCanBeMuted message) then
    when (errorMessages options && inGuildText message)
      (perform (SendErrorMessage Mute)) ;;
    ret (Some false)
  else
    match msg_member message with
    | Some _ =>
        perform (PlatformTimeout (unMuteTime options)) ;;
        if timeoutResolves world
        then afterSanction Mute message member
        else ret None
    | None => afterSanction Mute message member
    end.

(** The text sent when the member is not kickable is
    [options.muteErrorMessage] in the source. *)
Definition kickUser (message : Message) (member : GuildMember)
    (spamMessages : list CachedMessage) : Async (option bool) :=
  clearIfEnabled spamMessages ;;
  purgeAuthor message ;;
  pushKicked (authorOf message) ;;
  if negb (member_kickable member) then
    when (errorMessages options && inGuildText message)
      (perform (SendErrorMessage Mute)) ;;
    ret (Some false)
  else
    match msg_member message with
    | Some _ =>
        perform PlatformKick ;;
        if kickResolves world
        then afterSanction Kick message member
        else ret None
    | None => afterSanction Kick message member
    end.

Definition warnUser (message : Message) (member : GuildMember)
    (spamMessages : list CachedMessage) : Async (option bool) :=
  clearIfEnabled spamMessages ;;
  pushWarned (authorOf message) ;;
  when (modLogsEnabled options) (perform (ModLog Warn)) ;;
  if actionInEmbed options then ret None
  else
    perform (SendActionMessage Warn) ;;
    perform (Emit Warn member (msg_channel message) message) ;;
    ret (Some true).

(** ** The admission filter of [message] *)

Definition isMemberIgnored (message : Message) : bool :=
  match ignoredMembers options with
  | IgnoreFunction f =>
      match msg_member message with
      | Some mb => f mb
      | None => false
      end
  | IgnoreIds ids => includes ids (authorOf message)
  end.

Definition isGuildIgnored (g : Guild) : bool :=
  match ignoredGuilds options with
  | IgnoreFunction f => f g
  | IgnoreIds ids => includes ids (guild_id g)
  end.

Definition isChannelIgnored (c : Channel) : bool :=
  match ignoredChannels options with
  | IgnoreFunction f => f c
  | IgnoreIds ids => includes ids (channel_id c)
  end.

Definition memberHasIgnoredRoles (member : GuildMember) : bool :=
  match ignoredRoles options with
  | IgnoreFunction f => existsb f (member_roles member)
  | IgnoreIds ids =>
      existsb
        (fun roleId =>
           existsb (fun r => (role_id r =? roleId)%string) (member_roles member))
        ids
  end.

(** Lines 1052-1080: the guild of the message, unless [message] returns
    [false] before it looks for the member. *)
Definition earlyAdmission (message : Message) : option Guild :=
  match msg_guild message with
  | None => None
  | Some g =>
      if (authorOf message =? msg_clientUserId message)%string
         || ((guild_ownerId g =? authorOf message)%string
             && negb (debug options))
         || (ignoreBots options && user_bot (msg_author message))
      then None
      else if isMemberIgnored message then None
      else if isGuildIgnored g then None
      else if isChannelIgnored (msg_channel message) then None
      else Some g
  end.

(** Lines 1082-1083,
    [message.member || (await message.guild.members.fetch(message.author))]:
    [None] when the member is not cached and the fetch rejects. *)
Definition memberOf (message : Message) : option GuildMember :=
  match msg_member message with
  | Some mb => Some mb
  | None => fetchedMember world
  end.

(** Lines 1052-1118: the guild and the member the rest works with; [None]
    when [message] ends before touching the cache, because it returns
    [false] or because the fetch of the member rejects. *)
Definition admission (message : Message) : option (Guild * GuildMember) :=
  match earlyAdmission message with
  | None => None
  | Some g =>
      match memberOf message with
      | None => None
      | Some member =>
          if memberHasIgnoredRoles member then None
          else if existsb (member_hasPermission member)
                    (ignoredPermissions options)
          then None
          else Some (g, member)
      end
  end.

(** The fetch of line 1083 is awaited without [catch]: when it rejects, so
    does [message]. *)
Definition fetchFails (message : Message) : bool :=
  match earlyAdmission message, memberOf message with
  | Some _, None => true
  | _, _ => false
  end.

End Routines.

(** ** The IP pattern of [message]: [/([0-9]{1,3}\.){3}[0-9]{1,3}/] *)

Definition isDigit (a : ascii) : bool :=
  let n := nat_of_ascii a in
  (Nat.leb 48 n && Nat.leb n 57)%bool.

Definition isDot (a : ascii) : bool := Ascii.eqb a "."%char.

(** One group [[0-9]{1,3}\.] at the head of the text: what follows it. *)
Definition octetDot (s : list ascii) : option (list ascii) :=
  match s with
  | d1 :: s1 =>
      if isDigit d1 then
        match s1 with
        | d2 :: s2 =>
            if isDot d2 then Some s2
            else if isDigit d2 then
              match s2 with
              | d3 :: s3 =>
                  if isDot d3 then Some s3
                  else if isDigit d3 then
                    match s3 with
                    | d4 :: s4 => if isDot d4 then Some s4 else None
                    | [] => None
                    end
                  else None
              | [] => None
              end
            else None
        | [] => None
        end
      else None
  | [] => None
  end.

Definition ipAt (s : list ascii) : bool :=
  match octetDot s with
  | Some s1 =>
      match octetDot s1 with
      | Some s2 =>
          match octetDot s2 with
          | Some (d :: _) => isDigit d
          | _ => false
          end
      | None => false
      end
  | None => false
  end.

Fixpoint ipAnywhere (s : list ascii) : bool :=
  ipAt s || match s with
            | [] => false
            | _ :: rest => ipAnywhere rest
            end.

Definition matchesIp (text : string) : bool :=
  ipAnywhere (list_ascii_of_string text).

(** ** Lines 1162-1172: the run of duplicates *)

(** [cachedMessages.sort((a, b) => b.sentTimestamp - a.sentTimestamp)]:
    [Array.prototype.sort] is stable, so the result is the one arrangement
    by descending timestamp that keeps equal timestamps in their order;
    inserting each record in front of the first one not newer than it
    builds that arrangement. *)
Fixpoint insertDesc (x : CachedMessage) (l : list CachedMessage)
  : list CachedMessage :=
  match l with
  | [] => [x]
  | y :: rest =>
      if sentTimestamp x <? sentTimestamp y
      then y :: insertDesc x rest
      else x :: y :: rest
  end.

Definition sortDesc (l : list CachedMessage) : list CachedMessage :=
  fold_right insertDesc [] l.

(** The callback of [forEach]; the pair is [(rowBroken, spamOtherDuplicates)]. *)
Definition walk (first : CachedMessage) (st : bool * list CachedMessage)
    (element : CachedMessage) : bool * list CachedMessage :=
  if fst st then st
  else if negb (content element =? content first)%string then (true, snd st)
  else (false, snd st ++ [element]).

(** [cachedMessages] as the block leaves it (sorted in place when the walk
    runs) and [spamOtherDuplicates]. *)
Definition duplicateRun (cachedMessages duplicateMatches : list CachedMessage)
  : list CachedMessage * list CachedMessage :=
  match duplicateMatches with
  | [] => (cachedMessages, [])
  | first :: _ =>
      let sorted := sortDesc cachedMessages in
      (sorted, snd (fold_left (walk first) sorted (false, [])))
  end.

Definition spamOtherDuplicates
    (cachedMessages duplicateMatches : list CachedMessage)
  : list CachedMessage :=
  snd (duplicateRun cachedMessages duplicateMatches).

(** ** [message], [userleave], [reset] *)

Section Client.

Variable options : Options.
Variable world : World.

(** [this.xxxUser(message, member, spam)] without [await]: what the promise
    settles to is dropped, a rejection included. *)
Definition call (s : Sanction) (spam : list CachedMessage)
    (routine : Async (option bool)) : Async unit :=
  perform (Invoke s spam) ;;
  _ <- routine ;;
  ret tt.

Section Tiers.

Variable message : Message.
Variable member : GuildMember.
Variables duplicateMatches otherDuplicates spamMatches : list CachedMessage.

(** Each block of lines 1180-1247 takes [sanctioned] and gives its new
    value. *)

Definition banTier (sanctioned : bool) : Async bool :=
  c <- getCache ;;
  let userCanBeBanned :=
    banEnabled options
    && negb (includes (bannedUsers c) (authorOf message))
    && negb sanctioned in
  if userCanBeBanned && (banThreshold options <=? len spamMatches) then
    call Ban spamMatches (banUser options world message member spamMatches) ;;
    ret true
  else if userCanBeBanned
          && (maxDuplicatesBan options <=? len duplicateMatches) then
    call Ban (duplicateMatches ++ otherDuplicates)
      (banUser options world message member
         (duplicateMatches ++ otherDuplicates)) ;;
    ret true
  else ret sanctioned.

Definition muteTier (sanctioned : bool) : Async bool :=
  let userCanBeMuted := muteEnabled options && negb sanctioned in
  if userCanBeMuted && (muteThreshold options <=? len spamMatches) then
    call Mute spamMatches (muteUser options world message member spamMatches) ;;
    ret true
  else if userCanBeMuted
          && (maxDuplicatesMute options <=? len duplicateMatches) then
    call Mute (duplicateMatches ++ otherDuplicates)
      (muteUser options world message member
         (duplicateMatches ++ otherDuplicates)) ;;
    ret true
  else ret sanctioned.

Definition kickTier (sanctioned : bool) : Async bool :=
  c <- getCache ;;
  let userCanBeKicked :=
    kickEnabled options
    && negb (includes (kickedUsers c) (authorOf message))
    && negb sanctioned in
  if userCanBeKicked && (kickThreshold options <=? len spamMatches) then
    call Kick spamMatches (kickUser options world message member spamMatches) ;;
    ret true
  else if userCanBeKicked
          && (maxDuplicatesKick options <=? len duplicateMatches) then
    call Kick (duplicateMatches ++ otherDuplicates)
      (kickUser options world message member
         (duplicateMatches ++ otherDuplicates)) ;;
    ret true
  else ret sanctioned.

(** The first branch is [return true], the second sets [sanctioned] and
    falls to [return sanctioned]. *)
Definition warnTier (sanctioned : bool) : Async bool :=
  c <- getCache ;;
  let userCanBeWarned :=
    warnEnabled options
    && negb (includes (warnedUsers c) (authorOf message))
    && negb sanctioned in
  if userCanBeWarned && (warnThreshold options <=? len spamMatches) then
    call Warn spamMatches (warnUser options message member spamMatches) ;;
    ret true
  else if userCanBeWarned
          && (maxDuplicatesWarn options <=? len duplicateMatches) then
    call Warn (duplicateMatches ++ otherDuplicates)
      (warnUser options message member
         (duplicateMatches ++ otherDuplicates)) ;;
    ret true
  else ret sanctioned.

(** Lines 1178-1249 *)
Definition evaluateTiers : Async bool :=
  s1 <- banTier false ;;
  s2 <- muteTier s1 ;;
  s3 <- kickTier s2 ;;
  warnTier s3.

End Tiers.

Definition currentMessageOf (message : Message) (g : Guild) : CachedMessage :=
  {| messageID := msg_id message;
     guildID := guild_id g;
     authorID := authorOf message;
     channelID := channel_id (msg_channel message);
     content := msg_content message;
     sentTimestamp := msg_createdTimestamp message |}.

(** [this.cache.messages.filter(...)] of line 1130 *)
Definition cachedMessagesOf (message : Message) (g : Guild)
    (l : list CachedMessage) : list CachedMessage :=
  filter (fun m => (authorID m =? authorOf message)%string
                   && (guildID m =? guild_id g)%string) l.

(** [cachedMessages.filter(...)] of line 1134 *)
Definition duplicateMatchesOf (message : Message)
    (cachedMessages : list CachedMessage) : list CachedMessage :=
  filter (fun m => (content m =? msg_content message)%string
                   && (msg_createdTimestamp message
                       - maxDuplicatesInterval options <? sentTimestamp m))
    cachedMessages.

(** [cachedMessages.filter(...)] of line 1174 *)
Definition spamMatchesOf (cachedMessages : list CachedMessage)
  : list CachedMessage :=
  filter (fun m => now world - maxInterval options <? sentTimestamp m)
    cachedMessages.

(** What the promise of [message] settles to: [None] when it rejects. *)
Definition message (message : Message) : Async (option bool) :=
  match admission options world message with
  | None => ret (if fetchFails options world message then None else Some false)
  | Some (g, member) =>
      pushMessage (currentMessageOf message g) ;;
      c <- getCache ;;
      let cachedMessages := cachedMessagesOf message g (messages c) in
      let duplicateMatches := duplicateMatchesOf message cachedMessages in
      if ipwarnEnabled options then
        when (matchesIp (msg_content message))
          (perform (DeleteMessage (msg_id message)) ;;
           when (inGuildText message)
             (perform (SendIpNotice (msg_channel message)))) ;;
        let run := duplicateRun cachedMessages duplicateMatches in
        sanctioned <- evaluateTiers message member duplicateMatches (snd run)
                        (spamMatchesOf (fst run)) ;;
        ret (Some sanctioned)
      else ret (Some false)
  end.

Definition userleave (member : GuildMember) : Async bool :=
  if isGuildIgnored options (member_guild member) then ret false
  else
    c <- getCache ;;
    let gone := user_id (member_user member) in
    let keep := fun u => negb (u =? gone)%string in
    setCache {| messages := messages c;
                warnedUsers := filter keep (warnedUsers c);
                kickedUsers := filter keep (kickedUsers c);
                bannedUsers := filter keep (bannedUsers c) |} ;;
    ret true.

End Client.

Definition reset : Async unit := setCache emptyCache.

(** ** The tier selection in the words of the specification

    The specification describes lines 1178-1249 as one ordered search:
    ban, mute, kick, warn; the first tier that is eligible and whose count
    or duplicate threshold is reached is the one that fires.  These
    definitions follow that description; [evaluateTiers_selectTier] below
    compares them with the code. *)

Section Selection.

Variable options : Options.

Definition tierOrder : list Sanction := [Ban; Mute; Kick; Warn].

Definition tierEnabled (s : Sanction) : bool :=
  match s with
  | Ban => banEnabled options
  | Mute => muteEnabled options
  | Kick => kickEnabled options
  | Warn => warnEnabled options
  end.

(** The users already recorded for a tier; nothing is recorded for mute. *)
Definition recordedUsers (s : Sanction) (c : AntiSpamCache) : list Snowflake :=
  match s with
  | Ban => bannedUsers c
  | Mute => []
  | Kick => kickedUsers c
  | Warn => warnedUsers c
  end.

Definition eligible (s : Sanction) (author : Snowflake) (c : AntiSpamCache)
  : bool :=
  tierEnabled s && negb (includes (recordedUsers s c) author).

Definition countThreshold (s : Sanction) : Z :=
  match s with
  | Ban => banThreshold options
  | Mute => muteThreshold options
  | Kick => kickThreshold options
  | Warn => warnThreshold options
  end.

Definition duplicateThreshold (s : Sanction) : Z :=
  match s with
  | Ban => maxDuplicatesBan options
  | Mute => maxDuplicatesMute options
  | Kick => maxDuplicatesKick options
  | Warn => maxDuplicatesWarn options
  end.

Definition thresholdReached (s : Sanction) (windowCount duplicateCount : Z)
  : bool :=
  (countThreshold s <=? windowCount)
  || (duplicateThreshold s <=? duplicateCount).

Definition selectTier (author : Snowflake) (c : AntiSpamCache)
    (windowCount duplicateCount : Z) : option Sanction :=
  find (fun s => eligible s author c
                 && thresholdReached s windowCount duplicateCount)
    tierOrder.

Variable world : World.

Definition routineOf (s : Sanction)
  : Message -> GuildMember -> list CachedMessage -> Async (option bool) :=
  match s with
  | Ban => banUser options world
  | Mute => muteUser options world
  | Kick => kickUser options world
  | Warn => warnUser options
  end.

(** The messages handed to the routine: the window when the count
    threshold is reached, otherwise the duplicates. *)
Definition spamOf (s : Sanction)
    (duplicateMatches otherDuplicates spamMatches : list CachedMessage)
  : list CachedMessage :=
  if countThreshold s <=? len spamMatches
  then spamMatches
  else (duplicateMatches ++ otherDuplicates)%list.

(** What [message] does once tier [s] is the one that fires. *)
Definition fire (s : Sanction) (message : Message) (member : GuildMember)
    (duplicateMatches otherDuplicates spamMatches : list CachedMessage)
  : Async bool :=
  let spam := spamOf s duplicateMatches otherDuplicates spamMatches in
  call s spam (routineOf s message member spam) ;;
  ret true.

End Selection.

(** The sanctions whose routine was called, in order. *)
Fixpoint invoked (l : list Effect) : list Sanction :=
  match l with
  | [] => []
  | Invoke s _ :: rest => s :: invoked rest
  | _ :: rest => invoked rest
  end.

(** The events emitted, in order. *)
Fixpoint emitted (l : list Effect) : list Sanction :=
  match l with
  | [] => []
  | Emit s _ _ _ :: rest => s :: emitted rest
  | _ :: rest => emitted rest
  end.

(** A run of [message] calls from one client. *)
Fixpoint afterMessages (options : Options) (events : list (World * Message))
    (c : AntiSpamCache) : AntiSpamCache :=
  match events with
  | [] => c
  | (w, m) :: rest =>
      afterMessages options rest (cacheAfter (message options w m c))
  end.

(** The cache after line 1128, [this.cache.messages.push(currentMessage)]. *)
Definition pushed (c : AntiSpamCache) (m : CachedMessage) : AntiSpamCache :=
  {| messages := messages c ++ [m];
     warnedUsers := warnedUsers c;
     kickedUsers := kickedUsers c;
     bannedUsers := bannedUsers c |}.

(** What the IP block of lines 1141-1153 does to the outside world. *)
Definition ipEffects (message : Message) : list Effect :=
  if matchesIp (msg_content message) then
    DeleteMessage (msg_id message)
    :: (if inGuildText message
        then [SendIpNotice (msg_channel message)]
        else [])
  else [].

(** The locals of [message] for a message admitted into cache [c]. *)
Section Locals.

Variable options : Options.
Variable world : World.
Variable message : Message.
Variable g : Guild.
Variable c : AntiSpamCache.

Definition cachedAt : list CachedMessage :=
  cachedMessagesOf message g
    (messages (pushed c (currentMessageOf message g))).

Definition duplicatesAt : list CachedMessage :=
  duplicateMatchesOf options message cachedAt.

Definition otherDuplicatesAt : list CachedMessage :=
  snd (duplicateRun cachedAt duplicatesAt).

Definition windowAt : list CachedMessage :=
  spamMatchesOf options world (fst (duplicateRun cachedAt duplicatesAt)).

(** [spamMatches.length] and [duplicateMatches.length] *)
Definition windowCount : Z := len windowAt.
Definition duplicateCount : Z := len duplicatesAt.

End Locals.

(** Severity order of the tiers: the position in [tierOrder]. *)
Definition rank (s : Sanction) : nat :=
  match s with
  | Ban => 0
  | Mute => 1
  | Kick => 2
  | Warn => 3
  end.

(** The longest prefix whose elements satisfy [f]. *)
Fixpoint takeWhile {A : Type} (f : A -> bool) (l : list A) : list A :=
  match l with
  | [] => []
  | x :: rest => if f x then x :: takeWhile f rest else []
  end.

(** [a] comes before [b] in descending order of [sentTimestamp]. *)
Definition newerFirst (a b : CachedMessage) : Prop :=
  sentTimestamp b <= sentTimestamp a.

(** [after] is [before] without the records of [author], whatever their
    guild, and with the records of everybody else as they were. *)
Definition purgedOf (author : Snowflake) (before after : list CachedMessage)
  : Prop :=
  (forall r, In r after <-> In r before /\ authorID r <> author)
  /\ (forall guild,
        filter (fun r => (authorID r =? author)%string
                         && (guildID r =? guild)%string) after = [])
  /\ (forall other, other <> author ->
        filter (fun r => (authorID r =? other)%string) after
        = filter (fun r => (authorID r =? other)%string) before).

(** Whether tier [s] is eligible and has a threshold reached when [message]
    handles [msg], admitted in guild [g], on cache [c]. *)
Definition qualifies (options : Options) (world : World) (msg : Message)
    (g : Guild) (c : AntiSpamCache) (s : Sanction) : bool :=
  eligible options s (authorOf msg) c
  && thresholdReached options s
       (windowCount options world msg g c) (duplicateCount options msg g c).

(** Whether the platform refuses the sanction: the tests made by [banUser],
    [muteUser] and [kickUser]; a warning is never refused. *)
Definition denied (s : Sanction) (message : Message) (member : GuildMember)
  : bool :=
  match s with
  | Ban => negb (member_bannable member)
  | Mute => negb (memberCanBeMuted message)
  | Kick => negb (member_kickable member)
  | Warn => false
  end.

(** The calls to the platform that carry out a sanction. *)
Definition isPlatformCall (e : Effect) : bool :=
  match e with
  | PlatformBan _ | PlatformTimeout _ | PlatformKick => true
  | _ => false
  end.

(** ** Concrete clients and events used in the examples *)

Module Example.

Local Open Scope string_scope.

(** The options object of a caller who sets at most these fields. *)
Definition given (ipwarn : option bool) (mute ban : option Z)
    (warnOn muteOn kickOn banOn remove : option bool)
    (guilds : option (IgnoreOption Guild)) : AntiSpamClientOptions :=
  {| opt_warnThreshold := None; opt_muteThreshold := mute;
     opt_kickThreshold := None; opt_banThreshold := ban;
     opt_maxInterval := None; opt_maxDuplicatesInterval := None;
     opt_maxDuplicatesWarn := None; opt_maxDuplicatesMute := None;
     opt_maxDuplicatesKick := None; opt_maxDuplicatesBan := None;
     opt_unMuteTime := None; opt_modLogsEnabled := None;
     opt_actionInEmbed := None;
     opt_errorMessages := None; opt_ignoredMembers := None;
     opt_ignoredRoles := None; opt_ignoredGuilds := guilds;
     opt_ignoredChannels := None; opt_ignoredPermissions := None;
     opt_ignoreBots := None; opt_warnEnabled := warnOn;
     opt_kickEnabled := kickOn; opt_muteEnabled := muteOn;
     opt_banEnabled := banOn; opt_ipwarnEnabled := ipwarn;
     opt_deleteMessagesAfterBanForPastDays := None; opt_debug := None;
     opt_removeMessages := remove |}.

(** [new AntiSpamClient({})] *)
Definition defaultOptions : Options :=
  constructorOptions (given None None None None None None None None None).

(** [new AntiSpamClient({ ipwarnEnabled: true })] *)
Definition ipwarnOptions : Options :=
  constructorOptions
    (given (Some true) None None None None None None None None).

(** [{ ipwarnEnabled: true, muteThreshold: 3 }] *)
Definition muteAtThree : Options :=
  constructorOptions
    (given (Some true) (Some 3) None None None None None None None).

(** Only the ban tier, at two messages, with [removeMessages] as given:
    [{ ipwarnEnabled: true, banThreshold: 2, warnEnabled: false,
       muteEnabled: false, kickEnabled: false, removeMessages }] *)
Definition banOnlyOptions (remove : bool) : Options :=
  constructorOptions
    (given (Some true) None (Some 2) (Some false) (Some false) (Some false)
       None (Some remove) None).

(** Only the mute tier, at two messages:
    [{ ipwarnEnabled: true, muteThreshold: 2, warnEnabled: false,
       kickEnabled: false, banEnabled: false }] *)
Definition muteOnlyOptions : Options :=
  constructorOptions
    (given (Some true) (Some 2) None (Some false) None (Some false)
       (Some false) None None).

(** [{ ipwarnEnabled: true, actionInEmbed: true }] *)
Definition embedOptions : Options :=
  constructorOptions
    {| opt_warnThreshold := None; opt_muteThreshold := None;
       opt_kickThreshold := None; opt_banThreshold := None;
       opt_maxInterval := None; opt_maxDuplicatesInterval := None;
       opt_maxDuplicatesWarn := None; opt_maxDuplicatesMute := None;
       opt_maxDuplicatesKick := None; opt_maxDuplicatesBan := None;
       opt_unMuteTime := None; opt_modLogsEnabled := None;
       opt_actionInEmbed := Some true;
       opt_errorMessages := None; opt_ignoredMembers := None;
       opt_ignoredRoles := None; opt_ignoredGuilds := None;
       opt_ignoredChannels := None; opt_ignoredPermissions := None;
       opt_ignoreBots := None; opt_warnEnabled := None;
       opt_kickEnabled := None; opt_muteEnabled := None;
       opt_banEnabled := None; opt_ipwarnEnabled := Some true;
       opt_deleteMessagesAfterBanForPastDays := None; opt_debug := None;
       opt_removeMessages := None |}.

(** [{ ignoredGuilds: ["guild-2"] }] *)
Definition ignoringGuild2 : Options :=
  constructorOptions
    (given None None None None None None None None
       (Some (IgnoreIds ["guild-2"]))).

Definition guild1 : Guild :=
  {| guild_id := "guild-1"; guild_ownerId := "owner"; guild_name := "One";
     guild_me := Some {| me_canModerate := true; me_highestPosition := 10 |} |}.

Definition guild2 : Guild :=
  {| guild_id := "guild-2"; guild_ownerId := "owner"; guild_name := "Two";
     guild_me := Some {| me_canModerate := true; me_highestPosition := 10 |} |}.


Definition alice : User :=
  {| user_id := "alice"; user_bot := false; user_tag := "alice#0001" |}.

Definition aliceIn (g : Guild) (sanctionable : bool) : GuildMember :=
  {| member_user := alice; member_guild := g; member_roles := [];
     member_highestPosition := Some 1;
     member_hasPermission := fun _ => false;
     member_bannable := sanctionable; member_kickable := sanctionable |}.

Definition general : Channel :=
  {| channel_id := "general"; channel_isGuildText := true |}.

(** A message of alice in guild [g]. *)
Definition postIn (g : Guild) (sanctionable : bool) (id text : string)
    (t : Z) : Message :=
  {| msg_id := id; msg_guild := Some g; msg_author := alice;
     msg_clientUserId := "client";
     msg_member := Some (aliceIn g sanctionable);
     msg_channel := general; msg_content := text;
     msg_createdTimestamp := t |}.

Definition post : bool -> string -> string -> Z -> Message := postIn guild1.

(** The same message when the member is not in the cache of the guild. *)
Definition uncached (m : Message) : Message :=
  {| msg_id := msg_id m; msg_guild := msg_guild m;
     msg_author := msg_author m; msg_clientUserId := msg_clientUserId m;
     msg_member := None;
     msg_channel := msg_channel m; msg_content := msg_content m;
     msg_createdTimestamp := msg_createdTimestamp m |}.

(** The world when [Date.now()] is [t]. *)
Definition worldAt (t : Z) : World :=
  {| now := t; fetchedMember := Some (aliceIn guild1 true);
     banResolves := true; timeoutResolves := true; kickResolves := true |}.

Definition record (guild id text : string) (t : Z) : CachedMessage :=
  {| messageID := id; guildID := guild; authorID := "alice";
     channelID := "general"; content := text; sentTimestamp := t |}.

Definition bobRecord : CachedMessage :=
  {| messageID := "b1"; guildID := "guild-1"; authorID := "bob";
     channelID := "general"; content := "hello"; sentTimestamp := 50 |}.

(** Three messages of alice in [guild1], created at 0, 500 and 1000 ms:
    the cache after the first two, each handled when it was created, and
    the outcome of the third, handled when [Date.now()] is [t]. *)
Definition afterTwoFrom (options : Options) (c : AntiSpamCache)
  : AntiSpamCache :=
  afterMessages options
    [(worldAt 0, post true "m1" "one" 0);
     (worldAt 500, post true "m2" "two" 500)]
    c.

Definition thirdFrom (options : Options) (t : Z) (c : AntiSpamCache)
  : Outcome (option bool) :=
  message options (worldAt t) (post true "m3" "three" 1000)
    (afterTwoFrom options c).

Definition afterTwo (options : Options) : AntiSpamCache :=
  afterTwoFrom options emptyCache.

Definition third (options : Options) : Outcome (option bool) :=
  thirdFrom options 1000 emptyCache.

(** A fourth message of alice in [guild1], 100 ms after three others that
    are 100 ms apart, all handled when they were created. *)
Definition afterThree (options : Options) : AntiSpamCache :=
  afterMessages options
    [(worldAt 0, post true "m1" "one" 0);
     (worldAt 100, post true "m2" "two" 100);
     (worldAt 200, post true "m3" "three" 200)]
    emptyCache.

Definition fourth (options : Options) : Outcome (option bool) :=
  message options (worldAt 300) (post true "m4" "four" 300)
    (afterThree options).

(** Alice was warned before and has no message in the cache. *)
Definition warnedCache : AntiSpamCache :=
  {| messages := []; warnedUsers := ["alice"]; kickedUsers := [];
     bannedUsers := [] |}.

(** Alice is recorded as banned and has three messages of the last 300 ms
    in the cache. *)
Definition bannedCache : AntiSpamCache :=
  {| messages := [record "guild-1" "m1" "one" 0;
                  record "guild-1" "m2" "two" 100;
                  record "guild-1" "m3" "three" 200];
     warnedUsers := []; kickedUsers := []; bannedUsers := ["alice"] |}.

(** Records of alice in two guilds and one of bob. *)
Definition mixedCache : AntiSpamCache :=
  {| messages := [record "guild-1" "m1" "one" 0; bobRecord;
                  record "guild-2" "m2" "two" 100];
     warnedUsers := ["alice"; "bob"]; kickedUsers := ["alice"];
     bannedUsers := ["bob"; "alice"] |}.


(** The world when [Date.now()] is [t] and the platform rejects whatever
    it is asked for. *)
Definition failingWorld (t : Z) : World :=
  {| now := t; fetchedMember := None;
     banResolves := false; timeoutResolves := false; kickResolves := false |}.

(** The second of two messages of alice in [guild1], 100 ms apart, handled
    by the client that only mutes, in the given world. *)
Definition secondMuted (w : World) : Outcome (option bool) :=
  message muteOnlyOptions w (post true "m2" "two" 100)
    (cacheAfter
       (message muteOnlyOptions (worldAt 0) (post true "m1" "one" 0)
          emptyCache)).

End Example.

(** ** The three entry points as events of one client *)

Inductive ClientEvent : Type :=
| OnMessage (w : World) (m : Message)
| OnLeave (member : GuildMember)
| OnReset.

Definition handle (options : Options) (e : ClientEvent) (c : AntiSpamCache)
  : AntiSpamCache :=
  match e with
  | OnMessage w m => cacheAfter (message options w m c)
  | OnLeave member => cacheAfter (userleave options member c)
  | OnReset => cacheAfter (reset c)
  end.

Definition afterEvents (options : Options) (events : list ClientEvent)
    (c : AntiSpamCache) : AntiSpamCache :=
  fold_left (fun c' e => handle options e c') events c.

(** The records that a run of [message] calls pushes: one for each message
    that passes the admission filter. *)
Definition admittedRecords (options : Options)
    (events : list (World * Message)) : list CachedMessage :=
  flat_map
    (fun e => match admission options (fst e) (snd e) with
              | Some (g, _) => [currentMessageOf (snd e) g]
              | None => []
              end)
    events.

(** Whether the routine of [s] was called / its event emitted. *)
Definition called (s : Sanction) (l : list Effect) : bool :=
  existsb (Sanction_eqb s) (invoked l).

(** [message.delete()] and the notice of the IP block. *)
Definition isIpEffect (e : Effect) : bool :=
  match e with
  | DeleteMessage _ | SendIpNotice _ => true
  | _ => false
  end.

(** One to three digits, as [[0-9]{1,3}] matches them. *)
Definition digits13 (l : list ascii) : Prop :=
  (1 <= List.length l <= 3)%nat /\ Forall (fun a => isDigit a = true) l.

(** ** [clearSpamMessages] (lines 742-769)

    [client.channels.cache] gives for a channel id the channel, if cached;
    a channel has a message manager or not (the cast to [TextBasedChannel]
    does not check); [messages.cache] gives for a message id whether the
    cached message is deletable.  The result lists the calls of
    [msg.delete()], as channel and message id; a rejected deletion is only
    logged.  Reading [channel.messages.cache] on a channel without manager
    throws inside [forEach]; the surrounding [try] catches it, which ends
    the loop. *)

Record PlatformChannel : Type := mkPlatformChannel {
  pc_messages : option (Snowflake -> option bool)
}.

Definition ClientChannels : Type := Snowflake -> option PlatformChannel.

Fixpoint clearSpamMessages (client : ClientChannels)
    (spamMessages : list CachedMessage) : list (Snowflake * Snowflake) :=
  match spamMessages with
  | [] => []
  | m :: rest =>
      match client (channelID m) with
      | None => clearSpamMessages client rest
      | Some channel =>
          match pc_messages channel with
          | None => []
          | Some cache =>
              match cache (messageID m) with
              | Some true =>
                  (channelID m, messageID m) :: clearSpamMessages client rest
              | _ => clearSpamMessages client rest
              end
          end
      end
  end.

(** The records [clearSpamMessages] can delete. *)
Definition deletableIn (client : ClientChannels) (m : CachedMessage) : bool :=
  match client (channelID m) with
  | Some channel =>
      match pc_messages channel with
      | Some cache =>
          match cache (messageID m) with
          | Some true => true
          | _ => false
          end
      | None => false
      end
  | None => false
  end.

(** A record whose channel is cached but has no message manager: reading
    [channel.messages.cache] for it throws. *)
Definition withoutManager (client : ClientChannels) (m : CachedMessage)
  : bool :=
  match client (channelID m) with
  | Some channel =>
      match pc_messages channel with
      | Some _ => false
      | None => true
      end
  | None => false
  end.

(** ** The options of presentation

    The fields of [this.options], all of them strings, that
    [sendActionMessage] and [log] read and that the routines above do
    not. *)

Record PresentationOptions : Type := mkPresentationOptions {
  opt_modLogsChannel : option string;
  opt_modLogsMode : option string;
  opt_warnMessage : option string;
  opt_muteMessage : option string;
  opt_kickMessage : option string;
  opt_banMessage : option string;
  opt_actionEmbedIn : option string;
  opt_actionEmbedColor : option string;
  opt_warnEmbedTitle : option string;
  opt_kickEmbedTitle : option string;
  opt_muteEmbedTitle : option string;
  opt_banEmbedTitle : option string;
  opt_embedTitleIconURL : option string;
  opt_warnEmbedDescription : option string;
  opt_kickEmbedDescription : option string;
  opt_muteEmbedDescription : option string;
  opt_banEmbedDescription : option string;
  opt_warnEmbedFooter : option string;
  opt_kickEmbedFooter : option string;
  opt_muteEmbedFooter : option string;
  opt_banEmbedFooter : option string;
  opt_embedFooterIconURL : option string;
  opt_kickErrorMessage : option string;
  opt_banErrorMessage : option string;
  opt_muteErrorMessage : option string
}.

Record Presentation : Type := mkPresentation {
  modLogsChannel : string;
  modLogsMode : string;
  warnMessage : string;
  muteMessage : string;
  kickMessage : string;
  banMessage : string;
  actionEmbedIn : string;
  actionEmbedColor : string;
  warnEmbedTitle : string;
  kickEmbedTitle : string;
  muteEmbedTitle : string;
  banEmbedTitle : string;
  embedTitleIconURL : string;
  warnEmbedDescription : string;
  kickEmbedDescription : string;
  muteEmbedDescription : string;
  banEmbedDescription : string;
  warnEmbedFooter : string;
  kickEmbedFooter : string;
  muteEmbedFooter : string;
  banEmbedFooter : string;
  embedFooterIconURL : string;
  kickErrorMessage : string;
  banErrorMessage : string;
  muteErrorMessage : string
}.

(** [x || d] on an optional string: a missing field and the empty string
    are falsy. *)
Definition stringOr (x : option string) (d : string) : string :=
  match x with
  | Some EmptyString => d
  | Some v => v
  | None => d
  end.

Definition antispamIcon : string :=
  "https://raw.githubusercontent.com/Michael-J-Scofield/discord-anti-spam/master/docs/img/antispam.png".

Definition constructorPresentation (options : PresentationOptions)
  : Presentation :=
  {| modLogsChannel := stringOr (opt_modLogsChannel options) "mod-logs";
     modLogsMode := stringOr (opt_modLogsMode options) "embed";
     warnMessage :=
       stringOr (opt_warnMessage options) "{@user}, Please stop spamming.";
     muteMessage :=
       stringOr (opt_muteMessage options)
         "**{user_tag}** has been muted for spamming.";
     kickMessage :=
       stringOr (opt_kickMessage options)
         "**{user_tag}** has been kicked for spamming.";
     banMessage :=
       stringOr (opt_banMessage options)
         "**{user_tag}** has been banned for spamming.";
     actionEmbedIn := stringOr (opt_actionEmbedIn options) "channel";
     actionEmbedColor := stringOr (opt_actionEmbedColor options) "#ff0000";
     warnEmbedTitle :=
       stringOr (opt_warnEmbedTitle options) "User have been warned.";
     kickEmbedTitle :=
       stringOr (opt_kickEmbedTitle options) "User have been kicked.";
     muteEmbedTitle :=
       stringOr (opt_muteEmbedTitle options) "User have been muted.";
     banEmbedTitle :=
       stringOr (opt_banEmbedTitle options) "User have been banned.";
     embedTitleIconURL := stringOr (opt_embedTitleIconURL options) antispamIcon;
     warnEmbedDescription :=
       stringOr (opt_warnEmbedDescription options)
         "You have been warned for spamming.";
     kickEmbedDescription :=
       stringOr (opt_kickEmbedDescription options)
         "You have been kicked for spamming.";
     muteEmbedDescription :=
       stringOr (opt_muteEmbedDescription options)
         "You have been muted for spamming.";
     banEmbedDescription :=
       stringOr (opt_banEmbedDescription options)
         "You have been banned for spamming.";
     warnEmbedFooter :=
       stringOr (opt_warnEmbedFooter options) "You have been warned.";
     kickEmbedFooter :=
       stringOr (opt_kickEmbedFooter options) "You have been kicked.";
     muteEmbedFooter :=
       stringOr (opt_muteEmbedFooter options) "You have been muted.";
     banEmbedFooter :=
       stringOr (opt_banEmbedFooter options) "You have been banned.";
     embedFooterIconURL :=
       stringOr (opt_embedFooterIconURL options) antispamIcon;
     kickErrorMessage :=
       stringOr (opt_kickErrorMessage options)
         "Could not kick **{user_tag}** because of improper permissions.";
     banErrorMessage :=
       stringOr (opt_banErrorMessage options)
         "Could not ban **{user_tag}** because of improper permissions.";
     muteErrorMessage :=
       stringOr (opt_muteErrorMessage options)
         "Could not mute **{user_tag}** because of improper permissions." |}.

(** [this.options[key]] when it is a string: the keys of the other fields,
    which hold numbers, booleans, arrays or functions, and the keys that are
    no field at all, give [None]. *)
Definition stringOption (p : Presentation) (key : string) : option string :=
  if (key =? "modLogsChannel")%string then Some (modLogsChannel p)
  else if (key =? "modLogsMode")%string then Some (modLogsMode p)
  else if (key =? "warnMessage")%string then Some (warnMessage p)
  else if (key =? "muteMessage")%string then Some (muteMessage p)
  else if (key =? "kickMessage")%string then Some (kickMessage p)
  else if (key =? "banMessage")%string then Some (banMessage p)
  else if (key =? "actionEmbedIn")%string then Some (actionEmbedIn p)
  else if (key =? "actionEmbedColor")%string then Some (actionEmbedColor p)
  else if (key =? "warnEmbedTitle")%string then Some (warnEmbedTitle p)
  else if (key =? "kickEmbedTitle")%string then Some (kickEmbedTitle p)
  else if (key =? "muteEmbedTitle")%string then Some (muteEmbedTitle p)
  else if (key =? "banEmbedTitle")%string then Some (banEmbedTitle p)
  else if (key =? "embedTitleIconURL")%string then Some (embedTitleIconURL p)
  else if (key =? "warnEmbedDescription")%string
  then Some (warnEmbedDescription p)
  else if (key =? "kickEmbedDescription")%string
  then Some (kickEmbedDescription p)
  else if (key =? "muteEmbedDescription")%string
  then Some (muteEmbedDescription p)
  else if (key =? "banEmbedDescription")%string
  then Some (banEmbedDescription p)
  else if (key =? "warnEmbedFooter")%string then Some (warnEmbedFooter p)
  else if (key =? "kickEmbedFooter")%string then Some (kickEmbedFooter p)
  else if (key =? "muteEmbedFooter")%string then Some (muteEmbedFooter p)
  else if (key =? "banEmbedFooter")%string then Some (banEmbedFooter p)
  else if (key =? "embedFooterIconURL")%string
  then Some (embedFooterIconURL p)
  else if (key =? "kickErrorMessage")%string then Some (kickErrorMessage p)
  else if (key =? "banErrorMessage")%string then Some (banErrorMessage p)
  else if (key =? "muteErrorMessage")%string then Some (muteErrorMessage p)
  else None.

(** ** [sendActionMessage] (lines 364-619)

    What is sent is kept as the template and, for an embed, its parts
    before [format] fills them in. *)

Inductive Payload : Type :=
| EmbedPayload (color title thumbnail description footer footerIcon : string)
| TextPayload (template : string).

Inductive Delivery : Type :=
| ToChannel (c : Channel) (p : Payload)   (* message.channel.send *)
| ToAuthor (u : User) (p : Payload).      (* message.author.send *)

(** How a synchronous call ends: it returns a value ([None] is
    [undefined]) or it throws. *)
Inductive Completion : Type :=
| Returns (v : option bool)
| Throws.

(** The embed of lines 367-393 and 404-430, or [None] when building it
    throws.  The setters of [EmbedBuilder] check what they are given:
    [setTitle] throws on [undefined], which is what [this.options[key]] is
    for a key that is no field; [setDescription] and [setFooter] throw on an
    empty text, which is what [format] returns for [undefined]. *)
Definition actionEmbed (p : Presentation) (action : string) : option Payload :=
  match stringOption p (action ++ "Title") with
  | None => None
  | Some title =>
      match stringOption p (action ++ "EmbedDescription"),
            stringOption p (action ++ "EmbedFooter") with
      | Some description, Some footer =>
          Some (EmbedPayload (actionEmbedColor p) title (embedTitleIconURL p)
                  description footer (embedFooterIconURL p))
      | _, _ => None
      end
  end.

(** The template of the text branches, and what they return. *)
Definition actionText (p : Presentation) (action : string)
  : option (string * option bool) :=
  if (action =? "warn")%string then Some (warnMessage p, Some true)
  else if (action =? "kick")%string then Some (kickMessage p, Some true)
  else if (action =? "mute")%string then Some (muteMessage p, Some true)
  else if (action =? "ban")%string then Some (banMessage p, None)
  else None.

(** The deliveries made and how the call ends.  Both embed branches build
    the same embed before they send anything. *)
Definition sendActionMessage (options : Options) (p : Presentation)
    (message : Message) (action : string) : list Delivery * Completion :=
  if actionInEmbed options then
    match actionEmbed p action with
    | None => ([], Throws)
    | Some embed =>
        if (actionEmbedIn p =? "channel")%string then
          (if inGuildText message
           then [ToChannel (msg_channel message) embed]
           else [],
           Returns None)
        else ([ToAuthor (msg_author message) embed], Returns None)
    end
  else if (actionEmbedIn p =? "channel")%string then
    match actionText p action with
    | Some (template, result) =>
        (if inGuildText message
         then [ToChannel (msg_channel message) (TextPayload template)]
         else [],
         Returns result)
    | None => ([], Returns None)
    end
  else
    match actionText p action with
    | Some (template, result) =>
        ([ToAuthor (msg_author message) (TextPayload template)],
         Returns result)
    | None => ([], Returns None)
    end.

(** The action names the routines pass. *)
Definition actionName (s : Sanction) : string :=
  match s with
  | Ban => "ban"
  | Mute => "mute"
  | Kick => "kick"
  | Warn => "warn"
  end.

(** ** [getGuildTextBasedChannel] and [log] (lines 621-733) *)

Record GuildChannel : Type := mkGuildChannel {
  gc_id : Snowflake;
  gc_name : string;
  gc_isGuildText : bool;    (* type === ChannelType.GuildText *)
  gc_isTextBased : bool     (* isTextBased() *)
}.

(** [found?.isTextBased()]: the channel when there is one and it is text
    based. *)
Definition whenTextBased (found : option GuildChannel) : option GuildChannel :=
  match found with
  | Some ch => if gc_isTextBased ch then Some ch else None
  | None => None
  end.

(** [msg.guild?.channels.cache.find(test)] *)
Definition findInGuild (guildChannels : option (list GuildChannel))
    (test : GuildChannel -> bool) : option GuildChannel :=
  match guildChannels with
  | Some l => find test l
  | None => None
  end.

(** [clientChannels] is [client.channels.cache], looked up by id;
    [guildChannels] is [msg.guild?.channels.cache], searched in order. *)
Definition getGuildTextBasedChannel (clientChannels : list GuildChannel)
    (guildChannels : option (list GuildChannel)) (wanted : string)
  : option GuildChannel :=
  let channelById :=
    find (fun ch => (gc_id ch =? wanted)%string) clientChannels in
  match match channelById with
        | Some ch =>
            if gc_isGuildText ch && gc_isTextBased ch then Some ch else None
        | None => None
        end with
  | Some ch => Some ch
  | None =>
      let channelByName :=
        findInGuild guildChannels
          (fun ch => (gc_name ch =? wanted)%string && gc_isGuildText ch) in
      match whenTextBased channelByName with
      | Some ch => Some ch
      | None =>
          let channelByIdInGuild :=
            findInGuild guildChannels
              (fun ch => (gc_id ch =? wanted)%string && gc_isGuildText ch) in
          whenTextBased channelByIdInGuild
      end
  end.

(** What [log] sends: an embed or a text, to the channel found, naming the
    author and the action.  The second lookup of lines 679-689 is an
    expression whose value is dropped. *)
Inductive LogMessage : Type :=
| LogEmbed (ch : GuildChannel) (author : User) (action : string)
| LogText (ch : GuildChannel) (author : User) (action : string).

Definition log (options : Options) (p : Presentation)
    (clientChannels : list GuildChannel)
    (channelsOf : Guild -> list GuildChannel)
    (msg : Message) (action : string) : list LogMessage :=
  if modLogsEnabled options then
    match getGuildTextBasedChannel clientChannels
            (option_map channelsOf (msg_guild msg)) (modLogsChannel p) with
    | Some ch =>
        if (modLogsMode p =? "embed")%string
        then [LogEmbed ch (msg_author msg) action]
        else [LogText ch (msg_author msg) action]
    | None => []
    end
  else [].




(** The call of [msg.delete()] for a record. *)
Definition deletionOf (m : CachedMessage) : Snowflake * Snowflake :=
  (channelID m, messageID m).

(** The channel a message of [log] goes to, and whether it is an embed. *)
Definition logChannel (m : LogMessage) : GuildChannel :=
  match m with
  | LogEmbed ch _ _ | LogText ch _ _ => ch
  end.

Definition logIsEmbed (m : LogMessage) : bool :=
  match m with
  | LogEmbed _ _ _ => true
  | LogText _ _ _ => false
  end.

(** The template of an action in the text branches of [sendActionMessage]. *)
Definition actionMessage (p : Presentation) (s : Sanction) : string :=
  match s with
  | Ban => banMessage p
  | Mute => muteMessage p
  | Kick => kickMessage p
  | Warn => warnMessage p
  end.

(** ** Concrete presentation options and channels used in the examples *)

Module ExampleLog.

Local Open Scope string_scope.

(** The presentation of [new AntiSpamClient({})], and the channels of a
    client that sees a text channel named "mod-logs" in [guild1]. *)
Definition defaultPresentation : Presentation :=
  constructorPresentation
    {| opt_modLogsChannel := None; opt_modLogsMode := None;
       opt_warnMessage := None; opt_muteMessage := None;
       opt_kickMessage := None; opt_banMessage := None;
       opt_actionEmbedIn := None;
       opt_actionEmbedColor := None; opt_warnEmbedTitle := None;
       opt_kickEmbedTitle := None; opt_muteEmbedTitle := None;
       opt_banEmbedTitle := None; opt_embedTitleIconURL := None;
       opt_warnEmbedDescription := None; opt_kickEmbedDescription := None;
       opt_muteEmbedDescription := None; opt_banEmbedDescription := None;
       opt_warnEmbedFooter := None; opt_kickEmbedFooter := None;
       opt_muteEmbedFooter := None; opt_banEmbedFooter := None;
       opt_embedFooterIconURL := None; opt_kickErrorMessage := None;
       opt_banErrorMessage := None; opt_muteErrorMessage := None |}.

Definition modLogs : GuildChannel :=
  {| gc_id := "900"; gc_name := "mod-logs"; gc_isGuildText := true;
     gc_isTextBased := true |}.

Definition voice : GuildChannel :=
  {| gc_id := "901"; gc_name := "mod-logs"; gc_isGuildText := false;
     gc_isTextBased := true |}.

End ExampleLog.

(** * Properties *)

(** ** The code on small inputs *)

Example constructor_defaults :
  (warnThreshold Example.defaultOptions,
   muteThreshold Example.defaultOptions,
   kickThreshold Example.defaultOptions,
   banThreshold Example.defaultOptions) = (3, 4, 5, 7)
  /\ (maxDuplicatesWarn Example.defaultOptions,
      maxDuplicatesMute Example.defaultOptions,
      maxDuplicatesKick Example.defaultOptions,
      maxDuplicatesBan Example.defaultOptions) = (7, 9, 10, 11)
  /\ (maxInterval Example.defaultOptions,
      maxDuplicatesInterval Example.defaultOptions,
      unMuteTime Example.defaultOptions) = (2000, 2000, 300000)
  /\ (ipwarnEnabled Example.defaultOptions,
      removeMessages Example.defaultOptions,
      ignoreBots Example.defaultOptions) = (false, true, true).
Proof. repeat split. Qed.

(** The minutes given for [unMuteTime]: 5 (the default) and 1440 are in
    the domain of the embedding; 150119987579017 are not, their product
    with 60000 is no integer that a double holds exactly, and the code
    rounds it. *)
Example unMuteTime_domain :
  safeInteger (5 * 60000) /\ safeInteger (1440 * 60000)
  /\ ~ safeInteger (150119987579017 * 60000).
Proof. unfold safeInteger. cbn. lia. Qed.

(** Alice's first message when she is not in the member cache of the
    guild: the fetch resolves and the message is recorded, or the fetch
    rejects and so does [message], with the cache as it was. *)
Example message_fetch_examples :
  let m := Example.uncached (Example.post true "m1" "one" 0) in
  let fetched := message Example.defaultOptions (Example.worldAt 0) m
                   emptyCache in
  let failed := message Example.defaultOptions (Example.failingWorld 0) m
                  emptyCache in
  (value fetched = Some false
   /\ map messageID (messages (cacheAfter fetched)) = ["m1"%string])
  /\ (value failed = None /\ cacheAfter failed = emptyCache
      /\ effects failed = []).
Proof. repeat split. Qed.

Example matchesIp_examples :
  matchesIp "join 192.168.1.1 now" = true
  /\ matchesIp "1.2.3.4567" = true
  /\ matchesIp "version 1.2.3" = false
  /\ matchesIp "192.1688.1.1" = false.
Proof. repeat split. Qed.

(** Equal timestamps keep their order of arrival. *)
Example sortDesc_example :
  map messageID
    (sortDesc [Example.record "g" "a" "" 3; Example.record "g" "b" "" 1;
               Example.record "g" "c" "" 5; Example.record "g" "d" "" 3])
  = ["c"; "a"; "d"; "b"]%string.
Proof. reflexivity. Qed.

(** The run of the specification: contents a, a, a, b, a from the most
    recent back; the run is the three leading records. *)
Example duplicateRun_example :
  let cached := [Example.record "g" "m1" "a" 0;
                 Example.record "g" "m2" "b" 2500;
                 Example.record "g" "m3" "a" 2600;
                 Example.record "g" "m4" "a" 2700;
                 Example.record "g" "m5" "a" 2800] in
  let duplicates := [Example.record "g" "m3" "a" 2600;
                     Example.record "g" "m4" "a" 2700;
                     Example.record "g" "m5" "a" 2800] in
  map messageID (spamOtherDuplicates cached duplicates)
  = ["m5"; "m4"; "m3"]%string
  /\ spamOtherDuplicates cached [] = [].
Proof. split; reflexivity. Qed.

(** Alice leaves [guild1]; then alice leaves [guild2], which is ignored. *)
Example userleave_examples :
  let left := userleave Example.defaultOptions
                (Example.aliceIn Example.guild1 true) Example.mixedCache in
  let ignored := userleave Example.ignoringGuild2
                   (Example.aliceIn Example.guild2 true) Example.mixedCache in
  value left = true
  /\ (warnedUsers (cacheAfter left), kickedUsers (cacheAfter left),
      bannedUsers (cacheAfter left)) = (["bob"], [], ["bob"])%string
  /\ messages (cacheAfter left) = messages Example.mixedCache
  /\ value ignored = false
  /\ cacheAfter ignored = Example.mixedCache.
Proof. repeat split. Qed.

(** A ban of alice in [guild1] drops her record of [guild2] as well. *)
Example banUser_example :
  messages
    (cacheAfter
       (banUser Example.defaultOptions (Example.worldAt 0)
          (Example.post true "m3" "three" 200)
          (Example.aliceIn Example.guild1 true) [] Example.mixedCache))
  = [Example.bobRecord].
Proof. reflexivity. Qed.

(** ** Lists of snowflakes *)

Lemma includes_In (l : list Snowflake) (x : Snowflake) :
  includes l x = true <-> In x l.
Proof.
  unfold includes. rewrite existsb_exists. split.
  - intros [y [Hy Heq]]. apply String.eqb_eq in Heq. now subst.
  - intros H. exists x. split; [assumption | apply String.eqb_refl].
Qed.

Lemma includes_app (l1 l2 : list Snowflake) (x : Snowflake) :
  includes (l1 ++ l2) x = includes l1 x || includes l2 x.
Proof. unfold includes. apply existsb_app. Qed.

Lemma includes_push (l : list Snowflake) (x : Snowflake) :
  includes (l ++ [x]) x = true.
Proof.
  rewrite includes_app. unfold includes at 2. simpl.
  rewrite String.eqb_refl. now rewrite orb_true_r.
Qed.

Lemma withoutAuthor_In (id : Snowflake) (l : list CachedMessage)
    (r : CachedMessage) :
  In r (withoutAuthor id l) <-> In r l /\ authorID r <> id.
Proof.
  unfold withoutAuthor. rewrite filter_In, negb_true_iff.
  now rewrite String.eqb_neq.
Qed.

Lemma withoutAuthor_other (id other : Snowflake) (l : list CachedMessage) :
  other <> id ->
  filter (fun r => (authorID r =? other)%string) (withoutAuthor id l)
  = filter (fun r => (authorID r =? other)%string) l.
Proof.
  intros Hne. unfold withoutAuthor.
  induction l as [| r l IH]; simpl; [reflexivity |].
  destruct (authorID r =? id)%string eqn:Hid; simpl.
  - apply String.eqb_eq in Hid.
    destruct (authorID r =? other)%string eqn:Ho.
    + apply String.eqb_eq in Ho. congruence.
    + exact IH.
  - destruct (authorID r =? other)%string; [f_equal |]; exact IH.
Qed.

(** ** The tier blocks of [message] against [selectTier] *)

Section TierFacts.

Variable options : Options.
Variable world : World.
Variable message : Message.
Variable member : GuildMember.
Variables duplicateMatches otherDuplicates spamMatches : list CachedMessage.

Let reached (s : Sanction) : bool :=
  thresholdReached options s (len spamMatches) (len duplicateMatches).

Let fired (s : Sanction) : Async bool :=
  fire options world s message member
    duplicateMatches otherDuplicates spamMatches.

Lemma banTier_first (c : AntiSpamCache) :
  banTier options world message member
    duplicateMatches otherDuplicates spamMatches false c
  = if eligible options Ban (authorOf message) c && reached Ban
    then fired Ban c
    else mkOutcome false c [].
Proof.
  unfold banTier, fired, fire, reached, eligible, thresholdReached, spamOf.
  unfold bind at 1. unfold getCache. cbn [value cacheAfter effects app].
  cbn [tierEnabled recordedUsers countThreshold duplicateThreshold routineOf].
  destruct (banEnabled options); cbn [andb negb];
    [destruct (includes (bannedUsers c) (authorOf message)); cbn [andb negb] |];
    try reflexivity.
  rewrite ?andb_true_r.
  destruct (banThreshold options <=? len spamMatches); cbn [orb];
    [reflexivity |].
  destruct (maxDuplicatesBan options <=? len duplicateMatches); reflexivity.
Qed.

Lemma muteTier_first (c : AntiSpamCache) :
  muteTier options world message member
    duplicateMatches otherDuplicates spamMatches false c
  = if eligible options Mute (authorOf message) c && reached Mute
    then fired Mute c
    else mkOutcome false c [].
Proof.
  unfold muteTier, fired, fire, reached, eligible, thresholdReached, spamOf.
  cbn [tierEnabled recordedUsers countThreshold duplicateThreshold routineOf
       includes existsb negb].
  rewrite ?andb_true_r.
  destruct (muteEnabled options); cbn [andb]; [| reflexivity].
  destruct (muteThreshold options <=? len spamMatches); cbn [orb];
    [reflexivity |].
  destruct (maxDuplicatesMute options <=? len duplicateMatches); reflexivity.
Qed.

Lemma kickTier_first (c : AntiSpamCache) :
  kickTier options world message member
    duplicateMatches otherDuplicates spamMatches false c
  = if eligible options Kick (authorOf message) c && reached Kick
    then fired Kick c
    else mkOutcome false c [].
Proof.
  unfold kickTier, fired, fire, reached, eligible, thresholdReached, spamOf.
  unfold bind at 1. unfold getCache. cbn [value cacheAfter effects app].
  cbn [tierEnabled recordedUsers countThreshold duplicateThreshold routineOf].
  destruct (kickEnabled options); cbn [andb negb];
    [destruct (includes (kickedUsers c) (authorOf message)); cbn [andb negb] |];
    try reflexivity.
  rewrite ?andb_true_r.
  destruct (kickThreshold options <=? len spamMatches); cbn [orb];
    [reflexivity |].
  destruct (maxDuplicatesKick options <=? len duplicateMatches); reflexivity.
Qed.

Lemma warnTier_first (c : AntiSpamCache) :
  warnTier options message member
    duplicateMatches otherDuplicates spamMatches false c
  = if eligible options Warn (authorOf message) c && reached Warn
    then fired Warn c
    else mkOutcome false c [].
Proof.
  unfold warnTier, fired, fire, reached, eligible, thresholdReached, spamOf.
  unfold bind at 1. unfold getCache. cbn [value cacheAfter effects app].
  cbn [tierEnabled recordedUsers countThreshold duplicateThreshold routineOf].
  destruct (warnEnabled options); cbn [andb negb];
    [destruct (includes (warnedUsers c) (authorOf message)); cbn [andb negb] |];
    try reflexivity.
  rewrite ?andb_true_r.
  destruct (warnThreshold options <=? len spamMatches); cbn [orb];
    [reflexivity |].
  destruct (maxDuplicatesWarn options <=? len duplicateMatches); reflexivity.
Qed.

(** Once [sanctioned] is set the later blocks do nothing. *)
Lemma muteTier_sanctioned (c : AntiSpamCache) :
  muteTier options world message member
    duplicateMatches otherDuplicates spamMatches true c
  = mkOutcome true c [].
Proof.
  unfold muteTier. cbn [negb]. rewrite andb_false_r. reflexivity.
Qed.

Lemma kickTier_sanctioned (c : AntiSpamCache) :
  kickTier options world message member
    duplicateMatches otherDuplicates spamMatches true c
  = mkOutcome true c [].
Proof.
  unfold kickTier, bind, getCache. cbn [value cacheAfter effects negb].
  rewrite andb_false_r. reflexivity.
Qed.

Lemma warnTier_sanctioned (c : AntiSpamCache) :
  warnTier options message member
    duplicateMatches otherDuplicates spamMatches true c
  = mkOutcome true c [].
Proof.
  unfold warnTier, bind, getCache. cbn [value cacheAfter effects negb].
  rewrite andb_false_r. reflexivity.
Qed.

Lemma fire_value (s : Sanction) (c : AntiSpamCache) :
  value (fired s c) = true.
Proof. reflexivity. Qed.

Lemma outcome_eta {A : Type} (r : Outcome A) :
  mkOutcome (value r) (cacheAfter r) (effects r) = r.
Proof. now destruct r. Qed.

(** The four blocks in sequence are the ordered search. *)
Lemma evaluateTiers_selectTier (c : AntiSpamCache) :
  evaluateTiers options world message member
    duplicateMatches otherDuplicates spamMatches c
  = match selectTier options (authorOf message) c
            (len spamMatches) (len duplicateMatches) with
    | Some s => fired s c
    | None => mkOutcome false c []
    end.
Proof.
  unfold evaluateTiers, selectTier, tierOrder. cbn [find].
  fold (reached Ban) (reached Mute) (reached Kick) (reached Warn).
  unfold bind. cbv zeta. rewrite banTier_first.
  destruct (eligible options Ban (authorOf message) c && reached Ban).
  - rewrite fire_value, muteTier_sanctioned. cbn [value cacheAfter effects].
    rewrite kickTier_sanctioned. cbn [value cacheAfter effects].
    rewrite warnTier_sanctioned. cbn [value cacheAfter effects].
    rewrite !app_nil_r. rewrite <- (fire_value Ban c) at 1.
    apply outcome_eta.
  - cbn [value cacheAfter effects app]. rewrite muteTier_first.
    destruct (eligible options Mute (authorOf message) c && reached Mute).
    + rewrite fire_value, kickTier_sanctioned. cbn [value cacheAfter effects].
      rewrite warnTier_sanctioned. cbn [value cacheAfter effects].
      rewrite !app_nil_r. rewrite <- (fire_value Mute c) at 1.
      apply outcome_eta.
    + cbn [value cacheAfter effects app]. rewrite kickTier_first.
      destruct (eligible options Kick (authorOf message) c && reached Kick).
      * rewrite fire_value, warnTier_sanctioned.
        cbn [value cacheAfter effects].
        rewrite !app_nil_r. rewrite <- (fire_value Kick c) at 1.
        apply outcome_eta.
      * cbn [value cacheAfter effects app]. rewrite warnTier_first.
        destruct (eligible options Warn (authorOf message) c && reached Warn);
          [apply outcome_eta | reflexivity].
Qed.

End TierFacts.

(** ** What each sanction routine does to the cache *)

Section RoutineFacts.

Variable options : Options.
Variable world : World.
Variable message : Message.
Variable member : GuildMember.
Variable spam : list CachedMessage.
Variable c : AntiSpamCache.

Lemma banUser_cache :
  cacheAfter (banUser options world message member spam c)
  = {| messages := withoutAuthor (authorOf message) (messages c);
       warnedUsers := warnedUsers c;
       kickedUsers := kickedUsers c;
       bannedUsers := bannedUsers c ++ [authorOf message] |}.
Proof.
  unfold banUser, clearIfEnabled, afterSanction.
  destruct (removeMessages options), (member_bannable member),
    (errorMessages options), (msg_guild message), (msg_member message),
    (inGuildText message), (banResolves world), (modLogsEnabled options),
      (actionInEmbed options);
    reflexivity.
Qed.

Lemma muteUser_cache :
  cacheAfter (muteUser options world message member spam c)
  = {| messages := withoutAuthor (authorOf message) (messages c);
       warnedUsers := warnedUsers c;
       kickedUsers := kickedUsers c;
       bannedUsers := bannedUsers c |}.
Proof.
  unfold muteUser, clearIfEnabled, afterSanction.
  destruct (removeMessages options), (memberCanBeMuted message),
    (errorMessages options), (msg_member message),
    (inGuildText message), (timeoutResolves world), (modLogsEnabled options),
      (actionInEmbed options);
    reflexivity.
Qed.

Lemma kickUser_cache :
  cacheAfter (kickUser options world message member spam c)
  = {| messages := withoutAuthor (authorOf message) (messages c);
       warnedUsers := warnedUsers c;
       kickedUsers := kickedUsers c ++ [authorOf message];
       bannedUsers := bannedUsers c |}.
Proof.
  unfold kickUser, clearIfEnabled, afterSanction.
  destruct (removeMessages options), (member_kickable member),
    (errorMessages options), (msg_member message),
    (inGuildText message), (kickResolves world), (modLogsEnabled options),
      (actionInEmbed options);
    reflexivity.
Qed.

Lemma warnUser_cache :
  cacheAfter (warnUser options message member spam c)
  = {| messages := messages c;
       warnedUsers := warnedUsers c ++ [authorOf message];
       kickedUsers := kickedUsers c;
       bannedUsers := bannedUsers c |}.
Proof.
  unfold warnUser, clearIfEnabled.
  destruct (removeMessages options), (modLogsEnabled options),
      (actionInEmbed options); reflexivity.
Qed.

(** No routine calls another routine. *)
Lemma routineOf_invoked (s : Sanction) :
  invoked (effects (routineOf options world s message member spam c)) = [].
Proof.
  destruct s; cbn [routineOf].
  - unfold banUser, clearIfEnabled, afterSanction.
    destruct (removeMessages options), (member_bannable member),
      (errorMessages options), (msg_guild message), (msg_member message),
      (inGuildText message), (banResolves world), (modLogsEnabled options),
      (actionInEmbed options);
      reflexivity.
  - unfold muteUser, clearIfEnabled, afterSanction.
    destruct (removeMessages options), (memberCanBeMuted message),
      (errorMessages options), (msg_member message),
      (inGuildText message), (timeoutResolves world),
      (modLogsEnabled options),
      (actionInEmbed options); reflexivity.
  - unfold kickUser, clearIfEnabled, afterSanction.
    destruct (removeMessages options), (member_kickable member),
      (errorMessages options), (msg_member message),
      (inGuildText message), (kickResolves world), (modLogsEnabled options),
      (actionInEmbed options);
      reflexivity.
  - unfold warnUser, clearIfEnabled.
    destruct (removeMessages options), (modLogsEnabled options),
      (actionInEmbed options); reflexivity.
Qed.

(** A routine emits at most the event of its own tier. *)
Lemma routineOf_emitted (s : Sanction) :
  emitted (effects (routineOf options world s message member spam c)) = []
  \/ emitted (effects (routineOf options world s message member spam c)) = [s].
Proof.
  destruct s; cbn [routineOf].
  - unfold banUser, clearIfEnabled, afterSanction.
    destruct (removeMessages options), (member_bannable member),
      (errorMessages options), (msg_guild message), (msg_member message),
      (inGuildText message), (banResolves world), (modLogsEnabled options),
      (actionInEmbed options);
      (now left) || (now right).
  - unfold muteUser, clearIfEnabled, afterSanction.
    destruct (removeMessages options), (memberCanBeMuted message),
      (errorMessages options), (msg_member message),
      (inGuildText message), (timeoutResolves world),
      (modLogsEnabled options),
      (actionInEmbed options); (now left) || (now right).
  - unfold kickUser, clearIfEnabled, afterSanction.
    destruct (removeMessages options), (member_kickable member),
      (errorMessages options), (msg_member message),
      (inGuildText message), (kickResolves world), (modLogsEnabled options),
      (actionInEmbed options);
      (now left) || (now right).
  - unfold warnUser, clearIfEnabled.
    destruct (removeMessages options), (modLogsEnabled options),
      (actionInEmbed options); (now left) || (now right).
Qed.

Lemma warnUser_emitted :
  emitted (effects (warnUser options message member spam c))
  = if actionInEmbed options then [] else [Warn].
Proof.
  unfold warnUser, clearIfEnabled.
  destruct (removeMessages options), (modLogsEnabled options),
      (actionInEmbed options); reflexivity.
Qed.

(** [clearSpamMessages] runs exactly when [removeMessages] is set. *)
Lemma routineOf_clears (s : Sanction) :
  In (ClearSpamMessages spam)
     (effects (routineOf options world s message member spam c))
  <-> removeMessages options = true.
Proof.
  destruct s; cbn [routineOf].
  - unfold banUser, clearIfEnabled, afterSanction.
    destruct (removeMessages options), (member_bannable member),
      (errorMessages options), (msg_guild message), (msg_member message),
      (inGuildText message), (banResolves world), (modLogsEnabled options),
      (actionInEmbed options);
      cbn; intuition discriminate.
  - unfold muteUser, clearIfEnabled, afterSanction.
    destruct (removeMessages options), (memberCanBeMuted message),
      (errorMessages options), (msg_member message),
      (inGuildText message), (timeoutResolves world),
      (modLogsEnabled options),
      (actionInEmbed options); cbn; intuition discriminate.
  - unfold kickUser, clearIfEnabled, afterSanction.
    destruct (removeMessages options), (member_kickable member),
      (errorMessages options), (msg_member message),
      (inGuildText message), (kickResolves world), (modLogsEnabled options),
      (actionInEmbed options);
      cbn; intuition discriminate.
  - unfold warnUser, clearIfEnabled.
    destruct (removeMessages options), (modLogsEnabled options),
      (actionInEmbed options);
      cbn; intuition discriminate.
Qed.

End RoutineFacts.

(** ** The shape of [message] *)

Lemma invoked_app (l1 l2 : list Effect) :
  invoked (l1 ++ l2) = invoked l1 ++ invoked l2.
Proof.
  induction l1 as [| e l1 IH]; [reflexivity |].
  destruct e; cbn [app invoked]; rewrite IH; reflexivity.
Qed.

Lemma emitted_app (l1 l2 : list Effect) :
  emitted (l1 ++ l2) = emitted l1 ++ emitted l2.
Proof.
  induction l1 as [| e l1 IH]; [reflexivity |].
  destruct e; cbn [app emitted]; rewrite IH; reflexivity.
Qed.

Lemma ipEffects_invoked (message : Message) :
  invoked (ipEffects message) = [].
Proof.
  unfold ipEffects.
  destruct (matchesIp (msg_content message)), (inGuildText message);
    reflexivity.
Qed.

Lemma ipEffects_emitted (message : Message) :
  emitted (ipEffects message) = [].
Proof.
  unfold ipEffects.
  destruct (matchesIp (msg_content message)), (inGuildText message);
    reflexivity.
Qed.

Lemma selectTier_pushed (options : Options) (author : Snowflake)
    (c : AntiSpamCache) (m : CachedMessage) (wc dc : Z) :
  selectTier options author (pushed c m) wc dc
  = selectTier options author c wc dc.
Proof. reflexivity. Qed.

Lemma admission_guild (options : Options) (world : World) (msg : Message)
    (g : Guild) (member : GuildMember) :
  admission options world msg = Some (g, member) ->
  msg_guild msg = Some g /\ memberOf world msg = Some member.
Proof.
  unfold admission, earlyAdmission. intros Ha.
  destruct (msg_guild msg) as [g' |]; [| discriminate].
  repeat match type of Ha with
         | match (if ?b then _ else _) with _ => _ end = _ =>
             destruct b; [discriminate |]
         end.
  destruct (memberOf world msg) as [mb |]; [| discriminate].
  repeat match type of Ha with
         | (if ?b then _ else _) = _ => destruct b; [discriminate |]
         end.
  now injection Ha as -> ->.
Qed.

Section MessageFacts.

Variable options : Options.
Variable world : World.
Variable msg : Message.
Variable c : AntiSpamCache.

Lemma message_rejected :
  admission options world msg = None ->
  message options world msg c
  = mkOutcome (if fetchFails options world msg then None else Some false)
      c [].
Proof. intros H. unfold message. now rewrite H. Qed.

Variable g : Guild.
Variable member : GuildMember.
Hypothesis accepted : admission options world msg = Some (g, member).

Let entered : AntiSpamCache := pushed c (currentMessageOf msg g).

Lemma message_ipwarn_off :
  ipwarnEnabled options = false ->
  message options world msg c = mkOutcome (Some false) entered [].
Proof.
  intros Hip. unfold message. rewrite accepted, Hip. reflexivity.
Qed.

Lemma message_ipwarn_on :
  ipwarnEnabled options = true ->
  message options world msg c
  = let r := evaluateTiers options world msg member
               (duplicatesAt options msg g c)
               (otherDuplicatesAt options msg g c)
               (windowAt options world msg g c) entered in
    mkOutcome (Some (value r)) (cacheAfter r) (ipEffects msg ++ effects r).
Proof.
  intros Hip. unfold message. rewrite accepted, Hip.
  unfold windowAt, otherDuplicatesAt, duplicatesAt, cachedAt, entered, pushed.
  generalize (evaluateTiers options world msg member) as t. intros t.
  unfold ipEffects.
  destruct (matchesIp (msg_content msg)), (inGuildText msg);
    unfold bind, pushMessage, getCache, setCache, when, perform, ret;
    cbn [value cacheAfter effects app messages];
    rewrite ?app_nil_r; reflexivity.
Qed.

(** With [ipwarnEnabled] set, [message] is the ordered search followed by the
    routine of the tier found. *)
Lemma message_selectTier :
  ipwarnEnabled options = true ->
  message options world msg c
  = match selectTier options (authorOf msg) c
            (windowCount options world msg g c)
            (duplicateCount options msg g c) with
    | Some s =>
        let r := fire options world s msg member
                   (duplicatesAt options msg g c)
                   (otherDuplicatesAt options msg g c)
                   (windowAt options world msg g c) entered in
        mkOutcome (Some true) (cacheAfter r) (ipEffects msg ++ effects r)
    | None => mkOutcome (Some false) entered (ipEffects msg)
    end.
Proof.
  intros Hip. rewrite (message_ipwarn_on Hip). cbv zeta.
  rewrite evaluateTiers_selectTier.
  fold (windowCount options world msg g c).
  fold (duplicateCount options msg g c).
  change (selectTier options (authorOf msg) entered)
    with (selectTier options (authorOf msg) c).
  destruct (selectTier options (authorOf msg) c
              (windowCount options world msg g c)
              (duplicateCount options msg g c)).
  - reflexivity.
  - cbn [value cacheAfter effects]. now rewrite app_nil_r.
Qed.

End MessageFacts.

Section FireFacts.

Variable options : Options.
Variable world : World.
Variable s : Sanction.
Variable message : Message.
Variable member : GuildMember.
Variables duplicateMatches otherDuplicates spamMatches : list CachedMessage.
Variable c : AntiSpamCache.

Let spam : list CachedMessage :=
  spamOf options s duplicateMatches otherDuplicates spamMatches.

Let fired : Outcome bool :=
  fire options world s message member
    duplicateMatches otherDuplicates spamMatches c.

Lemma fire_cache :
  cacheAfter fired
  = cacheAfter (routineOf options world s message member spam c).
Proof. reflexivity. Qed.

Lemma fire_effects :
  effects fired
  = Invoke s spam
    :: effects (routineOf options world s message member spam c).
Proof.
  unfold fired, fire, call, bind, perform, ret.
  cbn [value cacheAfter effects app]. now rewrite !app_nil_r.
Qed.

Lemma fire_invoked : invoked (effects fired) = [s].
Proof.
  rewrite fire_effects. cbn [invoked]. now rewrite routineOf_invoked.
Qed.

Lemma fire_emitted :
  emitted (effects fired)
  = emitted (effects (routineOf options world s message member spam c)).
Proof. rewrite fire_effects. reflexivity. Qed.

End FireFacts.

(** ** The [ipwarnEnabled] test (lines 1140-1156) *)

(** C2. For a message that passes the admission filter, when
    [ipwarnEnabled] is false, [message] returns [false] with the cache
    changed only by the record of the message appended to it, and with no
    effect at all: no sanction routine is called and no [warnAdd],
    [muteAdd], [kickAdd] or [banAdd] is emitted.  [false] is the value the
    constructor gives [ipwarnEnabled] when the caller leaves it out. *)
Theorem C2_ipwarn_disabled_returns_false
    (options : Options) (world : World) (msg : Message) (c : AntiSpamCache)
    (g : Guild) (member : GuildMember) :
  admission options world msg = Some (g, member) ->
  ipwarnEnabled options = false ->
  let r := message options world msg c in
  value r = Some false
  /\ cacheAfter r = pushed c (currentMessageOf msg g)
  /\ effects r = []
  /\ invoked (effects r) = []
  /\ emitted (effects r) = []
  /\ (forall given : AntiSpamClientOptions,
        opt_ipwarnEnabled given = None ->
        ipwarnEnabled (constructorOptions given) = false).
Proof.
  intros Hadm Hip r. subst r.
  rewrite (message_ipwarn_off _ _ _ c _ _ Hadm Hip). cbn [value cacheAfter effects].
  repeat split.
  intros given Hgiven. cbn [constructorOptions ipwarnEnabled].
  now rewrite Hgiven.
Qed.

Lemma C2_witness :
  let r := message Example.defaultOptions (Example.worldAt 0)
             (Example.post true "m1" "one" 0) emptyCache in
  value r = Some false
  /\ cacheAfter r
     = pushed emptyCache
         (currentMessageOf (Example.post true "m1" "one" 0) Example.guild1)
  /\ effects r = []
  /\ invoked (effects r) = []
  /\ emitted (effects r) = []
  /\ (forall given : AntiSpamClientOptions,
        opt_ipwarnEnabled given = None ->
        ipwarnEnabled (constructorOptions given) = false).
Proof.
  apply (C2_ipwarn_disabled_returns_false
           Example.defaultOptions (Example.worldAt 0)
           (Example.post true "m1" "one" 0) emptyCache
           Example.guild1 (Example.aliceIn Example.guild1 true));
    reflexivity.
Defined.

(** ** Member departure (lines 1260-1279) *)

Lemma filter_differs_In (gone u : Snowflake) (l : list Snowflake) :
  In u (filter (fun v => negb (v =? gone)%string) l) <-> In u l /\ u <> gone.
Proof.
  rewrite filter_In, negb_true_iff. now rewrite String.eqb_neq.
Qed.

(** C10. [userleave] for a member whose guild is ignored returns [false]
    and leaves the cache as it was.  Otherwise it returns [true], the cached
    messages are the same list as before, the member's id is in none of
    [warnedUsers], [kickedUsers], [bannedUsers] afterwards, and every other
    id is in each of the three lists exactly when it was before. *)
Theorem C10_userleave
    (options : Options) (member : GuildMember) (c : AntiSpamCache) :
  let r := userleave options member c in
  let gone := user_id (member_user member) in
  if isGuildIgnored options (member_guild member)
  then value r = false /\ cacheAfter r = c /\ effects r = []
  else value r = true
       /\ effects r = []
       /\ messages (cacheAfter r) = messages c
       /\ ~ In gone (warnedUsers (cacheAfter r))
       /\ ~ In gone (kickedUsers (cacheAfter r))
       /\ ~ In gone (bannedUsers (cacheAfter r))
       /\ (forall u, u <> gone ->
             (In u (warnedUsers (cacheAfter r)) <-> In u (warnedUsers c))
             /\ (In u (kickedUsers (cacheAfter r)) <-> In u (kickedUsers c))
             /\ (In u (bannedUsers (cacheAfter r)) <-> In u (bannedUsers c))).
Proof.
  intros r gone. subst r. unfold userleave.
  destruct (isGuildIgnored options (member_guild member)).
  - repeat split.
  - cbn [bind getCache setCache ret value cacheAfter effects app
         messages warnedUsers kickedUsers bannedUsers].
    fold gone.
    repeat split; try (rewrite filter_differs_In; tauto);
      try (intros H; apply filter_differs_In in H; tauto);
      try (intros H; apply filter_differs_In; tauto).
Qed.

(** ** Purging an author (lines 787-789, 889-891, 964-966) *)

Lemma withoutAuthor_purgedOf (author : Snowflake) (l : list CachedMessage) :
  purgedOf author l (withoutAuthor author l).
Proof.
  unfold purgedOf. split; [| split].
  - intros r. apply withoutAuthor_In.
  - intros guild. unfold withoutAuthor.
    induction l as [| r l IH]; [reflexivity |]. cbn [filter].
    destruct (authorID r =? author)%string eqn:Ha; cbn [negb filter].
    + exact IH.
    + rewrite Ha. cbn [andb]. exact IH.
  - intros other Hne. now apply withoutAuthor_other.
Qed.

(** C8. After [banUser], [muteUser] or [kickUser] the cached messages are
    those of before without the records whose [authorID] is the author of
    the message, in the same order: no record of that author is left in any
    guild, and the records of every other author are as they were. *)
Theorem C8_purge_is_not_scoped_to_the_guild
    (options : Options) (world : World) (msg : Message)
    (member : GuildMember) (spam : list CachedMessage) (c : AntiSpamCache) :
  let after (s : Sanction) :=
    messages (cacheAfter (routineOf options world s msg member spam c)) in
  (after Ban = withoutAuthor (authorOf msg) (messages c)
   /\ purgedOf (authorOf msg) (messages c) (after Ban))
  /\ (after Mute = withoutAuthor (authorOf msg) (messages c)
      /\ purgedOf (authorOf msg) (messages c) (after Mute))
  /\ (after Kick = withoutAuthor (authorOf msg) (messages c)
      /\ purgedOf (authorOf msg) (messages c) (after Kick)).
Proof.
  cbv zeta. cbn [routineOf].
  rewrite banUser_cache, muteUser_cache, kickUser_cache. cbn [messages].
  pose proof (withoutAuthor_purgedOf (authorOf msg) (messages c)) as Hp.
  split; [| split]; (split; [reflexivity | exact Hp]).
Qed.

(** C7 as stated fails in both directions.  With [removeMessages] set (the
    default), the warning of alice's third message leaves her three records
    in the cache; with [removeMessages] unset, the ban of her second message
    empties the cache of her records. *)
Lemma C7_counterexample :
  (removeMessages Example.ipwarnOptions = true
   /\ invoked (effects (Example.third Example.ipwarnOptions)) = [Warn]
   /\ map messageID (messages (cacheAfter (Example.third Example.ipwarnOptions)))
      = ["m1"; "m2"; "m3"]%string
   /\ map authorID (messages (cacheAfter (Example.third Example.ipwarnOptions)))
      = ["alice"; "alice"; "alice"]%string)
  /\ (let r := message (Example.banOnlyOptions false) (Example.worldAt 100)
                 (Example.post true "m2" "two" 100)
                 (cacheAfter
                    (message (Example.banOnlyOptions false) (Example.worldAt 0)
                       (Example.post true "m1" "one" 0) emptyCache)) in
      removeMessages (Example.banOnlyOptions false) = false
      /\ invoked (effects r) = [Ban]
      /\ messages (cacheAfter r) = []).
Proof. vm_compute. repeat split. Qed.

(** C7, amended. [banUser], [muteUser] and [kickUser] drop the author's
    records from the cache whether [removeMessages] is set or not, and
    [warnUser] leaves the cached messages as they are; what [removeMessages]
    decides, in all four, is whether [clearSpamMessages] is run on the spam
    messages. *)
Theorem C7_purge_does_not_depend_on_removeMessages
    (options : Options) (world : World) (msg : Message)
    (member : GuildMember) (spam : list CachedMessage) (c : AntiSpamCache) :
  let after (s : Sanction) :=
    messages (cacheAfter (routineOf options world s msg member spam c)) in
  after Ban = withoutAuthor (authorOf msg) (messages c)
  /\ after Mute = withoutAuthor (authorOf msg) (messages c)
  /\ after Kick = withoutAuthor (authorOf msg) (messages c)
  /\ after Warn = messages c
  /\ (forall s : Sanction,
        In (ClearSpamMessages spam)
           (effects (routineOf options world s msg member spam c))
        <-> removeMessages options = true).
Proof.
  cbv zeta. cbn [routineOf].
  rewrite banUser_cache, muteUser_cache, kickUser_cache, warnUser_cache.
  cbn [messages].
  split; [| split; [| split; [| split]]]; try reflexivity.
  intros s. apply routineOf_clears.
Qed.

(** ** The run of duplicates (lines 1162-1172) *)

Lemma insertDesc_Permutation (x : CachedMessage) (l : list CachedMessage) :
  Permutation (insertDesc x l) (x :: l).
Proof.
  induction l as [| y l IH]; cbn [insertDesc]; [reflexivity |].
  destruct (sentTimestamp x <? sentTimestamp y); [| reflexivity].
  rewrite IH. apply perm_swap.
Qed.

Lemma sortDesc_Permutation (l : list CachedMessage) :
  Permutation (sortDesc l) l.
Proof.
  induction l as [| x l IH]; [reflexivity |].
  unfold sortDesc in *. cbn [fold_right].
  rewrite insertDesc_Permutation. now constructor.
Qed.

Lemma insertDesc_sorted (x : CachedMessage) (l : list CachedMessage) :
  StronglySorted newerFirst l -> StronglySorted newerFirst (insertDesc x l).
Proof.
  induction l as [| y l IH]; intros Hs; cbn [insertDesc].
  - repeat constructor.
  - apply StronglySorted_inv in Hs. destruct Hs as [Hl Hy].
    destruct (sentTimestamp x <? sentTimestamp y) eqn:Hlt.
    + apply Z.ltb_lt in Hlt. constructor; [now apply IH |].
      rewrite insertDesc_Permutation.
      constructor; [unfold newerFirst; lia | exact Hy].
    + apply Z.ltb_ge in Hlt. constructor; [now constructor |].
      constructor; [exact Hlt |].
      eapply Forall_impl; [| exact Hy].
      unfold newerFirst. intros z Hz. lia.
Qed.

Lemma sortDesc_sorted (l : list CachedMessage) :
  StronglySorted newerFirst (sortDesc l).
Proof.
  induction l as [| x l IH]; [constructor |].
  unfold sortDesc in *. cbn [fold_right]. now apply insertDesc_sorted.
Qed.

(** Stability: records with the same timestamp keep their order. *)
Lemma insertDesc_stable (t : Z) (x : CachedMessage) (l : list CachedMessage) :
  filter (fun m => sentTimestamp m =? t) (insertDesc x l)
  = filter (fun m => sentTimestamp m =? t) (x :: l).
Proof.
  induction l as [| y l IH]; [reflexivity |]. cbn [insertDesc].
  destruct (sentTimestamp x <? sentTimestamp y) eqn:Hlt; [| reflexivity].
  apply Z.ltb_lt in Hlt. cbn [filter] in *. rewrite IH.
  destruct (sentTimestamp x =? t) eqn:Hx; [| reflexivity].
  apply Z.eqb_eq in Hx.
  assert ((sentTimestamp y =? t) = false) as -> by (apply Z.eqb_neq; lia).
  reflexivity.
Qed.

Lemma sortDesc_stable (t : Z) (l : list CachedMessage) :
  filter (fun m => sentTimestamp m =? t) (sortDesc l)
  = filter (fun m => sentTimestamp m =? t) l.
Proof.
  induction l as [| x l IH]; [reflexivity |].
  unfold sortDesc in *. cbn [fold_right].
  rewrite insertDesc_stable. cbn [filter]. now rewrite IH.
Qed.

Lemma walk_broken (first : CachedMessage) (l acc : list CachedMessage) :
  fold_left (walk first) l (true, acc) = (true, acc).
Proof. induction l as [| e l IH]; [reflexivity | exact IH]. Qed.

Lemma walk_takeWhile (first : CachedMessage) (l acc : list CachedMessage) :
  snd (fold_left (walk first) l (false, acc))
  = acc ++ takeWhile (fun e => (content e =? content first)%string) l.
Proof.
  revert acc. induction l as [| e l IH]; intros acc.
  - cbn. now rewrite app_nil_r.
  - cbn [fold_left takeWhile]. unfold walk at 2. cbn [fst snd].
    destruct (content e =? content first)%string; cbn [negb].
    + rewrite IH, <- app_assoc. reflexivity.
    + rewrite walk_broken. cbn [snd]. now rewrite app_nil_r.
Qed.

(** C5. With no duplicate match [spamOtherDuplicates] is empty and the
    cached messages are not walked (nor sorted).  Otherwise it is the
    longest prefix, of the author's cached messages sorted by
    [sentTimestamp] descending, whose records all have the content of the
    first duplicate match: the walk stops for good at the first record whose
    content differs.  The sorted list is a rearrangement of the cached
    messages, in descending order of timestamp, that keeps records of equal
    timestamp in their order. *)
Theorem C5_spamOtherDuplicates_is_the_recent_run
    (cachedMessages duplicateMatches : list CachedMessage) :
  duplicateRun cachedMessages duplicateMatches
  = match duplicateMatches with
    | [] => (cachedMessages, [])
    | first :: _ =>
        (sortDesc cachedMessages,
         takeWhile (fun e => (content e =? content first)%string)
           (sortDesc cachedMessages))
    end
  /\ spamOtherDuplicates cachedMessages duplicateMatches
     = match duplicateMatches with
       | [] => []
       | first :: _ =>
           takeWhile (fun e => (content e =? content first)%string)
             (sortDesc cachedMessages)
       end
  /\ Permutation (sortDesc cachedMessages) cachedMessages
  /\ StronglySorted newerFirst (sortDesc cachedMessages)
  /\ (forall t : Z,
        filter (fun m => sentTimestamp m =? t) (sortDesc cachedMessages)
        = filter (fun m => sentTimestamp m =? t) cachedMessages).
Proof.
  unfold spamOtherDuplicates, duplicateRun.
  split; [| split; [| split; [| split]]].
  - destruct duplicateMatches as [| first rest]; [reflexivity |].
    now rewrite walk_takeWhile.
  - destruct duplicateMatches as [| first rest]; [reflexivity |].
    cbn [snd]. now rewrite walk_takeWhile.
  - apply sortDesc_Permutation.
  - apply sortDesc_sorted.
  - intros t. apply sortDesc_stable.
Qed.

(** ** The outcome of an admitted message with [ipwarnEnabled] set *)

Lemma find_tierOrder_Some (p : Sanction -> bool) (s : Sanction) :
  find p tierOrder = Some s
  <-> p s = true /\ forall s', (rank s' < rank s)%nat -> p s' = false.
Proof.
  unfold tierOrder. cbn [find].
  destruct (p Ban) eqn:HB; destruct (p Mute) eqn:HM;
    destruct (p Kick) eqn:HK; destruct (p Warn) eqn:HW;
    destruct s; (split; [intros H | intros [H1 H2]]).
  all: try (try discriminate H; split; [assumption |];
            intros s' Hr; destruct s'; cbn in Hr; try lia; assumption).
  all: try reflexivity; try congruence.
  all: try (specialize (H2 Ban ltac:(cbn; lia)); congruence).
  all: try (specialize (H2 Mute ltac:(cbn; lia)); congruence).
  all: try (specialize (H2 Kick ltac:(cbn; lia)); congruence).
Qed.

Lemma find_tierOrder_None (p : Sanction -> bool) :
  find p tierOrder = None <-> forall s, p s = false.
Proof.
  unfold tierOrder. cbn [find]. split.
  - intros H s.
    destruct (p Ban) eqn:HB; [discriminate |].
    destruct (p Mute) eqn:HM; [discriminate |].
    destruct (p Kick) eqn:HK; [discriminate |].
    destruct (p Warn) eqn:HW; [discriminate |].
    destruct s; assumption.
  - intros H. now rewrite (H Ban), (H Mute), (H Kick), (H Warn).
Qed.

Section Outcome.

Variable options : Options.
Variable world : World.
Variable msg : Message.
Variable c : AntiSpamCache.
Variable g : Guild.
Variable member : GuildMember.
Hypothesis accepted : admission options world msg = Some (g, member).
Hypothesis ipwarnOn : ipwarnEnabled options = true.

Let entered : AntiSpamCache := pushed c (currentMessageOf msg g).

Let spamFor (s : Sanction) : list CachedMessage :=
  spamOf options s (duplicatesAt options msg g c)
    (otherDuplicatesAt options msg g c) (windowAt options world msg g c).

Let routine (s : Sanction) : Outcome (option bool) :=
  routineOf options world s msg member (spamFor s) entered.

Lemma selectTier_qualifies :
  selectTier options (authorOf msg) c
    (windowCount options world msg g c) (duplicateCount options msg g c)
  = find (qualifies options world msg g c) tierOrder.
Proof. reflexivity. Qed.

Lemma message_outcome :
  let r := message options world msg c in
  match find (qualifies options world msg g c) tierOrder with
  | Some s =>
      value r = Some true
      /\ cacheAfter r = cacheAfter (routine s)
      /\ effects r
         = ipEffects msg ++ Invoke s (spamFor s) :: effects (routine s)
      /\ invoked (effects r) = [s]
      /\ emitted (effects r) = emitted (effects (routine s))
  | None =>
      value r = Some false
      /\ cacheAfter r = entered
      /\ effects r = ipEffects msg
      /\ invoked (effects r) = []
      /\ emitted (effects r) = []
  end.
Proof.
  cbv zeta. rewrite (message_selectTier _ _ _ c _ _ accepted ipwarnOn).
  rewrite selectTier_qualifies.
  destruct (find (qualifies options world msg g c) tierOrder) as [s |].
  - cbv zeta. cbn [value cacheAfter effects].
    rewrite invoked_app, emitted_app, ipEffects_invoked, ipEffects_emitted.
    rewrite fire_invoked, fire_emitted, fire_effects, fire_cache.
    repeat split.
  - cbn [value cacheAfter effects].
    rewrite ipEffects_invoked, ipEffects_emitted. repeat split.
Qed.

End Outcome.

Arguments message_outcome {options world msg} c {g member} accepted ipwarnOn.

(** ** The order of the tiers (lines 1178-1249) *)

(** C4. The code at the failing input, a client built with the default
    options: [ipwarnEnabled] is then false, and alice's third message, which
    is admitted, finds the warn tier enabled, alice not warned and three
    messages in the window against a threshold of three, so the warn tier
    is the first that qualifies; yet no routine is called, nothing is
    emitted and [message] returns [false] (line 1155).  The same message on
    the same client with [ipwarnEnabled] set has [warnUser] called. *)
Theorem C4_default_client_fires_no_tier :
  admission Example.defaultOptions (Example.worldAt 1000)
    (Example.post true "m3" "three" 1000)
  = Some (Example.guild1, Example.aliceIn Example.guild1 true)
  /\ ipwarnEnabled Example.defaultOptions = false
  /\ windowCount Example.defaultOptions (Example.worldAt 1000)
       (Example.post true "m3" "three" 1000) Example.guild1
       (Example.afterTwo Example.defaultOptions) = 3
  /\ warnThreshold Example.defaultOptions = 3
  /\ qualifies Example.defaultOptions (Example.worldAt 1000)
       (Example.post true "m3" "three" 1000) Example.guild1
       (Example.afterTwo Example.defaultOptions) Warn = true
  /\ (forall s, (rank s < rank Warn)%nat ->
                 qualifies Example.defaultOptions (Example.worldAt 1000)
                   (Example.post true "m3" "three" 1000) Example.guild1
                   (Example.afterTwo Example.defaultOptions) s = false)
  /\ invoked (effects (Example.third Example.defaultOptions)) = []
  /\ emitted (effects (Example.third Example.defaultOptions)) = []
  /\ value (Example.third Example.defaultOptions) = Some false
  /\ invoked (effects (Example.third Example.ipwarnOptions)) = [Warn]
  /\ value (Example.third Example.ipwarnOptions) = Some true.
Proof.
  split; [reflexivity |]. split; [reflexivity |]. split; [reflexivity |].
  split; [reflexivity |]. split; [reflexivity |].
  split; [intros s Hs; destruct s; cbn in Hs; try lia; reflexivity |].
  vm_compute. repeat split.
Qed.

(** X24. For every admitted message event handled with
    [ipwarnEnabled] set, the tiers are checked in the order ban, mute,
    kick, warn: the routine called is that of the first tier in this order
    that is eligible (enabled, and for ban, kick and warn the author not
    yet recorded for that tier) and has its count threshold reached by the
    window or its duplicate threshold reached by the duplicates; a tier
    that does not qualify is passed over and the next one is looked at; at
    most one routine is called and at most its event is emitted; [message]
    returns [true] exactly when one was called. *)
Theorem X24_first_qualifying_tier_fires
    (options : Options) (world : World) (msg : Message) (c : AntiSpamCache)
    (g : Guild) (member : GuildMember) :
  admission options world msg = Some (g, member) ->
  ipwarnEnabled options = true ->
  let r := message options world msg c in
  let q := qualifies options world msg g c in
  (forall s, invoked (effects r) = [s]
             <-> q s = true
                 /\ forall s', (rank s' < rank s)%nat -> q s' = false)
  /\ (invoked (effects r) = [] <-> forall s, q s = false)
  /\ (List.length (invoked (effects r)) <= 1)%nat
  /\ (emitted (effects r) = [] \/ emitted (effects r) = invoked (effects r))
  /\ (value r = Some true <-> exists s, invoked (effects r) = [s]).
Proof.
  intros Hadm Hip r q. subst r q.
  pose proof (message_outcome c Hadm Hip) as Hout. cbv zeta in Hout.
  destruct (find (qualifies options world msg g c) tierOrder) as [s0 |] eqn:Hf.
  - destruct Hout as (Hv & _ & _ & Hi & He). rewrite Hi, He, Hv.
    split; [| split; [| split; [| split]]].
    + intros s. rewrite <- find_tierOrder_Some, Hf.
      split; intros H; injection H as ->; reflexivity.
    + split; [discriminate |]. intros Hall.
      apply find_tierOrder_None in Hall. congruence.
    + cbn. lia.
    + destruct (routineOf_emitted options world msg member
                  (spamOf options s0 (duplicatesAt options msg g c)
                     (otherDuplicatesAt options msg g c)
                     (windowAt options world msg g c))
                  (pushed c (currentMessageOf msg g)) s0) as [E | E];
        rewrite E; [now left | now right].
    + split; [intros _; now exists s0 | reflexivity].
  - destruct Hout as (Hv & _ & _ & Hi & He). rewrite Hi, He, Hv.
    split; [| split; [| split; [| split]]].
    + intros s. rewrite <- find_tierOrder_Some, Hf.
      split; discriminate.
    + split; [| reflexivity]. intros _. now apply find_tierOrder_None.
    + cbn. lia.
    + now left.
    + split; [discriminate | intros [s H]; discriminate].
Qed.

Lemma X24_witness :
  let r := Example.third Example.ipwarnOptions in
  let q := qualifies Example.ipwarnOptions (Example.worldAt 1000)
             (Example.post true "m3" "three" 1000) Example.guild1
             (Example.afterTwo Example.ipwarnOptions) in
  (forall s, invoked (effects r) = [s]
             <-> q s = true
                 /\ forall s', (rank s' < rank s)%nat -> q s' = false)
  /\ (invoked (effects r) = [] <-> forall s, q s = false)
  /\ (List.length (invoked (effects r)) <= 1)%nat
  /\ (emitted (effects r) = [] \/ emitted (effects r) = invoked (effects r))
  /\ (value r = Some true <-> exists s, invoked (effects r) = [s]).
Proof.
  apply (X24_first_qualifying_tier_fires
           Example.ipwarnOptions (Example.worldAt 1000)
           (Example.post true "m3" "three" 1000)
           (Example.afterTwo Example.ipwarnOptions)
           Example.guild1 (Example.aliceIn Example.guild1 true));
    reflexivity.
Defined.

(** ** Mute is not held back by an earlier mute (lines 1198-1211) *)

Lemma routineOf_tracker (options : Options) (world : World) (s : Sanction)
    (msg : Message) (member : GuildMember) (spam : list CachedMessage)
    (c : AntiSpamCache) :
  let c' := cacheAfter (routineOf options world s msg member spam c) in
  warnedUsers c'
  = warnedUsers c ++ (if Sanction_eqb s Warn then [authorOf msg] else [])
  /\ kickedUsers c'
     = kickedUsers c ++ (if Sanction_eqb s Kick then [authorOf msg] else [])
  /\ bannedUsers c'
     = bannedUsers c ++ (if Sanction_eqb s Ban then [authorOf msg] else []).
Proof.
  cbv zeta. destruct s; cbn [routineOf Sanction_eqb].
  - rewrite banUser_cache. cbn. now rewrite !app_nil_r.
  - rewrite muteUser_cache. cbn. now rewrite !app_nil_r.
  - rewrite kickUser_cache. cbn. now rewrite !app_nil_r.
  - rewrite warnUser_cache. cbn. now rewrite !app_nil_r.
Qed.

(** C9. The code at the failing input, a client built with the default
    options: alice's fourth message in 300 ms is admitted, mute is enabled,
    the ban tier does not qualify and the window holds four messages against
    a [muteThreshold] of four; yet [muteUser] is not called and [message]
    returns [false], because [ipwarnEnabled] is false (line 1155).  The same
    message on the same client with [ipwarnEnabled] set has [muteUser]
    called. *)
Theorem C9_default_client_does_not_mute :
  let w := Example.worldAt 300 in
  let m := Example.post true "m4" "four" 300 in
  let c := Example.afterThree Example.defaultOptions in
  admission Example.defaultOptions w m
  = Some (Example.guild1, Example.aliceIn Example.guild1 true)
  /\ muteEnabled Example.defaultOptions = true
  /\ qualifies Example.defaultOptions w m Example.guild1 c Ban = false
  /\ windowCount Example.defaultOptions w m Example.guild1 c = 4
  /\ muteThreshold Example.defaultOptions = 4
  /\ thresholdReached Example.defaultOptions Mute
       (windowCount Example.defaultOptions w m Example.guild1 c)
       (duplicateCount Example.defaultOptions m Example.guild1 c) = true
  /\ invoked (effects (Example.fourth Example.defaultOptions)) = []
  /\ value (Example.fourth Example.defaultOptions) = Some false
  /\ invoked (effects (Example.fourth Example.ipwarnOptions)) = [Mute]
  /\ value (Example.fourth Example.ipwarnOptions) = Some true.
Proof. vm_compute. repeat split. Qed.

(** X25. On a message event on which mute qualifies and that is
    handled with [ipwarnEnabled] set - the message is admitted, mute is
    enabled, the ban tier does not fire, and the window reaches
    [muteThreshold] or the duplicates reach [maxDuplicatesMute] -
    [muteUser] is called, whatever the cache holds, so whether or not the
    author was muted before.  The call records nothing: the warned, kicked
    and banned users are as before the event, the eligibility of mute never
    depends on the cache, and mute is still eligible for the author
    afterwards. *)
Theorem X25_mute_is_applied_again
    (options : Options) (world : World) (msg : Message) (c : AntiSpamCache)
    (g : Guild) (member : GuildMember) :
  admission options world msg = Some (g, member) ->
  ipwarnEnabled options = true ->
  muteEnabled options = true ->
  qualifies options world msg g c Ban = false ->
  thresholdReached options Mute
    (windowCount options world msg g c) (duplicateCount options msg g c)
  = true ->
  let r := message options world msg c in
  let spam := spamOf options Mute (duplicatesAt options msg g c)
                (otherDuplicatesAt options msg g c)
                (windowAt options world msg g c) in
  value r = Some true
  /\ invoked (effects r) = [Mute]
  /\ effects r
     = ipEffects msg
       ++ Invoke Mute spam
          :: effects (muteUser options world msg member spam
                        (pushed c (currentMessageOf msg g)))
  /\ warnedUsers (cacheAfter r) = warnedUsers c
  /\ kickedUsers (cacheAfter r) = kickedUsers c
  /\ bannedUsers (cacheAfter r) = bannedUsers c
  /\ (forall author cache,
        eligible options Mute author cache = muteEnabled options)
  /\ eligible options Mute (authorOf msg) (cacheAfter r) = true.
Proof.
  intros Hadm Hip Hmute Hban Hreached r spam. subst r spam.
  pose proof (message_outcome c Hadm Hip) as Hout. cbv zeta in Hout.
  assert (find (qualifies options world msg g c) tierOrder = Some Mute) as Hf.
  { apply find_tierOrder_Some. split.
    - unfold qualifies, eligible. cbn [tierEnabled recordedUsers].
      now rewrite Hmute, Hreached.
    - intros s' Hr. destruct s'; cbn in Hr; try lia. exact Hban. }
  rewrite Hf in Hout. destruct Hout as (Hv & Hc & He & Hi & _).
  pose proof (routineOf_tracker options world Mute msg member
                (spamOf options Mute (duplicatesAt options msg g c)
                   (otherDuplicatesAt options msg g c)
                   (windowAt options world msg g c))
                (pushed c (currentMessageOf msg g))) as Ht.
  cbv zeta in Ht. rewrite <- Hc in Ht. cbn [Sanction_eqb pushed] in Ht.
  cbn [warnedUsers kickedUsers bannedUsers] in Ht. rewrite !app_nil_r in Ht.
  destruct Ht as (Hw & Hk & Hb).
  repeat split; try assumption.
  - intros author cache. unfold eligible. cbn [tierEnabled recordedUsers].
    cbn. apply andb_true_r.
  - unfold eligible. cbn [tierEnabled recordedUsers]. cbn.
    now rewrite Hmute.
Qed.

Lemma X25_witness :
  let o := Example.muteOnlyOptions in
  let r2 := Example.secondMuted (Example.worldAt 100) in
  let c3 := cacheAfter (message o (Example.worldAt 200)
                          (Example.post true "m3" "three" 200)
                          (cacheAfter r2)) in
  let r4 := message o (Example.worldAt 300)
              (Example.post true "m4" "four" 300) c3 in
  (invoked (effects r2) = [Mute] /\ emitted (effects r2) = [Mute])
  /\ value r4 = Some true
  /\ invoked (effects r4) = [Mute]
  /\ (warnedUsers (cacheAfter r4), kickedUsers (cacheAfter r4),
      bannedUsers (cacheAfter r4)) = ([], [], [])
  /\ eligible o Mute "alice"%string (cacheAfter r4) = true.
Proof.
  pose proof (X25_mute_is_applied_again
                Example.muteOnlyOptions (Example.worldAt 300)
                (Example.post true "m4" "four" 300)
                (cacheAfter
                   (message Example.muteOnlyOptions (Example.worldAt 200)
                      (Example.post true "m3" "three" 200)
                      (cacheAfter
                         (Example.secondMuted (Example.worldAt 100)))))
                Example.guild1 (Example.aliceIn Example.guild1 true)
                eq_refl eq_refl eq_refl eq_refl eq_refl) as H.
  cbv zeta in H. destruct H as (Hv & Hi & _ & Hw & Hk & Hb & _ & He).
  split; [split; reflexivity |].
  split; [exact Hv |]. split; [exact Hi |].
  split; [now rewrite Hw, Hk, Hb | exact He].
Defined.

(** ** The ban flag (lines 1180-1196) *)







(** ** A sanction the platform refuses (lines 791-826, 899-936, 968-1007) *)






(** ** Three messages in a row (lines 1128-1176, 1231-1249) *)

Lemma len_filter_le {A : Type} (f : A -> bool) (l : list A) :
  len (filter f l) <= len l.
Proof.
  unfold len. apply Nat2Z.inj_le.
  induction l as [| x l IH]; cbn [filter]; [lia |].
  destruct (f x); cbn [List.length]; lia.
Qed.

Lemma filter_all {A : Type} (f : A -> bool) (l : list A) :
  Forall (fun x => f x = true) l -> filter f l = l.
Proof.
  induction 1 as [| x l Hx _ IH]; [reflexivity |].
  cbn [filter]. now rewrite Hx, IH.
Qed.

Lemma duplicateRun_Permutation (cached dups : list CachedMessage) :
  Permutation (fst (duplicateRun cached dups)) cached.
Proof.
  unfold duplicateRun. destruct dups; cbn [fst]; [reflexivity |].
  apply sortDesc_Permutation.
Qed.

Lemma cachedMessagesOf_author (m m' : Message) (g : Guild)
    (l : list CachedMessage) :
  authorOf m = authorOf m' ->
  cachedMessagesOf m g l = cachedMessagesOf m' g l.
Proof. unfold cachedMessagesOf. now intros ->. Qed.

Lemma cachedAt_push (msg : Message) (g : Guild) (c : AntiSpamCache) :
  cachedAt msg g c
  = cachedMessagesOf msg g (messages c) ++ [currentMessageOf msg g].
Proof.
  unfold cachedAt, cachedMessagesOf, pushed. cbn [messages].
  rewrite filter_app. cbn [filter currentMessageOf authorID guildID].
  now rewrite !String.eqb_refl.
Qed.

Lemma windowCount_le (options : Options) (world : World) (msg : Message)
    (g : Guild) (c : AntiSpamCache) :
  windowCount options world msg g c <= len (cachedAt msg g c).
Proof.
  unfold windowCount, windowAt, spamMatchesOf.
  etransitivity; [apply len_filter_le |].
  unfold len.
  rewrite (Permutation_length
             (duplicateRun_Permutation (cachedAt msg g c)
                (duplicatesAt options msg g c))).
  lia.
Qed.

Lemma duplicateCount_le (options : Options) (msg : Message)
    (g : Guild) (c : AntiSpamCache) :
  duplicateCount options msg g c <= len (cachedAt msg g c).
Proof. apply len_filter_le. Qed.

(** The window holds every cached message of the author when all of them
    are younger than [maxInterval]. *)
Lemma windowCount_all (options : Options) (world : World) (msg : Message)
    (g : Guild) (c : AntiSpamCache) :
  Forall (fun m => now world - maxInterval options < sentTimestamp m)
    (cachedAt msg g c) ->
  windowCount options world msg g c = len (cachedAt msg g c).
Proof.
  intros Hall. unfold windowCount, windowAt, spamMatchesOf.
  pose proof (duplicateRun_Permutation (cachedAt msg g c)
                (duplicatesAt options msg g c)) as Hp.
  rewrite filter_all.
  - unfold len. now rewrite (Permutation_length Hp).
  - rewrite Hp. eapply Forall_impl; [| exact Hall].
    intros m Hm. now apply Z.ltb_lt.
Qed.

(** A tier whose two thresholds are above the number of cached messages
    of the author does not qualify. *)
Lemma qualifies_few (options : Options) (world : World) (msg : Message)
    (g : Guild) (c : AntiSpamCache) (s : Sanction) :
  len (cachedAt msg g c) < countThreshold options s ->
  len (cachedAt msg g c) < duplicateThreshold options s ->
  qualifies options world msg g c s = false.
Proof.
  intros Hc Hd. unfold qualifies, thresholdReached.
  pose proof (windowCount_le options world msg g c).
  pose proof (duplicateCount_le options msg g c).
  assert ((countThreshold options s <=? windowCount options world msg g c)
          = false) as -> by (apply Z.leb_gt; lia).
  assert ((duplicateThreshold options s <=? duplicateCount options msg g c)
          = false) as -> by (apply Z.leb_gt; lia).
  apply andb_false_r.
Qed.

(** An admitted message on which no tier qualifies only enters the cache. *)
Lemma message_quiet (options : Options) (world : World) (msg : Message)
    (c : AntiSpamCache) (g : Guild) (member : GuildMember) :
  admission options world msg = Some (g, member) ->
  ipwarnEnabled options = true ->
  (forall s, qualifies options world msg g c s = false) ->
  let r := message options world msg c in
  value r = Some false
  /\ cacheAfter r = pushed c (currentMessageOf msg g)
  /\ emitted (effects r) = [].
Proof.
  intros Hadm Hip Hq. cbv zeta.
  pose proof (message_outcome c Hadm Hip) as Hout. cbv zeta in Hout.
  apply find_tierOrder_None in Hq. rewrite Hq in Hout.
  destruct Hout as (Hv & Hc & _ & _ & He). auto.
Qed.

Lemma cachedMessagesOf_push (m m' : Message) (g : Guild)
    (l : list CachedMessage) :
  authorOf m' = authorOf m ->
  cachedMessagesOf m g (l ++ [currentMessageOf m' g])
  = cachedMessagesOf m g l ++ [currentMessageOf m' g].
Proof.
  intros Ha. unfold cachedMessagesOf. rewrite filter_app.
  cbn [filter currentMessageOf authorID guildID].
  now rewrite Ha, !String.eqb_refl.
Qed.

Lemma qualifies_unreached (options : Options) (world : World) (msg : Message)
    (g : Guild) (c : AntiSpamCache) (s : Sanction) :
  windowCount options world msg g c < countThreshold options s ->
  duplicateCount options msg g c < duplicateThreshold options s ->
  qualifies options world msg g c s = false.
Proof.
  intros Hc Hd. unfold qualifies, thresholdReached.
  assert ((countThreshold options s <=? windowCount options world msg g c)
          = false) as -> by (apply Z.leb_gt; lia).
  assert ((duplicateThreshold options s <=? duplicateCount options msg g c)
          = false) as -> by (apply Z.leb_gt; lia).
  apply andb_false_r.
Qed.

(** C1. The code at the failing input, a client built with the default
    options ([warnThreshold] 3, [maxInterval] 2000, every tier enabled):
    alice, who passes the admission filter and was never warned, sends three
    messages within 1000 ms, each handled when it was created.  The three
    are in the cache and in the window of the third, which reaches
    [warnThreshold]; yet [message] returns [false] on the third as on the
    first two, no effect is produced and alice is not recorded as warned,
    because [ipwarnEnabled] is false (line 1155).  On the same client with
    [ipwarnEnabled] set, the third message returns [true], [warnAdd] is
    emitted once and alice is recorded. *)
Theorem C1_default_client_does_not_warn :
  let o := Example.defaultOptions in
  let m3 := Example.post true "m3" "three" 1000 in
  (warnThreshold o = 3 /\ maxInterval o = 2000 /\ warnEnabled o = true
   /\ ipwarnEnabled o = false)
  /\ admission o (Example.worldAt 1000) m3
     = Some (Example.guild1, Example.aliceIn Example.guild1 true)
  /\ map sentTimestamp (messages (cacheAfter (Example.third o)))
     = [0; 500; 1000]
  /\ windowCount o (Example.worldAt 1000) m3 Example.guild1 (Example.afterTwo o)
     = 3
  /\ (value (Example.third o) = Some false
      /\ effects (Example.third o) = []
      /\ warnedUsers (cacheAfter (Example.third o)) = [])
  /\ (value (Example.third Example.ipwarnOptions) = Some true
      /\ emitted (effects (Example.third Example.ipwarnOptions)) = [Warn]
      /\ warnedUsers (cacheAfter (Example.third Example.ipwarnOptions))
         = ["alice"%string]).
Proof. vm_compute. repeat split. Qed.

(** X23. Take a client with [ipwarnEnabled] set and [actionInEmbed] not
    set, the warn tier enabled, [warnThreshold] 3 and [maxInterval] 2000,
    the thresholds of the other tiers above 3 and [maxDuplicatesWarn] above
    2 (as the defaults are).  An author who is not yet warned and has no
    message of this guild in the cache sends three messages there, within
    1500 ms, all admitted, and the third is handled less than 500 ms after
    it was created.  Then [message] returns [false] on the first two and [true] on
    the third; over the three calls exactly one event is emitted, [warnAdd],
    by the third; and the author is in [warnedUsers] afterwards, so the warn
    tier is not eligible for the author any more. *)
Theorem X23_third_message_triggers_one_warning
    (options : Options) (w1 w2 w3 : World) (m1 m2 m3 : Message)
    (c : AntiSpamCache) (g : Guild) (mb1 mb2 mb3 : GuildMember) :
  warnThreshold options = 3 ->
  maxInterval options = 2000 ->
  ipwarnEnabled options = true ->
  actionInEmbed options = false ->
  warnEnabled options = true ->
  3 < banThreshold options /\ 3 < maxDuplicatesBan options ->
  3 < muteThreshold options /\ 3 < maxDuplicatesMute options ->
  3 < kickThreshold options /\ 3 < maxDuplicatesKick options ->
  2 < maxDuplicatesWarn options ->
  admission options w1 m1 = Some (g, mb1) ->
  admission options w2 m2 = Some (g, mb2) ->
  admission options w3 m3 = Some (g, mb3) ->
  authorOf m1 = authorOf m3 ->
  authorOf m2 = authorOf m3 ->
  cachedMessagesOf m3 g (messages c) = [] ->
  ~ In (authorOf m3) (warnedUsers c) ->
  msg_createdTimestamp m1 <= msg_createdTimestamp m2
  /\ msg_createdTimestamp m2 <= msg_createdTimestamp m3
  /\ msg_createdTimestamp m3 <= msg_createdTimestamp m1 + 1500 ->
  now w3 < msg_createdTimestamp m3 + 500 ->
  let r1 := message options w1 m1 c in
  let r2 := message options w2 m2 (cacheAfter r1) in
  let r3 := message options w3 m3 (cacheAfter r2) in
  value r1 = Some false
  /\ value r2 = Some false
  /\ value r3 = Some true
  /\ invoked (effects r3) = [Warn]
  /\ emitted (effects r1 ++ effects r2 ++ effects r3) = [Warn]
  /\ In (authorOf m3) (warnedUsers (cacheAfter r3))
  /\ eligible options Warn (authorOf m3) (cacheAfter r3) = false.
Proof.
  intros Hwarn Hint Hip Hembed Hen [HB HdB] [HM HdM] [HK HdK] HdW
         Ha1 Ha2 Ha3 Hau1 Hau2 Hnone Hfresh (Ht12 & Ht23 & Ht31) Hnow.
  cbv zeta.
  (* the first message *)
  assert (cachedAt m1 g c = [currentMessageOf m1 g]) as Hc1.
  { rewrite cachedAt_push, (cachedMessagesOf_author m1 m3 g _ Hau1), Hnone.
    reflexivity. }
  destruct (message_quiet options w1 m1 c g mb1 Ha1 Hip) as (Hv1 & Hs1 & He1).
  { intros s. apply qualifies_few; rewrite Hc1; unfold len; cbn [List.length];
      destruct s; cbn [countThreshold duplicateThreshold]; lia. }
  rewrite Hs1, Hv1.
  (* the second message *)
  set (c1 := pushed c (currentMessageOf m1 g)).
  assert (cachedAt m2 g c1 = [currentMessageOf m1 g; currentMessageOf m2 g])
    as Hc2.
  { rewrite cachedAt_push. unfold c1. cbn [pushed messages].
    rewrite cachedMessagesOf_push by congruence.
    rewrite (cachedMessagesOf_author m2 m3 g _ Hau2), Hnone. reflexivity. }
  destruct (message_quiet options w2 m2 c1 g mb2 Ha2 Hip) as (Hv2 & Hs2 & He2).
  { intros s. apply qualifies_few; rewrite Hc2; unfold len; cbn [List.length];
      destruct s; cbn [countThreshold duplicateThreshold]; lia. }
  rewrite Hs2, Hv2.
  (* the third message *)
  set (c2 := pushed c1 (currentMessageOf m2 g)).
  assert (cachedAt m3 g c2
          = [currentMessageOf m1 g; currentMessageOf m2 g;
             currentMessageOf m3 g]) as Hc3.
  { rewrite cachedAt_push. unfold c2, c1. cbn [pushed messages].
    rewrite !cachedMessagesOf_push by congruence.
    rewrite Hnone. reflexivity. }
  assert (windowCount options w3 m3 g c2 = 3) as Hw3.
  { rewrite windowCount_all; rewrite Hc3; [reflexivity |].
    repeat constructor; cbn [currentMessageOf sentTimestamp]; lia. }
  assert (duplicateCount options m3 g c2 <= 3) as Hd3.
  { pose proof (duplicateCount_le options m3 g c2) as H.
    rewrite Hc3 in H. exact H. }
  assert (find (qualifies options w3 m3 g c2) tierOrder = Some Warn) as Hf.
  { apply find_tierOrder_Some. split.
    - unfold qualifies, eligible, thresholdReached.
      cbn [tierEnabled recordedUsers countThreshold].
      rewrite Hen, Hw3, Hwarn. cbn [andb orb Z.leb Z.compare Pos.compare
                                     Pos.compare_cont].
      destruct (includes (warnedUsers c2) (authorOf m3)) eqn:Hi;
        [| reflexivity].
      apply includes_In in Hi. contradiction.
    - intros s' Hr.
      destruct s'; cbn in Hr; try lia;
        apply qualifies_unreached;
        cbn [countThreshold duplicateThreshold]; lia. }
  pose proof (message_outcome c2 Ha3 Hip) as Hout. cbv zeta in Hout.
  rewrite Hf in Hout. destruct Hout as (Hv3 & Hs3 & _ & Hi3 & He3).
  cbn [routineOf] in Hs3, He3. rewrite warnUser_emitted, Hembed in He3.
  rewrite warnUser_cache in Hs3.
  rewrite !emitted_app, He1, He2, He3, Hi3, Hv3, Hs3.
  cbn [warnedUsers app].
  repeat split; try reflexivity.
  - apply in_or_app. right. now left.
  - unfold eligible. cbn [tierEnabled recordedUsers warnedUsers].
    rewrite includes_push. cbn [negb]. apply andb_false_r.
Qed.

Lemma X23_witness :
  let r1 := message Example.ipwarnOptions (Example.worldAt 0)
              (Example.post true "m1" "one" 0) emptyCache in
  let r2 := message Example.ipwarnOptions (Example.worldAt 500)
              (Example.post true "m2" "two" 500) (cacheAfter r1) in
  let r3 := message Example.ipwarnOptions (Example.worldAt 1000)
              (Example.post true "m3" "three" 1000) (cacheAfter r2) in
  value r1 = Some false
  /\ value r2 = Some false
  /\ value r3 = Some true
  /\ invoked (effects r3) = [Warn]
  /\ emitted (effects r1 ++ effects r2 ++ effects r3) = [Warn]
  /\ In "alice"%string (warnedUsers (cacheAfter r3))
  /\ eligible Example.ipwarnOptions Warn "alice"%string (cacheAfter r3)
     = false.
Proof.
  apply (X23_third_message_triggers_one_warning
           Example.ipwarnOptions
           (Example.worldAt 0) (Example.worldAt 500) (Example.worldAt 1000)
           (Example.post true "m1" "one" 0)
           (Example.post true "m2" "two" 500)
           (Example.post true "m3" "three" 1000)
           emptyCache Example.guild1
           (Example.aliceIn Example.guild1 true)
           (Example.aliceIn Example.guild1 true)
           (Example.aliceIn Example.guild1 true));
    try reflexivity; try (cbn; lia); try (intros []).
Defined.

(** * Further properties of the code *)

(** ** The three ways a call of [message] ends *)

Lemma routineOf_messages (options : Options) (world : World) (s : Sanction)
    (msg : Message) (member : GuildMember) (spam : list CachedMessage)
    (c : AntiSpamCache) :
  messages (cacheAfter (routineOf options world s msg member spam c))
  = if Sanction_eqb s Warn then messages c
    else withoutAuthor (authorOf msg) (messages c).
Proof.
  destruct s; cbn [routineOf Sanction_eqb].
  - now rewrite banUser_cache.
  - now rewrite muteUser_cache.
  - now rewrite kickUser_cache.
  - now rewrite warnUser_cache.
Qed.

(** Either the message is not admitted and nothing happens; or it is
    recorded and no routine is called; or it is recorded and the routine of
    the first qualifying tier is called. *)
Lemma message_cases (options : Options) (world : World) (msg : Message)
    (c : AntiSpamCache) :
  let r := message options world msg c in
  (admission options world msg = None
   /\ r = mkOutcome (if fetchFails options world msg then None
                     else Some false) c [])
  \/ (exists g member,
        admission options world msg = Some (g, member)
        /\ value r = Some false
        /\ cacheAfter r = pushed c (currentMessageOf msg g)
        /\ invoked (effects r) = []
        /\ emitted (effects r) = []
        /\ (effects r = [] \/ effects r = ipEffects msg))
  \/ (exists g member s,
        admission options world msg = Some (g, member)
        /\ ipwarnEnabled options = true
        /\ qualifies options world msg g c s = true
        /\ value r = Some true
        /\ invoked (effects r) = [s]
        /\ let spam := spamOf options s (duplicatesAt options msg g c)
                         (otherDuplicatesAt options msg g c)
                         (windowAt options world msg g c) in
           let done := routineOf options world s msg member spam
                         (pushed c (currentMessageOf msg g)) in
           cacheAfter r = cacheAfter done
           /\ effects r = ipEffects msg ++ Invoke s spam :: effects done
           /\ emitted (effects r) = emitted (effects done)).
Proof.
  cbv zeta.
  destruct (admission options world msg) as [[g member] |] eqn:Hadm.
  2: { left. split; [reflexivity |]. now apply message_rejected. }
  right. destruct (ipwarnEnabled options) eqn:Hip.
  2: { left. exists g, member.
       rewrite (message_ipwarn_off _ _ _ c _ _ Hadm Hip).
       cbn [value cacheAfter effects invoked emitted]. auto 10. }
  pose proof (message_outcome c Hadm Hip) as Hout. cbv zeta in Hout.
  destruct (find (qualifies options world msg g c) tierOrder) as [s |] eqn:Hf.
  - right. exists g, member, s.
    apply find_tierOrder_Some in Hf. destruct Hf as [Hq _].
    destruct Hout as (Hv & Hc & He & Hi & Hem). auto 10.
  - left. exists g, member.
    destruct Hout as (Hv & Hc & He & Hi & Hem). auto 10.
Qed.

(** ** What [message] records (lines 790, 967, 1033, 1180-1249) *)

(** The three lists after a call: each is the list before, with the author
    appended when the routine of its tier was called. *)
Lemma message_tracker (options : Options) (world : World) (msg : Message)
    (c : AntiSpamCache) :
  let r := message options world msg c in
  let added (s : Sanction) :=
    if called s (effects r) then [authorOf msg] else [] in
  warnedUsers (cacheAfter r) = warnedUsers c ++ added Warn
  /\ kickedUsers (cacheAfter r) = kickedUsers c ++ added Kick
  /\ bannedUsers (cacheAfter r) = bannedUsers c ++ added Ban
  /\ (List.length (invoked (effects r)) <= 1)%nat
  /\ (forall s, In s (invoked (effects r)) ->
                eligible options s (authorOf msg) c = true).
Proof.
  cbv zeta. unfold called.
  destruct (message_cases options world msg c)
    as [[_ Hr] | [(g & mb & _ & _ & Hc & Hi & _)
                 | (g & mb & s & _ & _ & Hq & _ & Hi & Hrest)]].
  - rewrite Hr. cbn. rewrite !app_nil_r.
    repeat split; try lia; try (intros s []).
  - rewrite Hc, Hi. cbn. rewrite !app_nil_r.
    repeat split; try lia; try (intros s []).
  - cbv zeta in Hrest. destruct Hrest as (Hc & _). rewrite Hc, Hi.
    match goal with
    | |- context [routineOf ?o ?w ?s ?m ?mb' ?sp ?c0] =>
        destruct (routineOf_tracker o w s m mb' sp c0) as (Hw & Hk & Hb)
    end.
    rewrite Hw, Hk, Hb. cbn [pushed warnedUsers kickedUsers bannedUsers].
    cbn [invoked existsb List.length].
    split; [| split; [| split; [| split]]].
    + destruct s; reflexivity.
    + destruct s; reflexivity.
    + destruct s; reflexivity.
    + lia.
    + intros s' [<- | []]. unfold qualifies in Hq.
      now apply andb_true_iff in Hq.
Qed.

Lemma In_called (s : Sanction) (l : list Effect) :
  called s l = true <-> In s (invoked l).
Proof.
  unfold called. rewrite existsb_exists. split.
  - intros (x & Hx & He). destruct s, x; try discriminate; exact Hx.
  - intros H. exists s. split; [exact H | now destruct s].
Qed.

Lemma eligible_recorded (options : Options) (s : Sanction) (a : Snowflake)
    (c : AntiSpamCache) :
  In a (recordedUsers s c) -> eligible options s a c = false.
Proof.
  intros H. unfold eligible. apply includes_In in H. rewrite H.
  apply andb_false_r.
Qed.

Lemma message_recordedUsers (options : Options) (world : World)
    (msg : Message) (c : AntiSpamCache) (s : Sanction) (a : Snowflake) :
  In a (recordedUsers s c) ->
  In a (recordedUsers s (cacheAfter (message options world msg c))).
Proof.
  intros H.
  destruct (message_tracker options world msg c) as (Hw & Hk & Hb & _).
  destruct s; cbn [recordedUsers] in *;
    [rewrite Hb | exact H | rewrite Hk | rewrite Hw];
    apply in_or_app; now left.
Qed.

Lemma afterMessages_recordedUsers (options : Options)
    (events : list (World * Message)) (c : AntiSpamCache)
    (s : Sanction) (a : Snowflake) :
  In a (recordedUsers s c) ->
  In a (recordedUsers s (afterMessages options events c)).
Proof.
  revert c. induction events as [| [w m] events IH]; intros c H.
  - exact H.
  - cbn [afterMessages]. apply IH. now apply message_recordedUsers.
Qed.

Lemma message_emitted_invoked (options : Options) (world : World)
    (msg : Message) (c : AntiSpamCache) (s : Sanction) :
  In s (emitted (effects (message options world msg c))) ->
  In s (invoked (effects (message options world msg c))).
Proof.
  destruct (message_cases options world msg c)
    as [[_ Hr] | [(g & mb & _ & _ & _ & _ & He & _)
                 | (g & mb & s0 & _ & _ & _ & _ & Hi & Hrest)]].
  - rewrite Hr. intros [].
  - rewrite He. intros [].
  - cbv zeta in Hrest. destruct Hrest as (_ & _ & He). rewrite He, Hi.
    match goal with
    | |- context [routineOf ?o ?w ?s ?m ?mb' ?sp ?c0] =>
        destruct (routineOf_emitted o w m mb' sp c0 s) as [E | E]
    end; rewrite E; [intros [] | exact (fun H => H)].
Qed.

(** X2. Warn, kick and ban are applied once per user, not once per guild:
    when the author of a message is already in the list of one of these
    tiers, then after any further run of message events, in whatever
    guilds, the author is still in the list, and the author's message does
    not have that tier's routine called nor its event emitted. *)
Theorem X2_once_per_tier_whatever_the_guild
    (options : Options) (events : list (World * Message))
    (world : World) (msg : Message) (c : AntiSpamCache) (s : Sanction) :
  In (authorOf msg) (recordedUsers s c) ->
  let c' := afterMessages options events c in
  let r := message options world msg c' in
  In (authorOf msg) (recordedUsers s c')
  /\ ~ In s (invoked (effects r))
  /\ ~ In s (emitted (effects r))
  /\ In (authorOf msg) (recordedUsers s (cacheAfter r)).
Proof.
  intros Hin c' r. subst r.
  assert (In (authorOf msg) (recordedUsers s c')) as Hin'
    by now apply afterMessages_recordedUsers.
  assert (~ In s (invoked (effects (message options world msg c')))) as Hni.
  { intros Hi.
    destruct (message_tracker options world msg c') as (_ & _ & _ & _ & He).
    specialize (He s Hi).
    rewrite (eligible_recorded options s _ c' Hin') in He. discriminate. }
  split; [exact Hin' |]. split; [exact Hni |]. split.
  - intros He. apply Hni. now apply message_emitted_invoked.
  - now apply message_recordedUsers.
Qed.

Lemma X2_witness :
  let c' := afterMessages Example.ipwarnOptions
              [(Example.worldAt 0, Example.post true "m1" "one" 0)]
              Example.warnedCache in
  let msg := Example.postIn Example.guild2 true "m2" "two" 100 in
  let r := message Example.ipwarnOptions (Example.worldAt 100) msg c' in
  In "alice"%string (recordedUsers Warn c')
  /\ ~ In Warn (invoked (effects r))
  /\ ~ In Warn (emitted (effects r))
  /\ In "alice"%string (recordedUsers Warn (cacheAfter r)).
Proof.
  exact (X2_once_per_tier_whatever_the_guild
           Example.ipwarnOptions
           [(Example.worldAt 0, Example.post true "m1" "one" 0)]
           (Example.worldAt 100)
           (Example.postIn Example.guild2 true "m2" "two" 100)
           Example.warnedCache Warn (or_introl eq_refl)).
Defined.

(** X3. A call of [message] changes the lists of warned, kicked and banned
    users only by appending the author of the message, to the list of the
    tier whose routine it calls; it calls at most one routine, and calls
    that of warn, kick or ban only for an author who is not yet in the list. *)
Theorem X3_message_only_appends_the_author
    (options : Options) (world : World) (msg : Message) (c : AntiSpamCache) :
  let r := message options world msg c in
  let added (s : Sanction) :=
    if called s (effects r) then [authorOf msg] else [] in
  warnedUsers (cacheAfter r) = warnedUsers c ++ added Warn
  /\ kickedUsers (cacheAfter r) = kickedUsers c ++ added Kick
  /\ bannedUsers (cacheAfter r) = bannedUsers c ++ added Ban
  /\ (List.length (invoked (effects r)) <= 1)%nat
  /\ (forall s, In s (invoked (effects r)) ->
                ~ In (authorOf msg) (recordedUsers s c)).
Proof.
  cbv zeta.
  destruct (message_tracker options world msg c) as (Hw & Hk & Hb & Hl & He).
  split; [exact Hw |]. split; [exact Hk |]. split; [exact Hb |].
  split; [exact Hl |].
  intros s Hi Hin. specialize (He s Hi).
  rewrite (eligible_recorded options s _ c Hin) in He. discriminate.
Qed.

(** ** What [message] leaves alone *)

Lemma message_messages (options : Options) (world : World) (msg : Message)
    (c : AntiSpamCache) :
  let r := message options world msg c in
  messages (cacheAfter r)
  = if called Ban (effects r) || called Mute (effects r)
       || called Kick (effects r)
    then withoutAuthor (authorOf msg) (messages c)
    else match admission options world msg with
         | Some (g, _) => messages c ++ [currentMessageOf msg g]
         | None => messages c
         end.
Proof.
  cbv zeta. unfold called.
  destruct (message_cases options world msg c)
    as [[Ha Hr] | [(g & mb & Ha & _ & Hc & Hi & _)
                  | (g & mb & s & Ha & _ & _ & _ & Hi & Hrest)]].
  - rewrite Hr, Ha. reflexivity.
  - rewrite Hc, Hi, Ha. reflexivity.
  - cbv zeta in Hrest. destruct Hrest as (Hc & _).
    rewrite Hc, Hi, Ha, routineOf_messages. cbn [pushed messages].
    destruct s; cbn [Sanction_eqb invoked existsb orb]; try reflexivity;
      unfold withoutAuthor; rewrite filter_app;
      cbn [filter currentMessageOf authorID];
      rewrite String.eqb_refl; cbn [negb]; now rewrite app_nil_r.
Qed.

(** ** The admission filter (lines 1052-1118) *)

Lemma earlyAdmission_guild (options : Options) (msg : Message) (g : Guild) :
  msg_guild msg = Some g ->
  let early :=
    authorOf msg = msg_clientUserId msg
    \/ (guild_ownerId g = authorOf msg /\ debug options = false)
    \/ (ignoreBots options = true /\ user_bot (msg_author msg) = true)
    \/ isMemberIgnored options msg = true
    \/ isGuildIgnored options g = true
    \/ isChannelIgnored options (msg_channel msg) = true in
  (early -> earlyAdmission options msg = None)
  /\ (~ early -> earlyAdmission options msg = Some g).
Proof.
  intros Hg. cbv zeta. unfold earlyAdmission. rewrite Hg.
  destruct (authorOf msg =? msg_clientUserId msg)%string eqn:H1;
    [apply String.eqb_eq in H1; cbn [orb]; tauto
    | apply String.eqb_neq in H1].
  destruct (guild_ownerId g =? authorOf msg)%string eqn:H2;
    [apply String.eqb_eq in H2 | apply String.eqb_neq in H2];
    destruct (debug options) eqn:H3;
    destruct (ignoreBots options) eqn:H4;
    destruct (user_bot (msg_author msg)) eqn:H5;
    cbn [orb andb negb]; try tauto;
    (destruct (isMemberIgnored options msg) eqn:H6; [tauto |];
     destruct (isGuildIgnored options g) eqn:H7; [tauto |];
     destruct (isChannelIgnored options (msg_channel msg)) eqn:H8;
       [tauto |];
     split; [| reflexivity];
     intros [H | [[H H'] | [[H H'] | [H | [H | H]]]]]; congruence).
Qed.

(** X1. [message] returns [false] and leaves the cache and the outside
    world as they are when the message has no guild, or is from the client
    itself, from the owner of the guild while [debug] is off, from a bot
    while [ignoreBots] is on, or the member, the guild or the channel is
    ignored.  Otherwise it needs the member: when the member is not cached
    and the fetch rejects, [message] rejects, again with nothing changed.
    With the member, it returns [false] with nothing changed when one of the
    member's roles or permissions is ignored.  Every other message is
    recorded: the author's records are purged when the routine of ban, mute
    or kick is called, and otherwise the record of the message is appended
    to the cache. *)
Theorem X1_admission_filter
    (options : Options) (world : World) (msg : Message) (c : AntiSpamCache) :
  let r := message options world msg c in
  let untouched (v : option bool) := r = mkOutcome v c [] in
  match msg_guild msg with
  | None => untouched (Some false)
  | Some g =>
      let early :=
        authorOf msg = msg_clientUserId msg
        \/ (guild_ownerId g = authorOf msg /\ debug options = false)
        \/ (ignoreBots options = true /\ user_bot (msg_author msg) = true)
        \/ isMemberIgnored options msg = true
        \/ isGuildIgnored options g = true
        \/ isChannelIgnored options (msg_channel msg) = true in
      (early -> untouched (Some false))
      /\ (~ early ->
          match memberOf world msg with
          | None => untouched None
          | Some member =>
              let late :=
                memberHasIgnoredRoles options member = true
                \/ existsb (member_hasPermission member)
                     (ignoredPermissions options) = true in
              (late -> untouched (Some false))
              /\ (~ late ->
                  admission options world msg = Some (g, member)
                  /\ messages (cacheAfter r)
                     = if called Ban (effects r) || called Mute (effects r)
                          || called Kick (effects r)
                       then withoutAuthor (authorOf msg) (messages c)
                       else messages c ++ [currentMessageOf msg g])
          end)
  end.
Proof.
  cbv zeta. destruct (msg_guild msg) as [g |] eqn:Hg.
  2: { unfold message, admission, fetchFails, earlyAdmission.
       now rewrite Hg. }
  destruct (earlyAdmission_guild options msg g Hg) as [Hearly Hpass].
  split.
  - intros He. unfold message, admission, fetchFails.
    now rewrite (Hearly He).
  - intros Hne. specialize (Hpass Hne).
    destruct (memberOf world msg) as [member |] eqn:Hm.
    2: { unfold message, admission, fetchFails. now rewrite Hpass, Hm. }
    assert (admission options world msg
            = if memberHasIgnoredRoles options member then None
              else if existsb (member_hasPermission member)
                        (ignoredPermissions options)
                   then None else Some (g, member)) as Hadm.
    { unfold admission. now rewrite Hpass, Hm. }
    assert (fetchFails options world msg = false) as Hff.
    { unfold fetchFails. now rewrite Hpass, Hm. }
    split.
    + intros Hlate. rewrite message_rejected, Hff; [reflexivity |].
      rewrite Hadm. destruct Hlate as [-> | H]; [reflexivity |].
      rewrite H. now destruct (memberHasIgnoredRoles options member).
    + intros Hnl.
      destruct (memberHasIgnoredRoles options member); [tauto |].
      destruct (existsb (member_hasPermission member)
                  (ignoredPermissions options)); [tauto |].
      split; [exact Hadm |].
      pose proof (message_messages options world msg c) as Hmm.
      cbv zeta in Hmm. now rewrite Hadm in Hmm.
Qed.

(** X4. A message event touches nothing that belongs to another user: the
    cached records of every other author are the same, in the same order,
    and every other user is in the lists of warned, kicked and banned users
    exactly when the user was there before. *)
Theorem X4_other_users_are_untouched
    (options : Options) (world : World) (msg : Message) (c : AntiSpamCache)
    (other : Snowflake) :
  other <> authorOf msg ->
  let c' := cacheAfter (message options world msg c) in
  filter (fun r => (authorID r =? other)%string) (messages c')
  = filter (fun r => (authorID r =? other)%string) (messages c)
  /\ (In other (warnedUsers c') <-> In other (warnedUsers c))
  /\ (In other (kickedUsers c') <-> In other (kickedUsers c))
  /\ (In other (bannedUsers c') <-> In other (bannedUsers c)).
Proof.
  intros Hne. cbv zeta.
  destruct (message_tracker options world msg c) as (Hw & Hk & Hb & _).
  rewrite Hw, Hk, Hb, message_messages.
  assert (forall (l : list Snowflake) (b : bool),
            In other (l ++ (if b then [authorOf msg] else [])) <-> In other l)
    as Happ.
  { intros l b. rewrite in_app_iff. destruct b; cbn; intuition congruence. }
  split; [| now rewrite !Happ].
  destruct (called Ban _ || called Mute _ || called Kick _).
  - now apply withoutAuthor_other.
  - destruct (admission options world msg) as [[g mb] |]; [| reflexivity].
    rewrite filter_app. cbn [filter currentMessageOf authorID].
    assert ((authorOf msg =? other)%string = false) as ->
      by (apply String.eqb_neq; congruence).
    now rewrite app_nil_r.
Qed.

Lemma X4_witness :
  let c' := cacheAfter (message Example.ipwarnOptions (Example.worldAt 150)
                          (Example.post true "m3" "three" 150)
                          Example.mixedCache) in
  filter (fun r => (authorID r =? "bob")%string) (messages c')
  = filter (fun r => (authorID r =? "bob")%string)
      (messages Example.mixedCache)
  /\ (In "bob"%string (warnedUsers c')
      <-> In "bob"%string (warnedUsers Example.mixedCache))
  /\ (In "bob"%string (kickedUsers c')
      <-> In "bob"%string (kickedUsers Example.mixedCache))
  /\ (In "bob"%string (bannedUsers c')
      <-> In "bob"%string (bannedUsers Example.mixedCache)).
Proof.
  apply (X4_other_users_are_untouched
           Example.ipwarnOptions (Example.worldAt 150)
           (Example.post true "m3" "three" 150) Example.mixedCache
           "bob"%string).
  discriminate.
Defined.

(** X5. Nothing is ever evicted by age: unless a ban, mute or kick is
    called, the cache after a message event holds every record it held
    before, in order, followed by the record of the message if it was
    admitted - however old the records are against [maxInterval]. *)
Theorem X5_no_eviction_by_age
    (options : Options) (world : World) (msg : Message) (c : AntiSpamCache) :
  let r := message options world msg c in
  (forall s, In s (invoked (effects r)) -> s = Warn) ->
  messages (cacheAfter r)
  = messages c
    ++ match admission options world msg with
       | Some (g, _) => [currentMessageOf msg g]
       | None => []
       end.
Proof.
  cbv zeta. intros Honly. rewrite message_messages.
  assert (forall s, s <> Warn ->
                    called s (effects (message options world msg c)) = false)
    as Hnot.
  { intros s Hs. destruct (called s _) eqn:Hc; [| reflexivity].
    apply In_called in Hc. apply Honly in Hc. contradiction. }
  rewrite (Hnot Ban), (Hnot Mute), (Hnot Kick) by discriminate.
  cbn [orb]. destruct (admission options world msg) as [[g mb] |];
    [reflexivity | now rewrite app_nil_r].
Qed.

Lemma X5_witness :
  messages (cacheAfter (message Example.ipwarnOptions (Example.worldAt 90000)
                          (Example.post true "m9" "late" 90000)
                          Example.bannedCache))
  = messages Example.bannedCache
    ++ [currentMessageOf (Example.post true "m9" "late" 90000)
          Example.guild1].
Proof.
  apply (X5_no_eviction_by_age Example.ipwarnOptions (Example.worldAt 90000)
           (Example.post true "m9" "late" 90000) Example.bannedCache).
  intros s H. vm_compute in H. destruct H.
Defined.

(** X6. A client whose [ipwarnEnabled] is false (the default) never
    sanctions and never forgets: after any run of message events the lists
    of warned, kicked and banned users are as before, and the cache holds
    what it held before followed by one record for every message that
    passed the admission filter, in order of arrival. *)
Theorem X6_default_client_only_accumulates
    (options : Options) (events : list (World * Message)) (c : AntiSpamCache) :
  ipwarnEnabled options = false ->
  let c' := afterMessages options events c in
  messages c' = messages c ++ admittedRecords options events
  /\ warnedUsers c' = warnedUsers c
  /\ kickedUsers c' = kickedUsers c
  /\ bannedUsers c' = bannedUsers c
  /\ List.length (messages c')
     = (List.length (messages c)
        + List.length (admittedRecords options events))%nat.
Proof.
  intros Hip. cbv zeta.
  assert (messages (afterMessages options events c)
          = messages c ++ admittedRecords options events
          /\ warnedUsers (afterMessages options events c) = warnedUsers c
          /\ kickedUsers (afterMessages options events c) = kickedUsers c
          /\ bannedUsers (afterMessages options events c) = bannedUsers c)
    as (Hm & Hw & Hk & Hb).
  { revert c. induction events as [| [w m] events IH]; intros c.
    - cbn. now rewrite app_nil_r.
    - cbn [afterMessages admittedRecords flat_map fst snd].
      destruct (IH (cacheAfter (message options w m c)))
        as (Hm & Hw & Hk & Hb).
      rewrite Hm, Hw, Hk, Hb. fold (admittedRecords options events).
      destruct (admission options w m) as [[g mb] |] eqn:Hadm.
      + rewrite (message_ipwarn_off _ _ _ c _ _ Hadm Hip).
        cbn [cacheAfter pushed messages warnedUsers kickedUsers bannedUsers].
        now rewrite <- app_assoc.
      + rewrite (message_rejected _ _ _ c Hadm). now cbn. }
  repeat split; try assumption.
  rewrite Hm. apply length_app.
Qed.

Lemma X6_witness :
  let c' := Example.afterThree Example.defaultOptions in
  messages c'
  = messages emptyCache
    ++ admittedRecords Example.defaultOptions
         [(Example.worldAt 0, Example.post true "m1" "one" 0);
          (Example.worldAt 100, Example.post true "m2" "two" 100);
          (Example.worldAt 200, Example.post true "m3" "three" 200)]
  /\ warnedUsers c' = warnedUsers emptyCache
  /\ kickedUsers c' = kickedUsers emptyCache
  /\ bannedUsers c' = bannedUsers emptyCache
  /\ List.length (messages c')
     = (List.length (messages emptyCache)
        + List.length
            (admittedRecords Example.defaultOptions
               [(Example.worldAt 0, Example.post true "m1" "one" 0);
                (Example.worldAt 100, Example.post true "m2" "two" 100);
                (Example.worldAt 200, Example.post true "m3" "three" 200)]))%nat.
Proof.
  exact (X6_default_client_only_accumulates Example.defaultOptions
           [(Example.worldAt 0, Example.post true "m1" "one" 0);
            (Example.worldAt 100, Example.post true "m2" "two" 100);
            (Example.worldAt 200, Example.post true "m3" "three" 200)]
           emptyCache eq_refl).
Defined.

(** ** Over any run of the three entry points *)

Lemma NoDup_push (l : list Snowflake) (a : Snowflake) :
  NoDup l -> ~ In a l -> NoDup (l ++ [a]).
Proof.
  intros Hl Ha. induction l as [| x l IH]; cbn.
  - constructor; [intros [] | constructor].
  - inversion Hl as [| ? ? Hx Hl']; subst. constructor.
    + rewrite in_app_iff. intros [H | [H | []]]; [contradiction |].
      subst. apply Ha. now left.
    + apply IH; [exact Hl' |]. intros H. apply Ha. now right.
Qed.

Lemma handle_NoDup (options : Options) (e : ClientEvent) (c : AntiSpamCache) :
  NoDup (warnedUsers c) /\ NoDup (kickedUsers c) /\ NoDup (bannedUsers c) ->
  let c' := handle options e c in
  NoDup (warnedUsers c') /\ NoDup (kickedUsers c') /\ NoDup (bannedUsers c').
Proof.
  intros (Hw & Hk & Hb). cbv zeta. destruct e as [w m | member |].
  - cbn [handle].
    destruct (message_tracker options w m c) as (Ew & Ek & Eb & _ & He).
    rewrite Ew, Ek, Eb.
    assert (forall s, s <> Mute -> NoDup (recordedUsers s c) ->
              NoDup (recordedUsers s c
                     ++ (if called s (effects (message options w m c))
                         then [authorOf m] else []))) as Hstep.
    { intros s Hs Hnd. destruct (called s _) eqn:Hc.
      - apply NoDup_push; [exact Hnd |]. intros Hin.
        apply In_called in Hc. specialize (He s Hc).
        rewrite (eligible_recorded options s _ c Hin) in He. discriminate.
      - now rewrite app_nil_r. }
    split; [| split].
    + apply (Hstep Warn); [discriminate | exact Hw].
    + apply (Hstep Kick); [discriminate | exact Hk].
    + apply (Hstep Ban); [discriminate | exact Hb].
  - cbn [handle]. unfold userleave.
    destruct (isGuildIgnored options (member_guild member)).
    + now cbn.
    + cbn [bind getCache setCache ret value cacheAfter effects
           warnedUsers kickedUsers bannedUsers].
      repeat split; now apply NoDup_filter.
  - cbn. repeat split; constructor.
Qed.

(** X7. However messages, departures and resets follow each other on a
    client that starts with the empty cache, no user is ever twice in the
    list of warned users, nor in that of kicked users, nor in that of banned
    users. *)
Theorem X7_no_user_is_recorded_twice
    (options : Options) (events : list ClientEvent) :
  let c := afterEvents options events emptyCache in
  NoDup (warnedUsers c) /\ NoDup (kickedUsers c) /\ NoDup (bannedUsers c).
Proof.
  cbv zeta. unfold afterEvents.
  assert (forall c0,
            NoDup (warnedUsers c0) /\ NoDup (kickedUsers c0)
            /\ NoDup (bannedUsers c0) ->
            NoDup (warnedUsers
                     (fold_left (fun c' e => handle options e c') events c0))
            /\ NoDup (kickedUsers
                        (fold_left (fun c' e => handle options e c') events c0))
            /\ NoDup (bannedUsers
                        (fold_left (fun c' e => handle options e c') events c0)))
    as Hall.
  { induction events as [| e events IH]; intros c0 H0.
    - exact H0.
    - cbn [fold_left]. apply IH. now apply handle_NoDup. }
  apply Hall. cbn. repeat split; constructor.
Qed.

(** ** Departure after a sanction (lines 1260-1279) *)

Lemma filter_push_gone (gone : Snowflake) (l : list Snowflake) (b : bool) :
  filter (fun u => negb (u =? gone)%string)
    (l ++ (if b then [gone] else []))
  = filter (fun u => negb (u =? gone)%string) l.
Proof.
  rewrite filter_app. destruct b; cbn [filter].
  - rewrite String.eqb_refl. cbn [negb]. now rewrite app_nil_r.
  - now rewrite app_nil_r.
Qed.

Lemma filter_absent (gone : Snowflake) (l : list Snowflake) :
  ~ In gone l -> filter (fun u => negb (u =? gone)%string) l = l.
Proof.
  intros H. apply filter_all. apply Forall_forall. intros u Hu.
  apply negb_true_iff, String.eqb_neq. intros ->. contradiction.
Qed.

(** X8. When a member whose guild is not ignored leaves, whatever the
    member's last message had recorded is gone: the three lists are what
    [userleave] would have made of them without that message, so for a
    member who was in none of them they are as before the message.  The
    cached messages stay as the message left them, purged or not. *)
Theorem X8_userleave_undoes_what_was_recorded
    (options : Options) (world : World) (msg : Message)
    (member : GuildMember) (c : AntiSpamCache) :
  user_id (member_user member) = authorOf msg ->
  isGuildIgnored options (member_guild member) = false ->
  let c1 := cacheAfter (message options world msg c) in
  let c2 := cacheAfter (userleave options member c1) in
  let c0 := cacheAfter (userleave options member c) in
  (warnedUsers c2, kickedUsers c2, bannedUsers c2)
  = (warnedUsers c0, kickedUsers c0, bannedUsers c0)
  /\ messages c2 = messages c1
  /\ (~ In (authorOf msg) (warnedUsers c) ->
      ~ In (authorOf msg) (kickedUsers c) ->
      ~ In (authorOf msg) (bannedUsers c) ->
      (warnedUsers c2, kickedUsers c2, bannedUsers c2)
      = (warnedUsers c, kickedUsers c, bannedUsers c))
  /\ (forall s, eligible options s (authorOf msg) c2 = tierEnabled options s).
Proof.
  intros Hid Hg. cbv zeta. unfold userleave. rewrite Hg.
  cbn [bind getCache setCache ret value cacheAfter effects
       messages warnedUsers kickedUsers bannedUsers].
  rewrite Hid.
  destruct (message_tracker options world msg c) as (Ew & Ek & Eb & _).
  rewrite Ew, Ek, Eb, !filter_push_gone.
  split; [reflexivity |]. split; [reflexivity |]. split.
  - intros Hw Hk Hb. now rewrite !filter_absent.
  - intros s. unfold eligible.
    assert (includes
              (recordedUsers s
                 {| messages := messages (cacheAfter (message options world msg c));
                    warnedUsers :=
                      filter (fun u => negb (u =? authorOf msg)%string)
                        (warnedUsers c);
                    kickedUsers :=
                      filter (fun u => negb (u =? authorOf msg)%string)
                        (kickedUsers c);
                    bannedUsers :=
                      filter (fun u => negb (u =? authorOf msg)%string)
                        (bannedUsers c) |}) (authorOf msg) = false) as ->.
    { destruct (includes _ _) eqn:Hi; [| reflexivity].
      apply includes_In in Hi.
      destruct s; cbn [recordedUsers warnedUsers kickedUsers bannedUsers] in Hi;
        try (apply filter_differs_In in Hi; tauto).
      destruct Hi. }
    cbn [negb]. apply andb_true_r.
Qed.

Lemma X8_witness :
  let member := Example.aliceIn Example.guild1 true in
  let c1 := cacheAfter (Example.third Example.ipwarnOptions) in
  let c2 := cacheAfter (userleave Example.ipwarnOptions member c1) in
  warnedUsers c1 = ["alice"%string]
  /\ (warnedUsers c2, kickedUsers c2, bannedUsers c2) = ([], [], [])
  /\ messages c2 = messages c1.
Proof.
  pose proof (X8_userleave_undoes_what_was_recorded
                Example.ipwarnOptions (Example.worldAt 1000)
                (Example.post true "m3" "three" 1000)
                (Example.aliceIn Example.guild1 true)
                (Example.afterTwo Example.ipwarnOptions)
                eq_refl eq_refl) as H.
  cbv zeta in H. destruct H as (H1 & H2 & _).
  split; [reflexivity |]. split; [exact H1 | exact H2].
Defined.

(** ** After a purge (lines 787-789, 889-891, 964-966, 1130-1176) *)

Lemma cachedMessagesOf_withoutAuthor (msg : Message) (g : Guild)
    (l : list CachedMessage) :
  cachedMessagesOf msg g (withoutAuthor (authorOf msg) l) = [].
Proof.
  unfold cachedMessagesOf, withoutAuthor.
  induction l as [| r l IH]; [reflexivity |]. cbn [filter].
  destruct (authorID r =? authorOf msg)%string eqn:Ha; cbn [negb filter].
  - exact IH.
  - rewrite Ha. cbn [andb]. exact IH.
Qed.

(** X9. A ban, mute or kick makes the author start again from nothing: the
    cache holds no record of the author afterwards, so on the author's next
    message, in any guild, the only cached message counted is that message
    itself, window and duplicates hold at most one record, and no tier whose
    two thresholds are above one can qualify. *)
Theorem X9_purge_restarts_the_count
    (options : Options) (w1 w2 : World) (m1 m2 : Message) (c : AntiSpamCache)
    (s : Sanction) :
  In s (invoked (effects (message options w1 m1 c))) ->
  s <> Warn ->
  authorOf m2 = authorOf m1 ->
  let c1 := cacheAfter (message options w1 m1 c) in
  (forall r, In r (messages c1) -> authorID r <> authorOf m1)
  /\ forall g,
       cachedAt m2 g c1 = [currentMessageOf m2 g]
       /\ windowCount options w2 m2 g c1 <= 1
       /\ duplicateCount options m2 g c1 <= 1
       /\ (forall s', 1 < countThreshold options s' ->
                      1 < duplicateThreshold options s' ->
                      qualifies options w2 m2 g c1 s' = false).
Proof.
  intros Hi Hs Hau. cbv zeta.
  assert (messages (cacheAfter (message options w1 m1 c))
          = withoutAuthor (authorOf m1) (messages c)) as Hm.
  { rewrite message_messages. apply In_called in Hi.
    destruct s; try contradiction; rewrite Hi;
      cbn [orb]; rewrite ?orb_true_r; reflexivity. }
  split.
  - intros r Hr. rewrite Hm in Hr. now apply withoutAuthor_In in Hr.
  - intros g.
    assert (cachedAt m2 g (cacheAfter (message options w1 m1 c))
            = [currentMessageOf m2 g]) as Hc.
    { rewrite cachedAt_push, Hm, <- Hau.
      now rewrite cachedMessagesOf_withoutAuthor. }
    split; [exact Hc |].
    pose proof (windowCount_le options w2 m2 g
                  (cacheAfter (message options w1 m1 c))) as Hw.
    pose proof (duplicateCount_le options m2 g
                  (cacheAfter (message options w1 m1 c))) as Hd.
    rewrite Hc in Hw, Hd. unfold len in Hw, Hd. cbn [List.length] in Hw, Hd.
    split; [lia |]. split; [lia |].
    intros s' H1 H2. apply qualifies_unreached; lia.
Qed.

Lemma X9_witness :
  let c1 := cacheAfter (Example.fourth Example.ipwarnOptions) in
  let m5 := Example.post true "m5" "five" 400 in
  (forall r, In r (messages c1) -> authorID r <> "alice"%string)
  /\ forall g,
       cachedAt m5 g c1 = [currentMessageOf m5 g]
       /\ windowCount Example.ipwarnOptions (Example.worldAt 400) m5 g c1 <= 1
       /\ duplicateCount Example.ipwarnOptions m5 g c1 <= 1
       /\ (forall s', 1 < countThreshold Example.ipwarnOptions s' ->
                      1 < duplicateThreshold Example.ipwarnOptions s' ->
                      qualifies Example.ipwarnOptions (Example.worldAt 400)
                        m5 g c1 s' = false).
Proof.
  apply (X9_purge_restarts_the_count
           Example.ipwarnOptions (Example.worldAt 300) (Example.worldAt 400)
           (Example.post true "m4" "four" 300)
           (Example.post true "m5" "five" 400)
           (Example.afterThree Example.ipwarnOptions) Mute).
  - vm_compute. now left.
  - discriminate.
  - reflexivity.
Defined.

(** ** The messages handed over for deletion (lines 1162-1247) *)

Lemma takeWhile_In {A : Type} (f : A -> bool) (l : list A) (x : A) :
  In x (takeWhile f l) -> In x l.
Proof.
  induction l as [| y l IH]; cbn [takeWhile]; [exact (fun H => H) |].
  destruct (f y); [| intros []]. intros [H | H]; [now left | right; auto].
Qed.

Lemma cachedAt_In (msg : Message) (g : Guild) (c : AntiSpamCache)
    (r : CachedMessage) :
  In r (cachedAt msg g c) ->
  authorID r = authorOf msg
  /\ guildID r = guild_id g
  /\ In r (messages c ++ [currentMessageOf msg g]).
Proof.
  unfold cachedAt, cachedMessagesOf, pushed. cbn [messages].
  rewrite filter_In, andb_true_iff, !String.eqb_eq. tauto.
Qed.

Lemma otherDuplicatesAt_In (options : Options) (msg : Message) (g : Guild)
    (c : AntiSpamCache) (r : CachedMessage) :
  In r (otherDuplicatesAt options msg g c) -> In r (cachedAt msg g c).
Proof.
  unfold otherDuplicatesAt, duplicateRun.
  destruct (duplicatesAt options msg g c) as [| first rest]; [intros [] |].
  cbn [snd]. rewrite walk_takeWhile. cbn [app]. intros H.
  apply takeWhile_In in H.
  now apply (Permutation_in _ (sortDesc_Permutation (cachedAt msg g c))).
Qed.

Lemma spamOf_In (options : Options) (world : World) (msg : Message)
    (g : Guild) (c : AntiSpamCache) (s : Sanction) (r : CachedMessage) :
  In r (spamOf options s (duplicatesAt options msg g c)
          (otherDuplicatesAt options msg g c)
          (windowAt options world msg g c)) ->
  In r (cachedAt msg g c).
Proof.
  unfold spamOf.
  destruct (countThreshold options s <=? len (windowAt options world msg g c)).
  - unfold windowAt, spamMatchesOf. rewrite filter_In. intros [H _].
    now apply (Permutation_in _
                 (duplicateRun_Permutation (cachedAt msg g c)
                    (duplicatesAt options msg g c))).
  - rewrite in_app_iff. intros [H | H].
    + unfold duplicatesAt, duplicateMatchesOf in H.
      now apply filter_In in H.
    + now apply otherDuplicatesAt_In in H.
Qed.

(** A routine runs [clearSpamMessages] on the messages it is given only,
    and does not call a routine. *)
Lemma routineOf_hands_over (options : Options) (world : World) (s : Sanction)
    (msg : Message) (member : GuildMember) (spam : list CachedMessage)
    (c : AntiSpamCache) (s' : Sanction) (x : list CachedMessage) :
  let done := effects (routineOf options world s msg member spam c) in
  (In (ClearSpamMessages x) done -> x = spam)
  /\ ~ In (Invoke s' x) done.
Proof.
  cbv zeta. destruct s; cbn [routineOf].
  - unfold banUser, clearIfEnabled, afterSanction.
    destruct (removeMessages options), (member_bannable member),
      (errorMessages options), (msg_guild msg), (msg_member msg),
      (inGuildText msg), (banResolves world), (modLogsEnabled options),
      (actionInEmbed options);
      cbn; intuition (try discriminate; try congruence).
  - unfold muteUser, clearIfEnabled, afterSanction.
    destruct (removeMessages options), (memberCanBeMuted msg),
      (errorMessages options), (msg_member msg),
      (inGuildText msg), (timeoutResolves world),
      (modLogsEnabled options),
      (actionInEmbed options);
      cbn; intuition (try discriminate; try congruence).
  - unfold kickUser, clearIfEnabled, afterSanction.
    destruct (removeMessages options), (member_kickable member),
      (errorMessages options), (msg_member msg),
      (inGuildText msg), (kickResolves world), (modLogsEnabled options),
      (actionInEmbed options);
      cbn; intuition (try discriminate; try congruence).
  - unfold warnUser, clearIfEnabled.
    destruct (removeMessages options), (modLogsEnabled options),
      (actionInEmbed options);
      cbn; intuition (try discriminate; try congruence).
Qed.

Lemma ipEffects_In (msg : Message) (e : Effect) :
  In e (ipEffects msg) -> isIpEffect e = true.
Proof.
  unfold ipEffects.
  destruct (matchesIp (msg_content msg)), (inGuildText msg); cbn;
    intuition (subst; reflexivity).
Qed.

(** X10. [message] only ever hands over, and has [clearSpamMessages] run
    on, messages of the author of the message in the guild of the message:
    every record in the list a routine is called with is a cached record
    (that of the message included) whose [authorID] and [guildID] are those
    of the message. *)
Theorem X10_only_the_authors_messages_are_handed_over
    (options : Options) (world : World) (msg : Message) (c : AntiSpamCache)
    (spam : list CachedMessage) (rec : CachedMessage) :
  let r := message options world msg c in
  (exists s, In (Invoke s spam) (effects r))
  \/ In (ClearSpamMessages spam) (effects r) ->
  In rec spam ->
  exists g,
    msg_guild msg = Some g
    /\ authorID rec = authorOf msg
    /\ guildID rec = guild_id g
    /\ In rec (messages c ++ [currentMessageOf msg g]).
Proof.
  cbv zeta. intros Heff Hrec.
  destruct (message_cases options world msg c)
    as [[_ Hr] | [(g & mb & _ & _ & _ & _ & _ & He)
                 | (g & mb & s & Ha & _ & _ & _ & _ & Hrest)]].
  - rewrite Hr in Heff. destruct Heff as [[s []] | []].
  - exfalso. destruct He as [He | He]; rewrite He in Heff.
    + destruct Heff as [[s []] | []].
    + destruct Heff as [[s H] | H]; apply ipEffects_In in H; discriminate.
  - cbv zeta in Hrest. destruct Hrest as (_ & He & _).
    assert (msg_guild msg = Some g) as Hg
      by apply (admission_guild _ _ _ _ _ Ha).
    assert (spam = spamOf options s (duplicatesAt options msg g c)
                     (otherDuplicatesAt options msg g c)
                     (windowAt options world msg g c)) as Hspam.
    { rewrite He in Heff.
      destruct Heff as [[s' H] | H]; apply in_app_or in H;
        destruct H as [H | [H | H]];
        try (apply ipEffects_In in H; discriminate);
        try discriminate.
      - now injection H as _ <-.
      - exfalso. revert H.
        match goal with
        | |- In _ (effects (routineOf ?o ?w ?s0 ?m ?mb' ?sp ?c0)) -> _ =>
            apply (proj2 (routineOf_hands_over o w s0 m mb' sp c0 s' spam))
        end.
      - revert H.
        match goal with
        | |- In _ (effects (routineOf ?o ?w ?s0 ?m ?mb' ?sp ?c0)) -> _ =>
            apply (proj1 (routineOf_hands_over o w s0 m mb' sp c0 Ban spam))
        end. }
    subst spam. apply spamOf_In, cachedAt_In in Hrec.
    exists g. tauto.
Qed.

Lemma X10_witness :
  exists g,
    msg_guild (Example.post true "m4" "four" 300) = Some g
    /\ authorID (Example.record "guild-1" "m2" "two" 100)
       = authorOf (Example.post true "m4" "four" 300)
    /\ guildID (Example.record "guild-1" "m2" "two" 100) = guild_id g
    /\ In (Example.record "guild-1" "m2" "two" 100)
         (messages Example.bannedCache
          ++ [currentMessageOf (Example.post true "m4" "four" 300) g]).
Proof.
  apply (X10_only_the_authors_messages_are_handed_over
           Example.ipwarnOptions (Example.worldAt 300)
           (Example.post true "m4" "four" 300) Example.bannedCache
           [Example.record "guild-1" "m4" "four" 300;
            Example.record "guild-1" "m3" "three" 200;
            Example.record "guild-1" "m2" "two" 100;
            Example.record "guild-1" "m1" "one" 0]
           (Example.record "guild-1" "m2" "two" 100)).
  - left. exists Mute. vm_compute. now left.
  - right. right. now left.
Defined.

Lemma sortDesc_newest (x : CachedMessage) (l : list CachedMessage) :
  Forall (fun y => sentTimestamp y < sentTimestamp x) l ->
  sortDesc (l ++ [x]) = x :: sortDesc l.
Proof.
  unfold sortDesc. rewrite fold_right_app. cbn [fold_right insertDesc].
  induction 1 as [| y l Hy _ IH]; [reflexivity |].
  cbn [fold_right]. rewrite IH. cbn [insertDesc].
  now apply Z.ltb_lt in Hy as ->.
Qed.

Lemma NoDup_app_In {A : Type} (l1 l2 : list A) (x : A) :
  NoDup (l1 ++ l2) -> In x l1 -> In x l2 -> False.
Proof.
  induction l1 as [| y l1 IH]; intros Hnd H1 H2; [destruct H1 |].
  cbn in Hnd. inversion Hnd as [| ? ? Hy Hnd']; subst.
  destruct H1 as [-> | H1].
  - apply Hy. apply in_or_app. now right.
  - now apply IH.
Qed.

(** X11. With a positive [maxDuplicatesInterval] the message being handled
    is always a duplicate match of itself, whatever the cache holds, so
    [duplicateMatches] is never empty.  When the message is moreover newer
    than every cached message of its author in the guild, it is also the
    first record of [spamOtherDuplicates]; the list handed over on the
    duplicate path, [duplicateMatches] followed by [spamOtherDuplicates],
    then names that message twice. *)
Theorem X11_duplicate_path_names_the_message_twice
    (options : Options) (world : World) (msg : Message) (g : Guild)
    (c : AntiSpamCache) :
  0 < maxDuplicatesInterval options ->
  let current := currentMessageOf msg g in
  let duplicates := duplicatesAt options msg g c in
  let others := otherDuplicatesAt options msg g c in
  (In current duplicates /\ 1 <= duplicateCount options msg g c)
  /\ (Forall (fun r => sentTimestamp r < msg_createdTimestamp msg)
        (cachedMessagesOf msg g (messages c)) ->
      hd_error others = Some current
      /\ ~ NoDup (duplicates ++ others)
      /\ (forall s,
            len (windowAt options world msg g c) < countThreshold options s ->
            ~ NoDup (spamOf options s duplicates others
                       (windowAt options world msg g c)))).
Proof.
  intros Hpos. cbv zeta.
  set (current := currentMessageOf msg g).
  set (old := cachedMessagesOf msg g (messages c)) in *.
  assert (cachedAt msg g c = old ++ [current]) as Hc by apply cachedAt_push.
  assert (In current (duplicatesAt options msg g c)) as Hin.
  { unfold duplicatesAt, duplicateMatchesOf. rewrite Hc.
    apply filter_In. split; [apply in_or_app; right; now left |].
    unfold current. cbn [currentMessageOf content sentTimestamp].
    rewrite String.eqb_refl. cbn [andb]. apply Z.ltb_lt. lia. }
  split.
  { split; [exact Hin |]. unfold duplicateCount, len.
    destruct (duplicatesAt options msg g c); [destruct Hin |].
    cbn [List.length]. lia. }
  intros Hold.
  assert (hd_error (otherDuplicatesAt options msg g c) = Some current) as Hhd.
  { unfold otherDuplicatesAt, duplicateRun.
    destruct (duplicatesAt options msg g c) as [| first rest] eqn:Hd;
      [destruct Hin |].
    assert (content first = msg_content msg) as Hfirst.
    { assert (In first (duplicatesAt options msg g c)) as Hf
        by (rewrite Hd; now left).
      unfold duplicatesAt, duplicateMatchesOf in Hf.
      apply filter_In in Hf. destruct Hf as [_ Hf].
      apply andb_true_iff in Hf. now apply String.eqb_eq. }
    cbn [snd]. rewrite walk_takeWhile, Hc, sortDesc_newest by exact Hold.
    cbn [app takeWhile]. rewrite Hfirst. unfold current at 1.
    cbn [currentMessageOf content]. now rewrite String.eqb_refl. }
  assert (In current (otherDuplicatesAt options msg g c)) as Hin2.
  { destruct (otherDuplicatesAt options msg g c); [discriminate |].
    injection Hhd as ->. now left. }
  assert (~ NoDup (duplicatesAt options msg g c
                   ++ otherDuplicatesAt options msg g c)) as Hnd.
  { intros H. exact (NoDup_app_In _ _ current H Hin Hin2). }
  split; [exact Hhd |]. split; [exact Hnd |].
  intros s Hs. unfold spamOf.
  assert ((countThreshold options s <=? len (windowAt options world msg g c))
          = false) as -> by (apply Z.leb_gt; lia).
  exact Hnd.
Qed.

Lemma X11_witness :
  let msg := Example.post true "m4" "three" 300 in
  let current := currentMessageOf msg Example.guild1 in
  In current (duplicatesAt Example.ipwarnOptions msg Example.guild1
                Example.bannedCache)
  /\ hd_error (otherDuplicatesAt Example.ipwarnOptions msg Example.guild1
                 Example.bannedCache) = Some current
  /\ ~ NoDup (duplicatesAt Example.ipwarnOptions msg Example.guild1
                Example.bannedCache
              ++ otherDuplicatesAt Example.ipwarnOptions msg Example.guild1
                   Example.bannedCache).
Proof.
  pose proof (X11_duplicate_path_names_the_message_twice
                Example.ipwarnOptions (Example.worldAt 300)
                (Example.post true "m4" "three" 300) Example.guild1
                Example.bannedCache eq_refl) as H.
  cbv zeta in H. destruct H as ((H1 & _) & H2).
  destruct H2 as (H3 & H4 & _); [vm_compute; repeat constructor |].
  exact (conj H1 (conj H3 H4)).
Defined.

(** ** How the routines end (lines 779-1038) *)

(** X12. A routine emits its event and resolves to [true] only when it gets
    past [sendActionMessage], which throws when [actionInEmbed] is set: the
    promise of the routine then rejects and nothing is emitted, although
    the ban, timeout or kick has been carried out.  With [actionInEmbed] not
    set: [banUser] emits [banAdd] and resolves to [true] whenever the member
    is bannable - also when the platform's ban fails, whose rejection is
    caught; [muteUser] and [kickUser] emit their event and resolve to
    [true] when the member can be muted, or is kickable, and the platform
    call, made when the message has a member, resolves; when that call
    rejects, their promise rejects and nothing is emitted; [warnUser] emits
    [warnAdd] and resolves to [true].  [banUser], [muteUser] and [kickUser]
    resolve to [false] when the platform refuses. *)
Theorem X12_events_of_the_routines
    (options : Options) (world : World) (msg : Message)
    (member : GuildMember) (spam : list CachedMessage) (c : AntiSpamCache) :
  let banned := banUser options world msg member spam c in
  let muted := muteUser options world msg member spam c in
  let kicked := kickUser options world msg member spam c in
  let warned := warnUser options msg member spam c in
  let resolves (answer : bool) :=
    match msg_member msg with
    | Some _ => answer
    | None => true
    end in
  let hasMember := match msg_member msg with
                   | Some _ => true
                   | None => false
                   end in
  let sends := negb (actionInEmbed options) in
  (emitted (effects banned)
   = (if member_bannable member && sends then [Ban] else [])
   /\ value banned
      = (if member_bannable member
         then (if sends then Some true else None)
         else Some false)
   /\ existsb isPlatformCall (effects banned)
      = member_bannable member && hasMember)
  /\ (emitted (effects muted)
      = (if memberCanBeMuted msg && resolves (timeoutResolves world) && sends
         then [Mute] else [])
      /\ value muted
         = (if memberCanBeMuted msg
            then (if resolves (timeoutResolves world) && sends
                  then Some true else None)
            else Some false)
      /\ existsb isPlatformCall (effects muted)
         = memberCanBeMuted msg && hasMember)
  /\ (emitted (effects kicked)
      = (if member_kickable member && resolves (kickResolves world) && sends
         then [Kick] else [])
      /\ value kicked
         = (if member_kickable member
            then (if resolves (kickResolves world) && sends
                  then Some true else None)
            else Some false)
      /\ existsb isPlatformCall (effects kicked)
         = member_kickable member && hasMember)
  /\ (emitted (effects warned) = (if sends then [Warn] else [])
      /\ value warned = (if sends then Some true else None)
      /\ existsb isPlatformCall (effects warned) = false).
Proof.
  cbv zeta. split; [| split; [| split]].
  - unfold banUser, clearIfEnabled, afterSanction.
    destruct (removeMessages options), (member_bannable member),
      (errorMessages options), (msg_guild msg), (msg_member msg),
      (inGuildText msg), (banResolves world), (modLogsEnabled options),
      (actionInEmbed options);
      (split; [| split]; reflexivity).
  - unfold muteUser, clearIfEnabled, afterSanction.
    destruct (removeMessages options), (memberCanBeMuted msg),
      (errorMessages options), (msg_member msg),
      (inGuildText msg), (timeoutResolves world), (modLogsEnabled options),
      (actionInEmbed options);
      (split; [| split]; reflexivity).
  - unfold kickUser, clearIfEnabled, afterSanction.
    destruct (removeMessages options), (member_kickable member),
      (errorMessages options), (msg_member msg),
      (inGuildText msg), (kickResolves world), (modLogsEnabled options),
      (actionInEmbed options);
      (split; [| split]; reflexivity).
  - unfold warnUser, clearIfEnabled.
    destruct (removeMessages options), (modLogsEnabled options),
      (actionInEmbed options);
      (split; [| split]; reflexivity).
Qed.

Lemma routineOf_rejected (options : Options) (world : World) (s : Sanction)
    (msg : Message) (member : GuildMember) (spam : list CachedMessage)
    (c : AntiSpamCache) :
  denied s msg member = false ->
  msg_member msg <> None ->
  (s = Mute /\ timeoutResolves world = false)
  \/ (s = Kick /\ kickResolves world = false) ->
  let done := routineOf options world s msg member spam c in
  value done = None
  /\ emitted (effects done) = []
  /\ existsb isPlatformCall (effects done) = true
  /\ ~ In (SendActionMessage s) (effects done).
Proof.
  intros Hd Hm Hrej. cbv zeta.
  destruct (msg_member msg) as [mb |] eqn:Hmb; [| contradiction].
  destruct Hrej as [[-> Hr] | [-> Hr]]; cbn [denied routineOf] in *;
    apply negb_false_iff in Hd.
  - unfold muteUser, clearIfEnabled. rewrite Hd, Hmb, Hr.
    destruct (removeMessages options); cbn; intuition discriminate.
  - unfold kickUser, clearIfEnabled. rewrite Hd, Hmb, Hr.
    destruct (removeMessages options); cbn; intuition discriminate.
Qed.

(** X13. When the platform rejects the timeout or the kick that a routine
    called by [message] attempts, [message] still returns [true] and no
    event is emitted; the author's messages are purged from the cache all
    the same, and after a rejected kick the author is in [kickedUsers], so
    the kick is not attempted again. *)
Theorem X13_rejected_platform_call
    (options : Options) (world : World) (msg : Message) (c : AntiSpamCache)
    (g : Guild) (member : GuildMember) (s : Sanction) :
  admission options world msg = Some (g, member) ->
  invoked (effects (message options world msg c)) = [s] ->
  denied s msg member = false ->
  msg_member msg <> None ->
  (s = Mute /\ timeoutResolves world = false)
  \/ (s = Kick /\ kickResolves world = false) ->
  let r := message options world msg c in
  value r = Some true
  /\ emitted (effects r) = []
  /\ existsb isPlatformCall (effects r) = true
  /\ (forall rec, In rec (messages (cacheAfter r)) ->
                  authorID rec <> authorOf msg)
  /\ (s = Kick -> In (authorOf msg) (kickedUsers (cacheAfter r))
                  /\ eligible options Kick (authorOf msg) (cacheAfter r)
                     = false).
Proof.
  intros Hadm Hinv Hden Hmb Hrej. cbv zeta.
  destruct (message_cases options world msg c)
    as [[Hno _] | [(g1 & m1 & _ & _ & _ & Hi & _)
                  | (g1 & m1 & s1 & Ha & _ & _ & Hv & Hi & Hrest)]].
  - congruence.
  - rewrite Hi in Hinv. discriminate.
  - rewrite Hadm in Ha. injection Ha as <- <-.
    rewrite Hi in Hinv. injection Hinv as ->.
    cbv zeta in Hrest. destruct Hrest as (Hc & He & Hem).
    match type of Hc with
    | _ = cacheAfter (routineOf ?o ?w ?s0 ?m ?mb' ?sp ?c0) =>
        destruct (routineOf_rejected o w s0 m mb' sp c0 Hden Hmb Hrej)
          as (_ & Hne & Hp & _);
        pose proof (routineOf_messages o w s0 m mb' sp c0) as Hmsgs;
        destruct (routineOf_tracker o w s0 m mb' sp c0) as (_ & Hk & _)
    end.
    rewrite <- Hc in Hmsgs, Hk.
    split; [exact Hv |]. split; [now rewrite Hem |]. split.
    { rewrite He, existsb_app. cbn [existsb]. rewrite Hp.
      now rewrite !orb_true_r. }
    split.
    + intros rec Hrec. rewrite Hmsgs in Hrec.
      assert (Sanction_eqb s Warn = false) as Hsw
        by (destruct Hrej as [[-> _] | [-> _]]; reflexivity).
      rewrite Hsw in Hrec. now apply withoutAuthor_In in Hrec.
    + intros ->. cbn [Sanction_eqb] in Hk.
      assert (In (authorOf msg)
                (kickedUsers (cacheAfter (message options world msg c))))
        as Hin by (rewrite Hk; apply in_or_app; right; now left).
      split; [exact Hin |]. now apply eligible_recorded.
Qed.

Lemma X13_witness :
  let r := Example.secondMuted (Example.failingWorld 100) in
  value r = Some true
  /\ emitted (effects r) = []
  /\ existsb isPlatformCall (effects r) = true
  /\ (forall rec, In rec (messages (cacheAfter r)) ->
                  authorID rec <> "alice"%string).
Proof.
  pose proof (X13_rejected_platform_call
                Example.muteOnlyOptions (Example.failingWorld 100)
                (Example.post true "m2" "two" 100)
                (cacheAfter
                   (message Example.muteOnlyOptions (Example.worldAt 0)
                      (Example.post true "m1" "one" 0) emptyCache))
                Example.guild1 (Example.aliceIn Example.guild1 true) Mute
                eq_refl eq_refl eq_refl) as H.
  cbv zeta in H. destruct H as (H1 & H2 & H3 & H4 & _).
  - discriminate.
  - left. split; reflexivity.
  - exact (conj H1 (conj H2 (conj H3 H4))).
Defined.

Lemma routineOf_error (options : Options) (world : World) (s : Sanction)
    (msg : Message) (member : GuildMember) (spam : list CachedMessage)
    (c : AntiSpamCache) (e : Sanction) :
  In (SendErrorMessage e) (effects (routineOf options world s msg member spam c)) ->
  (s = Ban /\ e = Ban) \/ ((s = Mute \/ s = Kick) /\ e = Mute).
Proof.
  destruct s; cbn [routineOf].
  - unfold banUser, clearIfEnabled, afterSanction.
    destruct (removeMessages options), (member_bannable member),
      (errorMessages options), (msg_guild msg), (msg_member msg),
      (inGuildText msg), (banResolves world), (modLogsEnabled options),
      (actionInEmbed options);
      cbn; intuition (try discriminate; try (left; split; congruence)).
  - unfold muteUser, clearIfEnabled, afterSanction.
    destruct (removeMessages options), (memberCanBeMuted msg),
      (errorMessages options), (msg_member msg),
      (inGuildText msg), (timeoutResolves world),
      (modLogsEnabled options),
      (actionInEmbed options);
      cbn; intuition (try discriminate; try (right; split; [tauto | congruence])).
  - unfold kickUser, clearIfEnabled, afterSanction.
    destruct (removeMessages options), (member_kickable member),
      (errorMessages options), (msg_member msg),
      (inGuildText msg), (kickResolves world), (modLogsEnabled options),
      (actionInEmbed options);
      cbn; intuition (try discriminate; try (right; split; [tauto | congruence])).
  - unfold warnUser, clearIfEnabled.
    destruct (removeMessages options), (modLogsEnabled options),
      (actionInEmbed options);
      cbn; intuition discriminate.
Qed.

(** X14. The text [options.kickErrorMessage] is never sent: no call of
    [message] sends it, and when a member is not kickable, with
    [errorMessages] on and in a text channel, what [kickUser] sends is
    [options.muteErrorMessage]. *)
Theorem X14_kickErrorMessage_is_never_sent
    (options : Options) (world : World) (msg : Message) (c : AntiSpamCache) :
  ~ In (SendErrorMessage Kick) (effects (message options world msg c))
  /\ (forall member spam,
        member_kickable member = false ->
        errorMessages options = true ->
        inGuildText msg = true ->
        filter (fun e => match e with SendErrorMessage _ => true | _ => false end)
          (effects (kickUser options world msg member spam c))
        = [SendErrorMessage Mute]).
Proof.
  split.
  - intros H.
    destruct (message_cases options world msg c)
      as [[_ Hr] | [(g & mb & _ & _ & _ & _ & _ & He)
                   | (g & mb & s & _ & _ & _ & _ & _ & Hrest)]].
    + rewrite Hr in H. destruct H.
    + destruct He as [He | He]; rewrite He in H; [destruct H |].
      apply ipEffects_In in H. discriminate.
    + cbv zeta in Hrest. destruct Hrest as (_ & He & _). rewrite He in H.
      apply in_app_or in H. destruct H as [H | [H | H]].
      * apply ipEffects_In in H. discriminate.
      * discriminate.
      * apply routineOf_error in H.
        destruct H as [[_ H] | [_ H]]; discriminate.
  - intros member spam Hk He Ht. unfold kickUser, clearIfEnabled.
    rewrite Hk, He, Ht. destruct (removeMessages options); reflexivity.
Qed.

(** ** The constructor (lines 221-332) *)



(** ** [clearSpamMessages] (lines 742-769) *)

Lemma clearSpamMessages_prefix (client : ClientChannels)
    (spam : list CachedMessage) :
  exists rest,
    map deletionOf (filter (deletableIn client) spam)
    = clearSpamMessages client spam ++ rest.
Proof.
  induction spam as [| m spam [rest IH]]; [now exists [] |].
  cbn [clearSpamMessages filter]. unfold deletableIn at 1.
  destruct (client (channelID m)) as [ch |]; [| now exists rest].
  destruct (pc_messages ch) as [cache |].
  - destruct (cache (messageID m)) as [[|] |]; try (now exists rest).
    exists rest. cbn [map app]. now rewrite IH.
  - eexists. cbn [app]. reflexivity.
Qed.

(** X16. [clearSpamMessages] goes through the list it is given up to the
    first record whose channel is cached but has no message manager, where
    it stops; of the records before that one it calls [delete], in the order
    of the list and once for each time a message is listed, on exactly those
    whose channel and message are in the platform's caches and whose message
    is deletable, and skips the others.  So it deletes only messages of the
    list, and all the deletable ones when every cached channel of the list
    has a message manager. *)
Theorem X16_clearSpamMessages
    (client : ClientChannels) (spam : list CachedMessage) :
  clearSpamMessages client spam
  = map deletionOf
      (filter (deletableIn client)
         (takeWhile (fun m => negb (withoutManager client m)) spam))
  /\ (forall before m after,
        spam = before ++ m :: after ->
        withoutManager client m = true ->
        clearSpamMessages client spam = clearSpamMessages client before)
  /\ (exists rest,
        map deletionOf (filter (deletableIn client) spam)
        = clearSpamMessages client spam ++ rest)
  /\ (forall call, In call (clearSpamMessages client spam) ->
                   exists m, In m spam /\ deletionOf m = call
                             /\ deletableIn client m = true)
  /\ (List.length (clearSpamMessages client spam) <= List.length spam)%nat
  /\ ((forall m ch, In m spam -> client (channelID m) = Some ch ->
                    pc_messages ch <> None) ->
      clearSpamMessages client spam
      = map deletionOf (filter (deletableIn client) spam)).
Proof.
  split.
  { induction spam as [| m spam IH]; [reflexivity |].
    cbn [clearSpamMessages takeWhile]. unfold withoutManager at 1.
    destruct (client (channelID m)) as [ch |] eqn:Hch.
    - destruct (pc_messages ch) as [cache |] eqn:Hpc; [| reflexivity].
      cbn [negb filter]. unfold deletableIn at 1. rewrite Hch, Hpc.
      destruct (cache (messageID m)) as [[|] |]; try exact IH.
      cbn [map]. now rewrite IH.
    - cbn [negb filter]. unfold deletableIn at 1. now rewrite Hch. }
  split.
  { intros before m after -> Hm. induction before as [| x before IH].
    - cbn [app clearSpamMessages]. unfold withoutManager in Hm.
      destruct (client (channelID m)) as [ch |]; [| discriminate].
      now destruct (pc_messages ch).
    - cbn [app clearSpamMessages].
      destruct (client (channelID x)) as [ch |]; [| exact IH].
      destruct (pc_messages ch) as [cache |]; [| reflexivity].
      destruct (cache (messageID x)) as [[|] |]; try exact IH.
      now rewrite IH. }
  destruct (clearSpamMessages_prefix client spam) as [rest Hp].
  split; [now exists rest |]. split; [| split].
  - intros call Hc.
    assert (In call (map deletionOf (filter (deletableIn client) spam)))
      as Hin by (rewrite Hp; apply in_or_app; now left).
    apply in_map_iff in Hin. destruct Hin as (m & Hm & Hf).
    apply filter_In in Hf. exists m. tauto.
  - apply (f_equal (@List.length _)) in Hp.
    rewrite length_app, length_map in Hp.
    pose proof (filter_length_le (deletableIn client) spam). lia.
  - clear rest Hp. induction spam as [| m spam IH]; intros Hall;
      [reflexivity |].
    cbn [clearSpamMessages filter]. unfold deletableIn at 1.
    assert (clearSpamMessages client spam
            = map deletionOf (filter (deletableIn client) spam)) as Hrest.
    { apply IH. intros m' ch Hm'. apply Hall. now right. }
    destruct (client (channelID m)) as [ch |] eqn:Hch; [| exact Hrest].
    destruct (pc_messages ch) as [cache |] eqn:Hpc.
    + destruct (cache (messageID m)) as [[|] |]; try exact Hrest.
      cbn [map]. now rewrite Hrest.
    + exfalso. apply (Hall m ch); [now left | exact Hch | exact Hpc].
Qed.

(** ** The IP pattern (lines 1141-1142) *)

Lemma isDigit_not_dot (a : ascii) : isDigit a = true -> isDot a = false.
Proof.
  intros Hd. unfold isDot. destruct (Ascii.eqb a ".") eqn:He; [| reflexivity].
  apply Ascii.eqb_eq in He. subst. discriminate Hd.
Qed.

Lemma octetDot_Some (s rest : list ascii) :
  octetDot s = Some rest ->
  exists a, s = a ++ "."%char :: rest /\ digits13 a.
Proof.
  unfold octetDot, digits13, isDot.
  destruct s as [| d1 s1]; [discriminate |].
  destruct (isDigit d1) eqn:H1; [| discriminate].
  destruct s1 as [| d2 s2]; [discriminate |].
  destruct (Ascii.eqb d2 ".") eqn:E2.
  { apply Ascii.eqb_eq in E2. subst. intros [= <-]. exists [d1].
    cbn. repeat split; try lia. now repeat constructor. }
  destruct (isDigit d2) eqn:H2; [| discriminate].
  destruct s2 as [| d3 s3]; [discriminate |].
  destruct (Ascii.eqb d3 ".") eqn:E3.
  { apply Ascii.eqb_eq in E3. subst. intros [= <-]. exists [d1; d2].
    cbn. repeat split; try lia. now repeat constructor. }
  destruct (isDigit d3) eqn:H3; [| discriminate].
  destruct s3 as [| d4 s4]; [discriminate |].
  destruct (Ascii.eqb d4 ".") eqn:E4; [| discriminate].
  apply Ascii.eqb_eq in E4. subst. intros [= <-]. exists [d1; d2; d3].
  cbn. repeat split; try lia. now repeat constructor.
Qed.

Lemma octetDot_digits (a rest : list ascii) :
  digits13 a -> octetDot (a ++ "."%char :: rest) = Some rest.
Proof.
  intros [Hlen Hall].
  destruct a as [| d1 [| d2 [| d3 [| d4 a]]]]; cbn in Hlen; try lia;
    repeat match goal with
           | H : Forall _ (_ :: _) |- _ =>
               let Hd := fresh "Hd" in
               apply Forall_cons_iff in H; destruct H as [Hd H]
           end;
    cbn [app octetDot];
    repeat match goal with
           | H : isDigit ?d = true |- _ =>
               rewrite H; rewrite ?(isDigit_not_dot d H); clear H
           end;
    reflexivity.
Qed.

Lemma ipAnywhere_iff (s : list ascii) :
  ipAnywhere s = true <-> exists pre rest, s = pre ++ rest /\ ipAt rest = true.
Proof.
  induction s as [| x s IH]; cbn [ipAnywhere].
  - rewrite orb_false_r. split.
    + intros H. now exists [], [].
    + intros (pre & rest & Hs & H).
      destruct pre; [| discriminate]. cbn in Hs. now subst.
  - rewrite orb_true_iff, IH. split.
    + intros [H | (pre & rest & -> & H)].
      * now exists [], (x :: s).
      * now exists (x :: pre), rest.
    + intros (pre & rest & Hs & H). destruct pre as [| y pre].
      * cbn in Hs. subst. now left.
      * injection Hs as -> ->. right. now exists pre, rest.
Qed.

(** X17. The IP pattern matches a text exactly when the text contains
    four groups of one to three digits separated by single dots, whatever
    numbers the groups spell: there is no check that a group is at most
    255, and a longer run of digits matches through its last three or its
    first three digits. *)
Theorem X17_what_the_ip_pattern_matches (text : string) :
  matchesIp text = true
  <-> exists pre a b c d post,
        list_ascii_of_string text
        = pre ++ a ++ "."%char :: b ++ "."%char :: c ++ "."%char :: d ++ post
        /\ digits13 a /\ digits13 b /\ digits13 c /\ digits13 d.
Proof.
  unfold matchesIp. rewrite ipAnywhere_iff. split.
  - intros (pre & rest & Hs & Hat). unfold ipAt in Hat.
    destruct (octetDot rest) as [s1 |] eqn:H1; [| discriminate].
    destruct (octetDot s1) as [s2 |] eqn:H2; [| discriminate].
    destruct (octetDot s2) as [[| d0 s3] |] eqn:H3; try discriminate.
    apply octetDot_Some in H1, H2, H3.
    destruct H1 as (a & -> & Ha). destruct H2 as (b & -> & Hb).
    destruct H3 as (c & -> & Hc).
    exists pre, a, b, c, [d0], s3. rewrite Hs. cbn [app].
    split; [reflexivity |]. split; [exact Ha |]. split; [exact Hb |].
    split; [exact Hc |]. split; [cbn; lia | now repeat constructor].
  - intros (pre & a & b & c & d & post & Hs & Ha & Hb & Hc & [Hlen Hd]).
    exists pre, (a ++ "."%char :: b ++ "."%char :: c ++ "."%char :: d ++ post).
    split; [exact Hs |]. unfold ipAt.
    rewrite !octetDot_digits by assumption.
    destruct d as [| d0 d]; [cbn in Hlen; lia |].
    cbn [app]. now apply Forall_cons_iff in Hd.
Qed.

(** ** The IP block inside [message] (lines 1140-1156) *)

Lemma routineOf_no_ipEffect (options : Options) (world : World) (s : Sanction)
    (msg : Message) (member : GuildMember) (spam : list CachedMessage)
    (c : AntiSpamCache) :
  filter isIpEffect (effects (routineOf options world s msg member spam c))
  = [].
Proof.
  destruct s; cbn [routineOf].
  - unfold banUser, clearIfEnabled, afterSanction.
    destruct (removeMessages options), (member_bannable member),
      (errorMessages options), (msg_guild msg), (msg_member msg),
      (inGuildText msg), (banResolves world), (modLogsEnabled options),
      (actionInEmbed options);
      reflexivity.
  - unfold muteUser, clearIfEnabled, afterSanction.
    destruct (removeMessages options), (memberCanBeMuted msg),
      (errorMessages options), (msg_member msg),
      (inGuildText msg), (timeoutResolves world),
      (modLogsEnabled options),
      (actionInEmbed options); reflexivity.
  - unfold kickUser, clearIfEnabled, afterSanction.
    destruct (removeMessages options), (member_kickable member),
      (errorMessages options), (msg_member msg),
      (inGuildText msg), (kickResolves world), (modLogsEnabled options),
      (actionInEmbed options);
      reflexivity.
  - unfold warnUser, clearIfEnabled.
    destruct (removeMessages options), (modLogsEnabled options),
      (actionInEmbed options); reflexivity.
Qed.

Lemma ipEffects_filter (msg : Message) :
  filter isIpEffect (ipEffects msg) = ipEffects msg.
Proof.
  unfold ipEffects.
  destruct (matchesIp (msg_content msg)), (inGuildText msg); reflexivity.
Qed.

(** X18. On a client with [ipwarnEnabled] set, an admitted message whose
    content matches the IP pattern has [message.delete()] called once and,
    in a text channel, the notice sent once, before any sanction; a message
    that does not match has neither.  The match is no trigger by itself:
    [message] returns [true] only if a routine is called, and the deleted
    message is counted in the window like any other. *)
Theorem X18_ip_block
    (options : Options) (world : World) (msg : Message) (c : AntiSpamCache)
    (g : Guild) (member : GuildMember) :
  admission options world msg = Some (g, member) ->
  ipwarnEnabled options = true ->
  let r := message options world msg c in
  filter isIpEffect (effects r)
  = (if matchesIp (msg_content msg)
     then DeleteMessage (msg_id msg)
          :: (if inGuildText msg then [SendIpNotice (msg_channel msg)] else [])
     else [])
  /\ (exists rest, effects r = ipEffects msg ++ rest
                   /\ filter isIpEffect rest = [])
  /\ In (currentMessageOf msg g) (cachedAt msg g c)
  /\ (value r = Some true <-> exists s, invoked (effects r) = [s]).
Proof.
  intros Hadm Hip. cbv zeta.
  pose proof (message_outcome c Hadm Hip) as Hout. cbv zeta in Hout.
  assert (In (currentMessageOf msg g) (cachedAt msg g c)) as Hin
    by (rewrite cachedAt_push; apply in_or_app; right; now left).
  destruct (find (qualifies options world msg g c) tierOrder) as [s |].
  - destruct Hout as (Hv & _ & He & Hi & _). rewrite Hv, Hi, He.
    rewrite filter_app, ipEffects_filter. cbn [filter isIpEffect].
    rewrite routineOf_no_ipEffect, app_nil_r.
    split; [reflexivity |]. split.
    + eexists. split; [reflexivity |]. cbn [filter isIpEffect].
      apply routineOf_no_ipEffect.
    + split; [exact Hin |]. split; [intros _; now exists s | reflexivity].
  - destruct Hout as (Hv & _ & He & Hi & _). rewrite Hv, Hi, He.
    rewrite ipEffects_filter.
    split; [reflexivity |]. split.
    + exists []. now rewrite app_nil_r.
    + split; [exact Hin |].
      split; [discriminate | intros [s Hs]; discriminate].
Qed.

Lemma X18_witness :
  let msg := Example.post true "m1" "my server is 10.0.0.1" 0 in
  let r := message Example.ipwarnOptions (Example.worldAt 0) msg emptyCache in
  filter isIpEffect (effects r)
  = [DeleteMessage "m1"%string; SendIpNotice Example.general]
  /\ value r = Some false.
Proof.
  pose proof (X18_ip_block Example.ipwarnOptions (Example.worldAt 0)
                (Example.post true "m1" "my server is 10.0.0.1" 0) emptyCache
                Example.guild1 (Example.aliceIn Example.guild1 true)
                eq_refl eq_refl) as H.
  cbv zeta in H. destruct H as (H1 & _).
  split; [exact H1 | reflexivity].
Defined.

(** ** [getGuildTextBasedChannel] and [log] (lines 621-733) *)

Lemma whenTextBased_Some (found : option GuildChannel) (ch : GuildChannel) :
  whenTextBased found = Some ch <-> found = Some ch /\ gc_isTextBased ch = true.
Proof.
  unfold whenTextBased. destruct found as [x |]; [| split; [discriminate | tauto]].
  destruct (gc_isTextBased x) eqn:Hx; split.
  - intros [= ->]. auto.
  - now intros [[= ->] _].
  - discriminate.
  - intros [[= ->] H]. congruence.
Qed.

Lemma findInGuild_Some (guildChannels : option (list GuildChannel))
    (test : GuildChannel -> bool) (ch : GuildChannel) :
  findInGuild guildChannels test = Some ch ->
  exists l, guildChannels = Some l /\ In ch l /\ test ch = true.
Proof.
  unfold findInGuild. destruct guildChannels as [l |]; [| discriminate].
  intros H. apply find_some in H. exists l. tauto.
Qed.

Lemma getGuildTextBasedChannel_sound (clientChannels : list GuildChannel)
    (guildChannels : option (list GuildChannel)) (wanted : string)
    (ch : GuildChannel) :
  getGuildTextBasedChannel clientChannels guildChannels wanted = Some ch ->
  gc_isGuildText ch = true
  /\ gc_isTextBased ch = true
  /\ (gc_id ch = wanted \/ gc_name ch = wanted)
  /\ (In ch clientChannels
      \/ exists l, guildChannels = Some l /\ In ch l).
Proof.
  unfold getGuildTextBasedChannel. cbv zeta.
  destruct (find (fun x => (gc_id x =? wanted)%string) clientChannels)
    as [x |] eqn:Hfind.
  - apply find_some in Hfind. destruct Hfind as [Hin Hid].
    apply String.eqb_eq in Hid.
    destruct (gc_isGuildText x && gc_isTextBased x) eqn:Hx.
    + intros [= <-]. apply andb_true_iff in Hx. tauto.
    + destruct (whenTextBased _) as [y |] eqn:Hy.
      * intros [= <-]. apply whenTextBased_Some in Hy. destruct Hy as [Hy Ht].
        apply findInGuild_Some in Hy. destruct Hy as (l & Hl & Hinl & Htest).
        apply andb_true_iff in Htest. destruct Htest as [Hn Hg].
        apply String.eqb_eq in Hn. eauto 10.
      * intros Hz. apply whenTextBased_Some in Hz. destruct Hz as [Hz Ht].
        apply findInGuild_Some in Hz. destruct Hz as (l & Hl & Hinl & Htest).
        apply andb_true_iff in Htest. destruct Htest as [Hn Hg].
        apply String.eqb_eq in Hn. eauto 10.
  - destruct (whenTextBased _) as [y |] eqn:Hy.
    + intros [= <-]. apply whenTextBased_Some in Hy. destruct Hy as [Hy Ht].
      apply findInGuild_Some in Hy. destruct Hy as (l & Hl & Hinl & Htest).
      apply andb_true_iff in Htest. destruct Htest as [Hn Hg].
      apply String.eqb_eq in Hn. eauto 10.
    + intros Hz. apply whenTextBased_Some in Hz. destruct Hz as [Hz Ht].
      apply findInGuild_Some in Hz. destruct Hz as (l & Hl & Hinl & Htest).
      apply andb_true_iff in Htest. destruct Htest as [Hn Hg].
      apply String.eqb_eq in Hn. eauto 10.
Qed.

(** X19. [log] sends nothing when [modLogsEnabled] is off, and otherwise
    one message, an embed exactly when [modLogsMode] is "embed", to the
    first of these that is a guild text channel and text based: the channel
    of the client's cache whose id is [modLogsChannel], of whatever guild;
    the first guild text channel of the guild of the message whose name is
    [modLogsChannel]; the first guild text channel of that guild whose id is
    [modLogsChannel].  When there is none of the three, nothing is sent. *)
Theorem X19_where_log_writes
    (options : Options) (p : Presentation)
    (clientChannels : list GuildChannel)
    (channelsOf : Guild -> list GuildChannel)
    (msg : Message) (action : string) :
  let sent := log options p clientChannels channelsOf msg action in
  let wanted := modLogsChannel p in
  let entry ch :=
    if (modLogsMode p =? "embed")%string
    then LogEmbed ch (msg_author msg) action
    else LogText ch (msg_author msg) action in
  let byId := find (fun x => (gc_id x =? wanted)%string) clientChannels in
  let byName g :=
    find (fun x => (gc_name x =? wanted)%string && gc_isGuildText x)
      (channelsOf g) in
  let byIdInGuild g :=
    find (fun x => (gc_id x =? wanted)%string && gc_isGuildText x)
      (channelsOf g) in
  let noneById :=
    forall x, byId = Some x -> gc_isGuildText x && gc_isTextBased x = false in
  let noneByName g :=
    forall x, byName g = Some x -> gc_isTextBased x = false in
  let noneByIdInGuild g :=
    forall x, byIdInGuild g = Some x -> gc_isTextBased x = false in
  (List.length sent <= 1)%nat
  /\ (modLogsEnabled options = false -> sent = [])
  /\ (forall m, In m sent ->
        let ch := logChannel m in
        modLogsEnabled options = true
        /\ gc_isGuildText ch = true
        /\ gc_isTextBased ch = true
        /\ (gc_id ch = wanted \/ gc_name ch = wanted)
        /\ (In ch clientChannels
            \/ exists g, msg_guild msg = Some g /\ In ch (channelsOf g))
        /\ (logIsEmbed m = true <-> modLogsMode p = "embed"%string))
  /\ (modLogsEnabled options = true ->
      (forall ch,
         byId = Some ch ->
         gc_isGuildText ch = true ->
         gc_isTextBased ch = true ->
         sent = [entry ch])
      /\ (forall g ch,
            noneById ->
            msg_guild msg = Some g ->
            byName g = Some ch ->
            gc_isTextBased ch = true ->
            sent = [entry ch])
      /\ (forall g ch,
            noneById ->
            msg_guild msg = Some g ->
            noneByName g ->
            byIdInGuild g = Some ch ->
            gc_isTextBased ch = true ->
            sent = [entry ch])
      /\ (noneById ->
          (forall g, msg_guild msg = Some g ->
                     noneByName g /\ noneByIdInGuild g) ->
          sent = [])).
Proof.
  cbv zeta. unfold log.
  destruct (modLogsEnabled options) eqn:Hen.
  2: { cbn. repeat split; try lia; try discriminate; intros m []. }
  split; [| split; [discriminate | split]].
  - destruct (getGuildTextBasedChannel _ _ _);
      [destruct (modLogsMode p =? "embed")%string |]; cbn; lia.
  - intros m Hm.
    destruct (getGuildTextBasedChannel clientChannels
                (option_map channelsOf (msg_guild msg)) (modLogsChannel p))
      as [ch |] eqn:Hch; [| destruct Hm].
    apply getGuildTextBasedChannel_sound in Hch.
    destruct Hch as (Hg & Ht & Hid & Hwhere).
    assert (In ch clientChannels
            \/ exists g, msg_guild msg = Some g /\ In ch (channelsOf g))
      as Hwhere'.
    { destruct Hwhere as [H | (l & Hl & Hin)]; [now left | right].
      destruct (msg_guild msg) as [g |]; [| discriminate].
      cbn in Hl. injection Hl as <-. now exists g. }
    destruct (modLogsMode p =? "embed")%string eqn:Hmode;
      destruct Hm as [<- | []]; cbn [logChannel logIsEmbed];
      repeat (split; [tauto |]).
    + apply String.eqb_eq in Hmode. tauto.
    + apply String.eqb_neq in Hmode. split; [discriminate | tauto].
  - intros _.
    assert ((forall x,
               find (fun x => (gc_id x =? modLogsChannel p)%string)
                 clientChannels = Some x ->
               gc_isGuildText x && gc_isTextBased x = false) ->
            match find (fun x => (gc_id x =? modLogsChannel p)%string)
                    clientChannels with
            | Some ch =>
                if gc_isGuildText ch && gc_isTextBased ch
                then Some ch else None
            | None => None
            end = None) as Hnone.
    { intros H.
      destruct (find (fun x => (gc_id x =? modLogsChannel p)%string)
                  clientChannels) as [x |]; [| reflexivity].
      now rewrite (H x eq_refl). }
    unfold getGuildTextBasedChannel. cbv zeta.
    split; [| split; [| split]].
    + intros ch Hfind Hg Ht. rewrite Hfind, Hg, Ht. cbn [andb].
      now destruct (modLogsMode p =? "embed")%string.
    + intros g ch Hno Hguild Hname Ht. rewrite (Hnone Hno), Hguild.
      cbn [option_map findInGuild]. rewrite Hname.
      cbn [whenTextBased]. rewrite Ht.
      now destruct (modLogsMode p =? "embed")%string.
    + intros g ch Hno Hguild Hnoname Hid Ht. rewrite (Hnone Hno), Hguild.
      cbn [option_map findInGuild].
      destruct (find (fun x => (gc_name x =? modLogsChannel p)%string
                               && gc_isGuildText x) (channelsOf g))
        as [x |] eqn:Hx.
      * cbn [whenTextBased]. rewrite (Hnoname x eq_refl).
        rewrite Hid. cbn [whenTextBased]. rewrite Ht.
        now destruct (modLogsMode p =? "embed")%string.
      * cbn [whenTextBased]. rewrite Hid. cbn [whenTextBased].
        rewrite Ht. now destruct (modLogsMode p =? "embed")%string.
    + intros Hno Hguild. rewrite (Hnone Hno).
      destruct (msg_guild msg) as [g |]; [| reflexivity].
      destruct (Hguild g eq_refl) as [Hn Hi].
      cbn [option_map findInGuild].
      destruct (find (fun x => (gc_name x =? modLogsChannel p)%string
                               && gc_isGuildText x) (channelsOf g))
        as [x |] eqn:Hx;
        destruct (find (fun x => (gc_id x =? modLogsChannel p)%string
                                 && gc_isGuildText x) (channelsOf g))
          as [y |] eqn:Hy;
        cbn [whenTextBased];
        rewrite ?(Hn _ eq_refl), ?(Hi _ eq_refl); reflexivity.
Qed.

(** ** [sendActionMessage] (lines 364-619) *)

(** X20. [sendActionMessage] sends at most one message.  It goes to the
    channel of the message only when [actionEmbedIn] is "channel" and the
    channel is a guild text channel, and to the author directly only when
    [actionEmbedIn] is anything else.  Without embeds, what is sent for
    "warn", "kick", "mute" and "ban" is the action's own template; the call
    returns [true] for the first three and nothing for "ban"; and for any
    other action name nothing is sent. *)
Theorem X20_where_the_action_message_goes
    (options : Options) (p : Presentation) (msg : Message) (action : string) :
  let out := sendActionMessage options p msg action in
  (List.length (fst out) <= 1)%nat
  /\ (forall d, In d (fst out) ->
        match d with
        | ToChannel ch _ =>
            ch = msg_channel msg
            /\ actionEmbedIn p = "channel"%string
            /\ inGuildText msg = true
        | ToAuthor u _ =>
            u = msg_author msg /\ actionEmbedIn p <> "channel"%string
        end)
  /\ (actionInEmbed options = false ->
      (forall s, action = actionName s ->
         map (fun d => match d with
                       | ToChannel _ payload | ToAuthor _ payload => payload
                       end) (fst out)
         = (if (actionEmbedIn p =? "channel")%string
               && negb (inGuildText msg)
            then []
            else [TextPayload (actionMessage p s)])
         /\ snd out
            = Returns (if Sanction_eqb s Ban then None else Some true))
      /\ ((forall s, action <> actionName s) -> out = ([], Returns None))).
Proof.
  cbv zeta. unfold sendActionMessage.
  destruct (actionInEmbed options) eqn:Hemb.
  - destruct (actionEmbed p action) as [embed |].
    2: { cbn [fst snd List.length]. split; [lia |].
         split; [intros d [] | discriminate]. }
    destruct (actionEmbedIn p =? "channel")%string eqn:Hin;
      [apply String.eqb_eq in Hin | apply String.eqb_neq in Hin];
      destruct (inGuildText msg) eqn:Htext; cbn [fst snd List.length];
      (split; [lia |]); (split; [| discriminate]);
      intros d Hd; cbn in Hd; intuition (subst; auto).
  - assert (forall s, actionText p (actionName s)
                      = Some (actionMessage p s,
                              if Sanction_eqb s Ban then None else Some true))
      as Hname by (intros s; destruct s; reflexivity).
    assert ((forall s, action <> actionName s) -> actionText p action = None)
      as Hother.
    { intros Hno. unfold actionText.
      destruct (action =? "warn")%string eqn:H1;
        [apply String.eqb_eq in H1; now destruct (Hno Warn) |].
      destruct (action =? "kick")%string eqn:H2;
        [apply String.eqb_eq in H2; now destruct (Hno Kick) |].
      destruct (action =? "mute")%string eqn:H3;
        [apply String.eqb_eq in H3; now destruct (Hno Mute) |].
      destruct (action =? "ban")%string eqn:H4;
        [apply String.eqb_eq in H4; now destruct (Hno Ban) |].
      reflexivity. }
    destruct (actionEmbedIn p =? "channel")%string eqn:Hin;
      [apply String.eqb_eq in Hin | apply String.eqb_neq in Hin].
    + split; [| split; [| intros _; split]].
      * destruct (actionText p action) as [[t res] |];
          [destruct (inGuildText msg) |]; cbn; lia.
      * intros d Hd. destruct (actionText p action) as [[t res] |];
          [| destruct Hd].
        destruct (inGuildText msg) eqn:Htext; [| destruct Hd].
        destruct Hd as [<- | []]. auto.
      * intros s Hs. rewrite Hs, Hname. cbn [fst snd andb].
        destruct (inGuildText msg); split; reflexivity.
      * intros Hno. now rewrite (Hother Hno).
    + split; [| split; [| intros _; split]].
      * destruct (actionText p action) as [[t res] |]; cbn; lia.
      * intros d Hd. destruct (actionText p action) as [[t res] |];
          [| destruct Hd].
        destruct Hd as [<- | []]. auto.
      * intros s Hs. rewrite Hs, Hname. cbn [fst snd andb map].
        split; reflexivity.
      * intros Hno. now rewrite (Hother Hno).
Qed.

(** ** A client with [actionInEmbed] set (lines 365-432) *)

(** With [actionInEmbed] set a routine emits nothing and does not get to
    its action message. *)
Lemma routineOf_embed (options : Options) (world : World) (s : Sanction)
    (msg : Message) (member : GuildMember) (spam : list CachedMessage)
    (c : AntiSpamCache) :
  actionInEmbed options = true ->
  let done := routineOf options world s msg member spam c in
  emitted (effects done) = []
  /\ (forall s', ~ In (SendActionMessage s') (effects done))
  /\ value done <> Some true.
Proof.
  intros Hemb. cbv zeta. destruct s; cbn [routineOf].
  - unfold banUser, clearIfEnabled, afterSanction. rewrite Hemb.
    destruct (removeMessages options), (member_bannable member),
      (errorMessages options), (msg_guild msg), (msg_member msg),
      (inGuildText msg), (banResolves world);
      cbn; intuition discriminate.
  - unfold muteUser, clearIfEnabled, afterSanction. rewrite Hemb.
    destruct (removeMessages options), (memberCanBeMuted msg),
      (errorMessages options), (msg_member msg),
      (inGuildText msg), (timeoutResolves world);
      cbn; intuition discriminate.
  - unfold kickUser, clearIfEnabled, afterSanction. rewrite Hemb.
    destruct (removeMessages options), (member_kickable member),
      (errorMessages options), (msg_member msg),
      (inGuildText msg), (kickResolves world);
      cbn; intuition discriminate.
  - unfold warnUser, clearIfEnabled. rewrite Hemb.
    destruct (removeMessages options), (modLogsEnabled options);
      cbn; intuition discriminate.
Qed.

(** X21. With [actionInEmbed] set the client never announces a sanction.
    For "warn", "kick", "mute" and "ban", [sendActionMessage] looks the
    title of the embed up under the key made of the action name and
    "Title", which is no field of the options (the texts configured as
    [warnEmbedTitle], [kickEmbedTitle], [muteEmbedTitle] and
    [banEmbedTitle] are not used), and building the embed throws before
    anything is sent.  So whatever message is handled, no [warnAdd],
    [kickAdd], [muteAdd] or [banAdd] is emitted and no action message is
    sent, and the routine that [message] calls never resolves to [true];
    [message] itself still returns [true] when it calls one. *)
Theorem X21_actionInEmbed_silences_the_client
    (options : Options) (p : Presentation) (world : World) (msg : Message)
    (c : AntiSpamCache) :
  actionInEmbed options = true ->
  let r := message options world msg c in
  (forall s,
     stringOption p (actionName s ++ "Title") = None
     /\ sendActionMessage options p msg (actionName s) = ([], Throws))
  /\ emitted (effects r) = []
  /\ (forall s, ~ In (SendActionMessage s) (effects r))
  /\ (forall s g member,
        admission options world msg = Some (g, member) ->
        invoked (effects r) = [s] ->
        value r = Some true
        /\ value (routineOf options world s msg member
                    (spamOf options s (duplicatesAt options msg g c)
                       (otherDuplicatesAt options msg g c)
                       (windowAt options world msg g c))
                    (pushed c (currentMessageOf msg g))) <> Some true).
Proof.
  intros Hemb. cbv zeta.
  split.
  { intros s. unfold sendActionMessage, actionEmbed. rewrite Hemb.
    destruct s; split; reflexivity. }
  destruct (message_cases options world msg c)
    as [[Ha Hr] | [(g & mb & Ha & Hv & _ & Hi & Hem & He)
                  | (g & mb & s & Ha & _ & _ & Hv & Hi & Hrest)]].
  - rewrite Hr. cbn [effects emitted value].
    split; [reflexivity |]. split; [intros s [] |].
    intros s g member Hadm. congruence.
  - split; [exact Hem |]. split.
    + intros s Hin. destruct He as [He | He]; rewrite He in Hin;
        [destruct Hin | apply ipEffects_In in Hin; discriminate].
    + intros s g' member' _ Hinv. rewrite Hi in Hinv. discriminate.
  - cbv zeta in Hrest. destruct Hrest as (_ & He & Hem).
    match type of Hem with
    | _ = emitted (effects (routineOf ?o ?w ?s0 ?m ?mb' ?sp ?c0)) =>
        destruct (routineOf_embed o w s0 m mb' sp c0 Hemb)
          as (Hnone & Hsend & Hval)
    end.
    split; [now rewrite Hem |]. split.
    + intros s' Hin. rewrite He in Hin. apply in_app_or in Hin.
      destruct Hin as [Hin | [Hin | Hin]];
        [apply ipEffects_In in Hin; discriminate | discriminate |].
      now apply (Hsend s').
    + intros s' g' member' Hadm Hinv. rewrite Ha in Hadm.
      injection Hadm as <- <-. rewrite Hi in Hinv. injection Hinv as <-.
      split; [exact Hv | exact Hval].
Qed.

Lemma X21_witness :
  let r := Example.third Example.embedOptions in
  invoked (effects r) = [Warn]
  /\ value r = Some true
  /\ emitted (effects r) = []
  /\ (forall s, ~ In (SendActionMessage s) (effects r))
  /\ warnedUsers (cacheAfter r) = ["alice"%string].
Proof.
  pose proof (X21_actionInEmbed_silences_the_client
                Example.embedOptions ExampleLog.defaultPresentation
                (Example.worldAt 1000) (Example.post true "m3" "three" 1000)
                (Example.afterTwo Example.embedOptions) eq_refl) as H.
  cbv zeta in H. destruct H as (_ & He & Hs & _).
  split; [reflexivity |]. split; [reflexivity |].
  split; [exact He |]. split; [exact Hs | reflexivity].
Defined.

(** ** The presentation on small inputs *)

Example sendActionMessage_examples :
  sendActionMessage Example.defaultOptions ExampleLog.defaultPresentation
    (Example.post true "m3" "three" 1000) "warn"
  = ([ToChannel Example.general
        (TextPayload "{@user}, Please stop spamming.")], Returns (Some true))
  /\ sendActionMessage Example.defaultOptions ExampleLog.defaultPresentation
       (Example.post true "m3" "three" 1000) "ban"
     = ([ToChannel Example.general
           (TextPayload "**{user_tag}** has been banned for spamming.")],
        Returns None)
  /\ sendActionMessage Example.defaultOptions ExampleLog.defaultPresentation
       (Example.post true "m3" "three" 1000) "timeout"
     = ([], Returns None)
  /\ sendActionMessage Example.embedOptions ExampleLog.defaultPresentation
       (Example.post true "m3" "three" 1000) "warn"
     = ([], Throws).
Proof. repeat split. Qed.

(** The voice channel named "mod-logs" comes first in the guild and is
    passed over; a channel of the client with id "mod-logs" would win. *)
Example log_examples :
  let enabled :=
    {| warnThreshold := 3; muteThreshold := 4; kickThreshold := 5;
       banThreshold := 7; maxInterval := 2000; maxDuplicatesInterval := 2000;
       maxDuplicatesWarn := 7; maxDuplicatesMute := 9;
       maxDuplicatesKick := 10; maxDuplicatesBan := 11;
       unMuteTime := 300000; modLogsEnabled := true; actionInEmbed := false;
       errorMessages := true;
       ignoredMembers := IgnoreIds []; ignoredRoles := IgnoreIds [];
       ignoredGuilds := IgnoreIds []; ignoredChannels := IgnoreIds [];
       ignoredPermissions := []; ignoreBots := true; warnEnabled := true;
       ipwarnEnabled := true; kickEnabled := true; muteEnabled := true;
       banEnabled := true; deleteMessagesAfterBanForPastDays := 1;
       debug := false; removeMessages := true |} in
  log enabled ExampleLog.defaultPresentation []
    (fun _ => [ExampleLog.voice; ExampleLog.modLogs])
    (Example.post true "m3" "three" 1000) "warned"
  = [LogEmbed ExampleLog.modLogs Example.alice "warned"]
  /\ log Example.defaultOptions ExampleLog.defaultPresentation []
       (fun _ => [ExampleLog.modLogs])
       (Example.post true "m3" "three" 1000) "warned"
     = [].
Proof. split; reflexivity. Qed.

Example clearSpamMessages_example :
  let client := fun id : Snowflake =>
    if (id =? "general")%string
    then Some {| pc_messages :=
                   Some (fun m : Snowflake =>
                           if (m =? "m1")%string then Some true
                           else if (m =? "m2")%string then Some false
                           else None) |}
    else None in
  clearSpamMessages client
    [Example.record "guild-1" "m1" "one" 0;
     Example.record "guild-1" "m2" "two" 100;
     Example.record "guild-1" "m3" "three" 200;
     Example.record "guild-1" "m1" "one" 0]
  = [("general", "m1"); ("general", "m1")]%string.
Proof. reflexivity. Qed.

(** ** The same message twice (lines 1120-1132) *)

(** X22. The cache does not recognise a message it has already seen:
    handling an admitted message a second time, when the first handling
    called no ban, mute or kick, appends a second record of it, and the
    second handling counts the message twice among the cached messages of
    its author. *)
Theorem X22_a_message_handled_twice_counts_twice
    (options : Options) (w1 w2 : World) (msg : Message) (c : AntiSpamCache)
    (g : Guild) (member : GuildMember) :
  admission options w1 msg = Some (g, member) ->
  (forall s, In s (invoked (effects (message options w1 msg c))) -> s = Warn) ->
  let current := currentMessageOf msg g in
  let c1 := cacheAfter (message options w1 msg c) in
  messages c1 = messages c ++ [current]
  /\ cachedAt msg g c1 = cachedMessagesOf msg g (messages c) ++ [current; current]
  /\ len (cachedAt msg g c1) = len (cachedAt msg g c) + 1
  /\ (admission options w2 msg = Some (g, member) ->
      (forall s, In s (invoked (effects (message options w2 msg c1))) ->
                 s = Warn) ->
      messages (cacheAfter (message options w2 msg c1))
      = messages c ++ [current; current]).
Proof.
  intros Hadm Honly. cbv zeta.
  assert (forall w c0,
            admission options w msg = Some (g, member) ->
            (forall s, In s (invoked (effects (message options w msg c0))) ->
                       s = Warn) ->
            messages (cacheAfter (message options w msg c0))
            = messages c0 ++ [currentMessageOf msg g]) as Hstep.
  { intros w c0 Ha Ho. rewrite message_messages, Ha.
    assert (forall s, s <> Warn ->
                      called s (effects (message options w msg c0)) = false)
      as Hnot.
    { intros s Hs. destruct (called s _) eqn:Hc; [| reflexivity].
      apply In_called in Hc. apply Ho in Hc. contradiction. }
    now rewrite (Hnot Ban), (Hnot Mute), (Hnot Kick) by discriminate. }
  pose proof (Hstep w1 c Hadm Honly) as H1.
  assert (cachedAt msg g (cacheAfter (message options w1 msg c))
          = cachedMessagesOf msg g (messages c)
            ++ [currentMessageOf msg g; currentMessageOf msg g]) as H2.
  { rewrite cachedAt_push, H1, cachedMessagesOf_push by reflexivity.
    now rewrite <- app_assoc. }
  split; [exact H1 |]. split; [exact H2 |]. split.
  - rewrite H2, cachedAt_push. unfold len. rewrite !length_app.
    cbn [List.length]. lia.
  - intros Hadm2 Honly2. rewrite (Hstep w2 _ Hadm2 Honly2), H1.
    now rewrite <- app_assoc.
Qed.

Lemma X22_witness :
  let msg := Example.post true "m1" "one" 0 in
  let current := currentMessageOf msg Example.guild1 in
  let c1 := cacheAfter (message Example.ipwarnOptions (Example.worldAt 0) msg
                          emptyCache) in
  messages c1 = [current]
  /\ cachedAt msg Example.guild1 c1 = [current; current].
Proof.
  pose proof (X22_a_message_handled_twice_counts_twice
                Example.ipwarnOptions (Example.worldAt 0) (Example.worldAt 0)
                (Example.post true "m1" "one" 0) emptyCache
                Example.guild1 (Example.aliceIn Example.guild1 true)
                eq_refl) as H.
  cbv zeta in H. destruct H as (H1 & H2 & _).
  - intros s Hs. vm_compute in Hs. destruct Hs.
  - exact (conj H1 H2).
Defined.
